(** * ESG-AI-Project: the metrics pipeline of [agents/esg_crew.py], the
      document indexer of [utils/document_loader.py], the form generator of
      [agents/excel_generator.py] and [main.py]

    The development embeds the Python classes [ESGAnalysisCrew],
    [DocumentIndexer] and [ESGFormGenerator] and the function [main] as
    state-passing functions over an explicit world
    (environment variables, directories, files, persisted vector stores,
    the log of the texts sent to the embedding service, the console) and
    proves what the methods do.  What the repository only calls and the
    model cannot decide (the constructors of the crew's objects, the crew's
    generation run, the embedding service, the vector ranking, the creation
    of a directory) is a member of the class [External], and what
    xlsxwriter does with objects of other classes, with names beyond ASCII
    and with the file system is a member of the class [XlsxWriter]; the
    libraries whose behaviour the properties depend on (pathlib, the
    loaders and the text splitter of langchain, Chroma, xlsxwriter) are
    embedded as they behave. *)

From Stdlib Require Import Ascii String List Lia DecimalString.
From stdpp Require Import base gmap strings list.
Import ListNotations.

Set Warnings "-register-all".

Local Open Scope string_scope.
Local Open Scope list_scope.

(** ** Python values *)

(** The values that flow through [ESGAnalysisCrew.run].  A [dict] keeps its
    insertion order, so it is an association list.  [PObject] stands for
    any instance of a class other than the builtins below (for instance the
    output object of a crew). *)
Inductive pyvalue : Type :=
| PNone
| PBool (b : bool)
| PInt (n : Z)
| PStr (s : string)
| PList (items : list pyvalue)
| PDict (entries : list (string * pyvalue))
| PObject (class_name : string) (text : string).

(** [isinstance(v, dict)] *)
Definition isinstance_dict (v : pyvalue) : bool :=
  match v with
  | PDict _ => true
  | _ => false
  end.

(** [d.get(key)] on an association list: the first binding of [key]. *)
Fixpoint assoc_get (key : string) (entries : list (string * pyvalue)) : option pyvalue :=
  match entries with
  | [] => None
  | (k, v) :: rest => if String.eqb k key then Some v else assoc_get key rest
  end.

(** [list(d.keys())]; the empty list for anything that is not a dict. *)
Definition dict_keys (v : pyvalue) : list string :=
  match v with
  | PDict entries => map fst entries
  | _ => []
  end.

Definition dict_get (key : string) (v : pyvalue) : option pyvalue :=
  match v with
  | PDict entries => assoc_get key entries
  | _ => None
  end.

Definition list_items (v : pyvalue) : list pyvalue :=
  match v with
  | PList items => items
  | _ => []
  end.

(** ** Exceptions, outcomes and the world *)

(** An exception: the name of its class, its text, and whether the class
    derives from [Exception] (so that [except Exception] catches it) or from
    [BaseException] only, as [KeyboardInterrupt] and [SystemExit] do. *)
Record exn : Type := mkExn {
  exn_class : string;
  exn_message : string;
  derives_from_Exception : bool
}.

Definition Exception (class_name message : string) : exn := mkExn class_name message true.

Definition BaseException (class_name message : string) : exn :=
  mkExn class_name message false.

Inductive outcome (A : Type) : Type :=
| Returned (a : A)
| Raised (e : exn).
Arguments Returned {A} a.
Arguments Raised {A} e.

(** A path relative to the working directory, as its components:
    [./data/regulations/a.pdf] is [["data"; "regulations"; "a.pdf"]]. *)
Abbreviation path := (list string).

(** One page-structured document as the loaders hand it on. *)
Record Document : Type := mkDocument {
  page_content : string;
  source : path;
  page : nat
}.

(** A regular file.  [pdf_pages] is what [PyPDFLoader] extracts from it: the
    text of its pages, or [None] when the file cannot be read as a PDF. *)
Record File : Type := mkFile {
  fpath : path;
  pdf_pages : option (list string)
}.

(** A piece of an f-string handed to [print]: literal text or an
    interpolated value. *)
Inductive fpiece : Type :=
| Lit (s : string)
| Fmt (v : pyvalue).

Section WithVector.

(** The type of embedding vectors. *)
Context {vector : Type}.

(** A vector store: every chunk with its embedding, in insertion order. *)
Definition store : Type := list (Document * vector).

(** The world: the environment variables, the directories and the regular
    files below the working directory, what Chroma keeps at each persist
    location (a location is in the map once a directory exists there; the
    collection of a directory without an index is empty), the texts sent to
    the embedding service, and the lines printed. *)
Record World : Type := mkWorld {
  environ : gmap string string;
  directories : list path;
  files : list File;
  chroma : gmap string store;
  embed_log : list string;
  console : list (list fpiece)
}.

Definition with_files (w : World) (fs : list File) : World :=
  mkWorld (environ w) (directories w) fs (chroma w) (embed_log w) (console w).

Definition with_chroma (w : World) (kept : gmap string store) : World :=
  mkWorld (environ w) (directories w) (files w) kept (embed_log w) (console w).

Definition with_embed_log (w : World) (log : list string) : World :=
  mkWorld (environ w) (directories w) (files w) (chroma w) log (console w).

Definition with_console (w : World) (lines : list (list fpiece)) : World :=
  mkWorld (environ w) (directories w) (files w) (chroma w) (embed_log w) lines.

(** Python code as a function from the world to an outcome and the world it
    leaves; the effects made before an exception stay. *)
Definition Py (A : Type) : Type := World -> outcome A * World.

Definition ret {A} (a : A) : Py A := fun w => (Returned a, w).

Definition raise {A} (e : exn) : Py A := fun w => (Raised e, w).

Definition bind {A B} (m : Py A) (k : A -> Py B) : Py B :=
  fun w =>
    match m w with
    | (Returned a, w') => k a w'
    | (Raised e, w') => (Raised e, w')
    end.

Definition lift {A} (o : outcome A) : Py A := fun w => (o, w).

(** [print(f"...")] *)
Definition print (line : list fpiece) : Py unit :=
  fun w => (Returned tt, with_console w (console w ++ [line])).

(** [os.getenv(name)] and [os.getenv(name, default)] *)
Definition getenv_opt (name : string) : Py (option string) :=
  fun w => (Returned (environ w !! name), w).

Definition getenv (name default : string) : Py string :=
  fun w => (Returned (from_option id default (environ w !! name)), w).

End WithVector.

Arguments World : clear implicits.
Arguments Py : clear implicits.
Arguments store : clear implicits.

Declare Scope py_scope.
Delimit Scope py_scope with py.
Notation "'do' x <- m 'then' k" := (bind m (fun x => k))
  (at level 10, x name, m at level 100, k at level 200) : py_scope.
Notation "'run_' m 'then' k" := (bind m (fun _ => k))
  (at level 10, m at level 100, k at level 200) : py_scope.

Local Open Scope py_scope.

(** ** The objects of [agents/esg_crew.py] *)

(** The tools, agents, tasks and crew assembled by [ESGAnalysisCrew]. *)
Inductive Tool : Type :=
| PDFSearchTool
| FileReadTool
| DirectoryReadTool (directory : string).

Record ChatGoogleGenerativeAI : Type := mkLlm {
  model : string;
  api_key : option string
}.

Record Agent : Type := mkAgent {
  role : string;
  goal : string;
  backstory : string;
  tools : list Tool;
  llm : ChatGoogleGenerativeAI;
  max_iter : nat;
  agent_verbose : bool
}.

Record Task : Type := mkTask {
  description : string;
  expected_output : string;
  agent : Agent;
  output_json : bool
}.

Inductive Process : Type := sequential | hierarchical.

Record Crew : Type := mkCrew {
  agents : list Agent;
  tasks : list Task;
  crew_verbose : nat;
  process : Process
}.

Record ESGAnalysisCrew : Type := mkESGAnalysisCrew {
  investor_name : string;
  crew_llm : ChatGoogleGenerativeAI;
  regulation_search_tool : Tool;
  file_reader : Tool;
  regulation_dir_tool : Tool;
  framework_dir_tool : Tool;
  regulatory_agent : Agent;
  framework_agent : Agent;
  consolidation_agent : Agent;
  regulatory_task : Task;
  framework_task : Task;
  consolidation_task : Task;
  crew : Crew
}.

(** The object built by [ESGAnalysisCrew.__init__]: [_setup_tools],
    [_create_agents], [_create_tasks] and [_create_crew] in call order.
    [key] is the value of [GOOGLE_API_KEY]. *)
Definition new_ESGAnalysisCrew (investor : string) (key : option string) : ESGAnalysisCrew :=
  let the_llm := mkLlm "gemini-1.5-flash-latest" key in
  let search := PDFSearchTool in
  let reader := FileReadTool in
  let reg_dir := DirectoryReadTool "./data/regulations" in
  let fw_dir := DirectoryReadTool "./data/frameworks" in
  let reg_agent :=
    mkAgent "ESG Regulatory Compliance Specialist"
      "Extract all mandatory ESG metrics and reporting requirements from local regulations"
      "You are an expert in ESG regulatory compliance..."
      [search; reg_dir; reader] the_llm 5 true in
  let fw_agent :=
    mkAgent "Investor ESG Framework Analyst"
      ("Identify all ESG metrics and KPIs required by " ++ investor ++ "...")
      "You specialize in understanding investor ESG frameworks..."
      [fw_dir; search; reader] the_llm 5 true in
  let cons_agent :=
    mkAgent "ESG Metrics Architect"
      "Consolidate and structure all ESG metrics into a comprehensive data collection framework"
      "You are an expert at organizing complex ESG requirements..."
      [] the_llm 3 true in
  let reg_task :=
    mkTask "Analyze all PDF files in the regulations folder..."
      "A detailed list of all regulatory ESG metrics..." reg_agent false in
  let fw_task :=
    mkTask ("Analyze " ++ investor ++ "'s ESG framework documents...")
      ("A comprehensive list of " ++ investor ++ "'s ESG metrics...") fw_agent false in
  let cons_task :=
    mkTask "Consolidate all ESG metrics from regulations and investor requirements..."
      "A JSON-structured comprehensive ESG metrics framework..." cons_agent true in
  let the_crew :=
    mkCrew [reg_agent; fw_agent; cons_agent] [reg_task; fw_task; cons_task] 2 sequential in
  mkESGAnalysisCrew investor the_llm search reader reg_dir fw_dir
    reg_agent fw_agent cons_agent reg_task fw_task cons_task the_crew.

(** ** What the repository calls and the model cannot decide *)

Class External (vector : Type) : Type := {
  (** The constructors that [ESGAnalysisCrew.__init__] and its four helpers
      call for the object described (the language model, the tools, the
      agents, the tasks, the crew), in their order: they check their
      arguments and the environment, and any of them may raise. *)
  construct : ESGAnalysisCrew -> Py vector unit;
  (** [Crew.kickoff(inputs=...)]: runs the agents on the language model and
      hands back the output of the last task, or raises. *)
  kickoff : Crew -> pyvalue -> Py vector pyvalue;
  (** [OpenAIEmbeddings()], [embed_documents] and [embed_query]. *)
  OpenAIEmbeddings_init : Py vector unit;
  embed_documents : list string -> outcome (list vector);
  embed_query : string -> outcome vector;
  (** The ranking behind [Chroma.similarity_search]: at most [k] chunks of
      the store for a query vector. *)
  nearest : store vector -> vector -> nat -> list Document;
  (** [os.makedirs(name, exist_ok=True)]: the exception it raises, if any.
      The directory it makes is not one that the model reads. *)
  makedirs : string -> World vector -> option exn
}.

(** ** agents/esg_crew.py *)

Section ESGCrew.

Context {vector : Type} {E : External vector}.

(** [ESGAnalysisCrew(investor_name)] *)
Definition ESGAnalysisCrew_init (investor : string) : Py vector ESGAnalysisCrew :=
  do key <- getenv_opt "GOOGLE_API_KEY" then
  let self := new_ESGAnalysisCrew investor key in
  run_ construct self then
  ret self.

(** [_create_basic_metrics_structure] *)
Definition _create_basic_metrics_structure : pyvalue :=
  PDict
    [ ("Environmental",
       PDict [("Energy",
               PList [PDict [("name", PStr "Total Energy Consumption");
                             ("unit", PStr "kWh")]])]);
      ("Social",
       PDict [("Employees",
               PList [PDict [("name", PStr "Total Employees");
                             ("unit", PStr "count")]])]);
      ("Governance",
       PDict [("Board",
               PList [PDict [("name", PStr "Board Diversity");
                             ("unit", PStr "%")]])]) ].

(** The [inputs] dict handed to [kickoff]. *)
Definition kickoff_inputs (self : ESGAnalysisCrew) (properties : pyvalue) : pyvalue :=
  PDict [("investor_name", PStr (investor_name self)); ("properties", properties)].

Definition not_a_dictionary_warning (result : pyvalue) : list fpiece :=
  [Lit "Warning: Crew output was not a dictionary. Raw output: "; Fmt result].

(** [ESGAnalysisCrew.run] *)
Definition run (self : ESGAnalysisCrew) (properties : pyvalue) : Py vector pyvalue :=
  do result <- kickoff (crew self) (kickoff_inputs self properties) then
  if isinstance_dict result then
    ret result
  else
    run_ print (not_a_dictionary_warning result) then
    ret _create_basic_metrics_structure.

End ESGCrew.

(** ** Reading a taxonomy *)

(** The metric records under one subcategory of one category. *)
Definition metrics_at (taxonomy : pyvalue) (category subcategory : string) : list pyvalue :=
  match dict_get category taxonomy with
  | Some subs =>
      match dict_get subcategory subs with
      | Some metrics => list_items metrics
      | None => []
      end
  | None => []
  end.

(** All metric records of a taxonomy, category by category. *)
Definition all_metrics (taxonomy : pyvalue) : list pyvalue :=
  match taxonomy with
  | PDict cats =>
      flat_map
        (fun cat =>
           match snd cat with
           | PDict subs => flat_map (fun sub => list_items (snd sub)) subs
           | _ => []
           end)
        cats
  | _ => []
  end.

(** The metric records held by one category. *)
Definition metrics_of_category (taxonomy : pyvalue) (category : string) : list pyvalue :=
  match dict_get category taxonomy with
  | Some (PDict subs) => flat_map (fun sub => list_items (snd sub)) subs
  | _ => []
  end.

(** [s.lower()] on ASCII letters. *)
Definition lower_ascii (c : ascii) : ascii :=
  let n := nat_of_ascii c in
  if (65 <=? n)%nat && (n <=? 90)%nat then ascii_of_nat (n + 32) else c.

Fixpoint lower (s : string) : string :=
  match s with
  | EmptyString => EmptyString
  | String c rest => String (lower_ascii c) (lower rest)
  end.

(** The name of a metric record, the empty string when it has none. *)
Definition metric_name (metric : pyvalue) : string :=
  match dict_get "name" metric with
  | Some (PStr s) => s
  | _ => ""
  end.

(** How many of the records are named [name], compared without case. *)
Definition count_named (name : string) (metrics : list pyvalue) : nat :=
  length (List.filter (fun m => String.eqb (lower (metric_name m)) (lower name)) metrics).

(** The five fields of a metric record. *)
Definition metric_fields : list string :=
  ["name"; "description"; "unit"; "frequency"; "data_type"].

Definition has_all_fields (metric : pyvalue) : bool :=
  forallb (fun f => bool_decide (is_Some (dict_get f metric))) metric_fields.

(** ** Paths and glob patterns *)

(** [s.split(sep)] for a one-character separator. *)
Fixpoint split_on (sep : ascii) (s : string) : list string :=
  match s with
  | EmptyString => [EmptyString]
  | String c rest =>
      if Ascii.eqb c sep then EmptyString :: split_on sep rest
      else
        match split_on sep rest with
        | [] => [String c EmptyString]
        | piece :: pieces => String c piece :: pieces
        end
  end.

(** The components of a relative path written with slashes; the empty
    components and the [.] components are dropped, as [pathlib.Path] does. *)
Definition path_of (s : string) : path :=
  List.filter (fun part => negb (String.eqb part "" || String.eqb part "."))
    (split_on "/" s).

(** [p.relative_to(root)]: the components of [p] below [root]. *)
Fixpoint relative_to (root p : path) : option path :=
  match root with
  | [] => Some p
  | r :: root' =>
      match p with
      | [] => None
      | c :: p' => if String.eqb r c then relative_to root' p' else None
      end
  end.

(** [fnmatch.fnmatchcase(name, pat)] for patterns made of literal characters,
    [*] (any run of characters) and [?] (any one character). *)
Fixpoint fnmatch (pat : string) : string -> bool :=
  match pat with
  | EmptyString =>
      fun name => match name with EmptyString => true | _ => false end
  | String c pat' =>
      if Ascii.eqb c "*" then
        fix star (name : string) : bool :=
          fnmatch pat' name
          || match name with
             | EmptyString => false
             | String _ name' => star name'
             end
      else
        fun name =>
          match name with
          | EmptyString => false
          | String d name' =>
              (Ascii.eqb c "?" || Ascii.eqb c d) && fnmatch pat' name'
          end
  end.

(** [Path.glob]: a pattern, component by component, against a path relative
    to the directory searched; [**] stands for any number of directories. *)
Fixpoint glob_match (pat : list string) : path -> bool :=
  match pat with
  | [] => fun rel => match rel with [] => true | _ => false end
  | seg :: pat' =>
      if String.eqb seg "**" then
        fix deeper (rel : path) : bool :=
          glob_match pat' rel
          || match rel with
             | [] => false
             | _ :: rel' => deeper rel'
             end
      else
        fun rel =>
          match rel with
          | [] => false
          | c :: rel' => fnmatch seg c && glob_match pat' rel'
          end
  end.

(** [s.endswith(suffix)]: some tail of [s] is [suffix]. *)
Fixpoint endswith (s suffix : string) : bool :=
  String.eqb s suffix
  || match s with
     | EmptyString => false
     | String _ s' => endswith s' suffix
     end.

(** The last component of a path, the empty string for the empty path. *)
Definition basename (p : path) : string := List.last p "".

(** ** The loaders of langchain, with the arguments left at their defaults *)

Inductive LoaderCls : Type := PyPDFLoader.

Record DirectoryLoader : Type := mkDirectoryLoader {
  dl_path : string;
  glob : string;
  loader_cls : LoaderCls;
  recursive : bool;
  load_hidden : bool;
  silent_errors : bool
}.

(** [DirectoryLoader(path, glob=..., loader_cls=...)] *)
Definition new_DirectoryLoader (p g : string) (cls : LoaderCls) : DirectoryLoader :=
  mkDirectoryLoader p g cls false false false.

(** A relative path is visible when none of its components starts with a dot. *)
Definition is_visible (rel : path) : bool :=
  forallb (fun part => negb (String.prefix "." part)) rel.

(** The pattern a loader hands to [pathlib]: [rglob] searches below [**]. *)
Definition glob_parts (loader : DirectoryLoader) : list string :=
  (if recursive loader then ["**"] else []) ++ split_on "/" (glob loader).

(** Is the file picked up by the loader? *)
Definition selected (loader : DirectoryLoader) (f : File) : bool :=
  match relative_to (path_of (dl_path loader)) (fpath f) with
  | Some rel => glob_match (glob_parts loader) rel && (is_visible rel || load_hidden loader)
  | None => false
  end.

(** [PyPDFLoader(path).load()] on a readable file: one document per page. *)
Definition pdf_documents (p : path) (pages : list string) : list Document :=
  imap (fun i text => mkDocument text p i) pages.

Definition PdfReadError (p : path) : exn :=
  Exception "PdfReadError" (String.concat "/" p).

(** The loop of [DirectoryLoader.load] over the files it picked up. *)
Fixpoint load_files (silent : bool) (items : list File) : outcome (list Document) :=
  match items with
  | [] => Returned []
  | f :: rest =>
      match pdf_pages f with
      | Some pages =>
          match load_files silent rest with
          | Returned docs => Returned (pdf_documents (fpath f) pages ++ docs)
          | Raised e => Raised e
          end
      | None => if silent then load_files silent rest else Raised (PdfReadError (fpath f))
      end
  end.

(** ** Strings as Python counts them *)

(** A Python [str] is kept as its UTF-8 bytes.  A byte of the form
    [10xxxxxx] continues a character; every other byte starts one. *)
Definition is_continuation (c : ascii) : bool :=
  let n := nat_of_ascii c in (128 <=? n)%nat && (n <? 192)%nat.

(** [len(s)]: the number of characters. *)
Fixpoint py_strlen (s : string) : nat :=
  match s with
  | EmptyString => 0
  | String c rest => (if is_continuation c then 0 else 1) + py_strlen rest
  end.

(** [list(s)]: the characters of [s], each with its continuation bytes. *)
Fixpoint chars (s : string) : list string :=
  match s with
  | EmptyString => []
  | String c rest =>
      let groups := chars rest in
      match rest with
      | String d _ =>
          if is_continuation d then
            match groups with
            | group :: others => String c group :: others
            | [] => [String c EmptyString]
            end
          else String c EmptyString :: groups
      | EmptyString => [String c EmptyString]
      end
  end.

(** [s[:n]] *)
Definition str_prefix (n : nat) (s : string) : string :=
  String.concat "" (firstn n (chars s)).

Definition char_of (codes : list nat) : string :=
  string_of_list_ascii (map ascii_of_nat codes).

(** The characters for which [str.isspace] holds. *)
Definition whitespace : list string :=
  map char_of
    [[9]; [10]; [11]; [12]; [13]; [28]; [29]; [30]; [31]; [32];
     [194; 133]; [194; 160]; [225; 154; 128];
     [226; 128; 128]; [226; 128; 129]; [226; 128; 130]; [226; 128; 131];
     [226; 128; 132]; [226; 128; 133]; [226; 128; 134]; [226; 128; 135];
     [226; 128; 136]; [226; 128; 137]; [226; 128; 138];
     [226; 128; 168]; [226; 128; 169]; [226; 128; 175]; [226; 129; 159];
     [227; 128; 128]].

Definition is_space (ch : string) : bool := existsb (String.eqb ch) whitespace.

Fixpoint lstrip_chars (cs : list string) : list string :=
  match cs with
  | [] => []
  | ch :: rest => if is_space ch then lstrip_chars rest else cs
  end.

(** [s.strip()] *)
Definition strip (s : string) : string :=
  String.concat "" (rev (lstrip_chars (rev (lstrip_chars (chars s))))).

(** [str(n)] for a natural number and for an integer. *)
Definition str_of_nat (n : nat) : string := NilEmpty.string_of_uint (Nat.to_uint n).

Definition str_of_Z (n : Z) : string := NilEmpty.string_of_int (Z.to_int n).

(** Is every character of the string an ASCII character? *)
Definition is_ascii (s : string) : bool :=
  forallb (fun c => (nat_of_ascii c <? 128)%nat) (list_ascii_of_string s).

(** [s * n] *)
Fixpoint repeat_string (n : nat) (s : string) : string :=
  match n with
  | O => EmptyString
  | S n' => s ++ repeat_string n' s
  end.

(** The newline, and the blank line that [search] puts between chunks. *)
Definition newline : string := String (ascii_of_nat 10) EmptyString.
Definition blank_line : string := newline ++ newline.

(** ** The text splitter of langchain

    [RecursiveCharacterTextSplitter] with the arguments that
    [index_documents] does not give left at their defaults: the separators
    are literal text, each piece keeps the separator before it, the length
    of a text is [len], and a chunk is stripped of the white space around
    it. *)

(** [re.split(re.escape(sep), text)] for a separator that is not empty: the
    pieces between the occurrences of [sep], found from left to right.
    [skip] counts the characters of an occurrence still to be passed. *)
Fixpoint pieces (sep : string) (skip : nat) (text : string) : list string :=
  match text with
  | EmptyString => [EmptyString]
  | String c rest =>
      match skip with
      | S skip' => pieces sep skip' rest
      | O =>
          if String.prefix sep text then
            EmptyString :: pieces sep (String.length sep - 1) rest
          else
            match pieces sep 0 rest with
            | piece :: others => String c piece :: others
            | [] => [String c EmptyString]
            end
      end
  end.

(** [_split_text_with_regex(text, separator, keep_separator=True)]: every
    piece but the first starts with the separator before it; the empty
    pieces are dropped. *)
Definition _split_text_with_regex (text separator : string) : list string :=
  let splits :=
    if String.eqb separator "" then chars text
    else
      match pieces separator 0 text with
      | [] => []
      | first :: others => first :: map (fun piece => (separator ++ piece)%string) others
      end in
  List.filter (fun s => negb (String.eqb s "")) splits.

Record RecursiveCharacterTextSplitter : Type := mkSplitter {
  chunk_size : nat;
  chunk_overlap : nat;
  separators : list string
}.

Section Splitter.

Variable self : RecursiveCharacterTextSplitter.

(** [_join_docs]: the pieces joined and stripped, nothing when that is
    empty. *)
Definition _join_docs (docs : list string) (separator : string) : list string :=
  let text := strip (String.concat separator docs) in
  if String.eqb text "" then [] else [text].

(** The [while] loop of [_merge_splits], which drops pieces from the front
    of [current_doc] until what is left fits the overlap and leaves room for
    the piece of length [len]. *)
Fixpoint pop_overlap (separator_len len : nat) (current_doc : list string) (total : nat)
  : list string * nat :=
  match current_doc with
  | [] => ([], total)
  | first :: rest =>
      if (chunk_overlap self <? total)%nat
         || ((chunk_size self <? total + len + separator_len)%nat && (0 <? total)%nat)
      then
        pop_overlap separator_len len rest
          (total - (py_strlen first + match rest with [] => 0 | _ => separator_len end))
      else (current_doc, total)
  end.

(** [_merge_splits]: the [for] loop over the pieces, with the pieces of the
    chunk being put together and their length carried along. *)
Fixpoint merge_loop (separator : string) (splits current_doc : list string) (total : nat)
  : list string :=
  match splits with
  | [] => _join_docs current_doc separator
  | d :: more =>
      let separator_len := py_strlen separator in
      let len := py_strlen d in
      match current_doc with
      | [] =>
          merge_loop separator more [d] (total + len)
      | _ :: _ =>
          if (chunk_size self <? total + len + separator_len)%nat then
            let (kept, total') := pop_overlap separator_len len current_doc total in
            _join_docs current_doc separator
            ++ merge_loop separator more (kept ++ [d])
                 (total' + len + match kept with [] => 0 | _ => separator_len end)
          else
            merge_loop separator more (current_doc ++ [d]) (total + len + separator_len)
      end
  end.

Definition _merge_splits (splits : list string) (separator : string) : list string :=
  merge_loop separator splits [] 0.

(** The loop of [_split_text] over the pieces: the short ones are gathered
    and merged, a long one is split again by [deeper]. *)
Fixpoint split_loop (deeper : string -> list string) (splits good : list string)
  : list string :=
  match splits with
  | [] => match good with [] => [] | _ => _merge_splits good "" end
  | s :: more =>
      if (py_strlen s <? chunk_size self)%nat then split_loop deeper more (good ++ [s])
      else
        match good with [] => [] | _ => _merge_splits good "" end
        ++ deeper s ++ split_loop deeper more []
  end.

(** Does [text] contain [sep]? *)
Fixpoint contains (sep text : string) : bool :=
  String.prefix sep text
  || match text with
     | EmptyString => false
     | String _ rest => contains sep rest
     end.

(** [_split_text(text, separators)] *)
Fixpoint _split_text (seps : list string) (text : string) : list string :=
  match seps with
  | [] => [text]
  | sep :: new_separators =>
      if String.eqb sep "" then
        split_loop (fun s => [s]) (_split_text_with_regex text sep) []
      else if contains sep text then
        split_loop
          (match new_separators with
           | [] => fun s => [s]
           | _ => _split_text new_separators
           end)
          (_split_text_with_regex text sep) []
      else
        match new_separators with
        | [] => split_loop (fun s => [s]) (_split_text_with_regex text sep) []
        | _ => _split_text new_separators text
        end
  end.

Definition split_text (text : string) : list string := _split_text (separators self) text.

End Splitter.

(** ** utils/document_loader.py *)

Definition FileNotFoundError (message : string) : exn := Exception "FileNotFoundError" message.

Definition ValueError (message : string) : exn := Exception "ValueError" message.

Definition TypeError (message : string) : exn := Exception "TypeError" message.

Section Indexer.

Context {vector : Type} {E : External vector}.

(** Is the path a directory of the world? *)
Definition is_dir (p : path) (w : World vector) : bool := bool_decide (p ∈ directories w).

(** [DirectoryLoader.load]: [FileNotFoundError] when the directory is not
    there, otherwise the documents of the files picked up, in the order the
    directory lists them. *)
Definition DirectoryLoader_load (loader : DirectoryLoader) : Py vector (list Document) :=
  fun w =>
    if is_dir (path_of (dl_path loader)) w then
      (load_files (silent_errors loader) (List.filter (selected loader) (files w)), w)
    else
      (Raised (FileNotFoundError ("Directory not found: '" ++ dl_path loader ++ "'")), w).

(** [TextSplitter.split_documents]: every chunk of every document, with the
    metadata of the document it comes from. *)
Definition split_documents (splitter : RecursiveCharacterTextSplitter)
    (docs : list Document) : list Document :=
  flat_map
    (fun d => map (fun chunk => mkDocument chunk (source d) (page d))
                (split_text splitter (page_content d)))
    docs.

(** A [Chroma] vector store object: the collection as the object has it
    and the location it persists to. *)
Record Chroma : Type := mkChroma {
  collection : store vector;
  chroma_persist_directory : string
}.

(** [Chroma(persist_directory=..., embedding_function=...)]: opens the
    collection kept at the location as it is; where nothing is kept, the
    directory is made and holds an empty collection from then on. *)
Definition Chroma_open (persist_directory : string) : Py vector Chroma :=
  fun w =>
    match chroma w !! persist_directory with
    | Some kept => (Returned (mkChroma kept persist_directory), w)
    | None =>
        (Returned (mkChroma [] persist_directory),
         with_chroma w (<[persist_directory := []]> (chroma w)))
    end.

(** [Chroma.add_texts], as [from_documents] calls it: one call of the
    embedding service on the texts of the chunks, then the chunks go to the
    collection with their vectors.  The collection refuses an empty batch
    and a batch with another number of vectors than of texts. *)
Definition Chroma_add_documents (vs : Chroma) (documents : list Document)
  : Py vector Chroma :=
  fun w =>
    let texts := map page_content documents in
    let w' := with_embed_log w (embed_log w ++ texts) in
    match embed_documents texts with
    | Raised e => (Raised e, w')
    | Returned vectors =>
        match documents with
        | [] => (Raised (ValueError "Expected IDs to be a non-empty list, got 0 IDs"), w')
        | _ :: _ =>
            if Nat.eqb (length vectors) (length documents) then
              (Returned (mkChroma (collection vs ++ zip documents vectors)
                           (chroma_persist_directory vs)), w')
            else
              (Raised (ValueError "Unequal lengths for fields: ids, embeddings"), w')
        end
    end.

(** [Chroma.from_documents]: the store at the location is opened, or made,
    before anything is embedded, and the chunks are added to what it
    holds. *)
Definition Chroma_from_documents (documents : list Document) (persist_directory : string)
  : Py vector Chroma :=
  do vs <- Chroma_open persist_directory then
  Chroma_add_documents vs documents.

(** [Chroma.persist] *)
Definition Chroma_persist (vs : Chroma) : Py vector unit :=
  fun w =>
    (Returned tt,
     with_chroma w (<[chroma_persist_directory vs := collection vs]> (chroma w))).

(** The exception of Chroma for a number of results that is not positive. *)
Definition nonpositive_results (k : Z) : exn :=
  TypeError ("Number of requested results " ++ str_of_Z k
             ++ ", cannot be negative, or zero. in query.").

(** [Chroma.similarity_search]: the query is embedded, then the collection
    is asked for [k] results, which it refuses for a [k] below one. *)
Definition Chroma_similarity_search (vs : Chroma) (query : string) (k : Z)
  : Py vector (list Document) :=
  do q <- lift (embed_query query) then
  if (k <=? 0)%Z then raise (nonpositive_results k)
  else ret (nearest (collection vs) q (Z.to_nat k)).

(** [os.path.exists] on the persist location. *)
Definition path_exists (location : string) : Py vector bool :=
  fun w => (Returned (bool_decide (is_Some (chroma w !! location))), w).

Record DocumentIndexer : Type := mkDocumentIndexer {
  persist_directory : string;
  vectorstore : option Chroma
}.

Definition set_vectorstore (self : DocumentIndexer) (vs : Chroma) : DocumentIndexer :=
  mkDocumentIndexer (persist_directory self) (Some vs).

(** The splitter that [index_documents] builds. *)
Definition text_splitter : RecursiveCharacterTextSplitter :=
  mkSplitter 1000 200 [blank_line; newline; " "; ""].

(** [DocumentIndexer.index_documents].  The method returns [None]; the
    value handed back here is the object after the assignment to
    [self.vectorstore]. *)
Definition index_documents (self : DocumentIndexer) : Py vector DocumentIndexer :=
  let reg_loader := new_DirectoryLoader "./data/regulations" "**/*.pdf" PyPDFLoader in
  let framework_loader := new_DirectoryLoader "./data/frameworks" "**/*.pdf" PyPDFLoader in
  do reg_docs <- DirectoryLoader_load reg_loader then
  do framework_docs <- DirectoryLoader_load framework_loader then
  let all_docs := reg_docs ++ framework_docs in
  let texts := split_documents text_splitter all_docs in
  do vs <- Chroma_from_documents texts (persist_directory self) then
  let self' := set_vectorstore self vs in
  run_ Chroma_persist vs then
  ret self'.

(** [DocumentIndexer._initialize_vectorstore] *)
Definition _initialize_vectorstore (self : DocumentIndexer) : Py vector DocumentIndexer :=
  do present <- path_exists (persist_directory self) then
  if present : bool then
    do vs <- Chroma_open (persist_directory self) then
    ret (set_vectorstore self vs)
  else
    index_documents self.

(** [DocumentIndexer.__init__] *)
Definition DocumentIndexer_init : Py vector DocumentIndexer :=
  run_ OpenAIEmbeddings_init then
  do location <- getenv "CHROMA_PERSIST_DIRECTORY" "./chroma_db" then
  _initialize_vectorstore (mkDocumentIndexer location None).

Definition search_default_k : Z := 5.

Definition NoneType_has_no_attribute (name : string) : exn :=
  Exception "AttributeError" ("'NoneType' object has no attribute '" ++ name ++ "'").

(** [DocumentIndexer.search] *)
Definition search (self : DocumentIndexer) (query : string) (k : Z) : Py vector string :=
  match vectorstore self with
  | None => raise (NoneType_has_no_attribute "similarity_search")
  | Some vs =>
      do results <- Chroma_similarity_search vs query k then
      ret (String.concat blank_line (map page_content results))
  end.

End Indexer.

(** ** Sample capabilities and worlds *)

(** The names of the classes that derive from [BaseException] only. *)
Definition KeyboardInterrupt : exn := BaseException "KeyboardInterrupt" "".

(** Capabilities for the sample runs: the constructors accept what they are
    given, the crew hands back [crew_output], a text is embedded as its
    length, the ranking takes the first [k] chunks of the store, and
    directories can be made. *)
Definition sample_external (crew_output : outcome pyvalue) : External nat :=
  {| construct := fun _ => ret tt;
     kickoff := fun _ _ => lift crew_output;
     OpenAIEmbeddings_init := ret tt;
     embed_documents := fun texts => Returned (map String.length texts);
     embed_query := fun query => Returned (String.length query);
     nearest := fun s _ k => take k (map fst s);
     makedirs := fun _ _ => None |}.

(** The world with nothing in it, and the world with the two data
    directories of the repository. *)
Definition empty_world : World nat := mkWorld ∅ [] [] ∅ [] [].

Definition data_world : World nat :=
  mkWorld ∅
    [["data"]; ["data"; "regulations"]; ["data"; "frameworks"];
     ["data"; "frameworks"; "investor"]]
    [] ∅ [] [].

(** The crew and the properties of [main.py]. *)
Definition blackrock_crew : ESGAnalysisCrew := new_ESGAnalysisCrew "BlackRock" None.

Definition property (name type location : string) : pyvalue :=
  PDict [("name", PStr name); ("type", PStr type); ("location", PStr location)].

Definition main_properties : pyvalue :=
  PList [property "Property A" "Office" "New York";
         property "Property B" "Retail" "California";
         property "Property C" "Industrial" "Texas"].

(** A crew output with the two spellings of one metric side by side. *)
Definition duplicated_taxonomy : pyvalue :=
  PDict
    [("Environmental",
      PDict [("Emissions",
              PList [PDict [("name", PStr "Scope 1 Emissions"); ("unit", PStr "tCO2e")];
                     PDict [("name", PStr "scope 1 emissions"); ("unit", PStr "")]])])].

(** Five PDF files under the regulations directory, the third unreadable,
    and a text file next to them. *)
Definition regulation (name : string) (pages : option (list string)) : File :=
  mkFile ["data"; "regulations"; name] pages.

Definition five_documents : list File :=
  [regulation "a.pdf" (Some ["energy use in kWh"]);
   regulation "b.pdf" (Some ["scope 1 emissions"; "scope 2 emissions"]);
   regulation "c.pdf" None;
   regulation "d.pdf" (Some ["water withdrawal"]);
   regulation "e.pdf" (Some ["board diversity"])].

Definition four_documents_and_notes : list File :=
  [regulation "a.pdf" (Some ["energy use in kWh"]);
   regulation "notes.txt" None;
   mkFile ["data"; "frameworks"; "investor"; "gresb.pdf"] (Some ["tenant engagement"]);
   mkFile ["README.md"] None].

Definition fresh_indexer : DocumentIndexer (vector := nat) :=
  mkDocumentIndexer "./chroma_db" None.

(** ** Python's dynamic operations on values *)

(** [type(v).__name__].  A [PObject] is an instance of a class without
    mapping or sequence methods (a float, an output object). *)
Definition type_name (v : pyvalue) : string :=
  match v with
  | PNone => "NoneType"
  | PBool _ => "bool"
  | PInt _ => "int"
  | PStr _ => "str"
  | PList _ => "list"
  | PDict _ => "dict"
  | PObject class_name _ => class_name
  end.

Definition AttributeError (v : pyvalue) (attribute : string) : exn :=
  Exception "AttributeError"
    ("'" ++ type_name v ++ "' object has no attribute '" ++ attribute ++ "'").

Definition not_iterable (v : pyvalue) : exn :=
  Exception "TypeError" ("'" ++ type_name v ++ "' object is not iterable").

Definition has_no_len (v : pyvalue) : exn :=
  Exception "TypeError" ("object of type '" ++ type_name v ++ "' has no len()").

Definition unhashable (v : pyvalue) : exn :=
  Exception "TypeError" ("unhashable type: '" ++ type_name v ++ "'").

(** [KeyError(key)]; its text is the [repr] of the key. *)
Definition KeyError (key : string) : exn :=
  Exception "KeyError" ("'" ++ key ++ "'").

(** [v.items()] *)
Definition py_items (v : pyvalue) : outcome (list (string * pyvalue)) :=
  match v with
  | PDict entries => Returned entries
  | _ => Raised (AttributeError v "items")
  end.

(** [v.get(key, default)] *)
Definition py_get (v : pyvalue) (key : string) (default : pyvalue) : outcome pyvalue :=
  match v with
  | PDict entries => Returned (from_option id default (assoc_get key entries))
  | _ => Raised (AttributeError v "get")
  end.

(** The characters of a string, each as a string of its own. *)
Definition characters (s : string) : list pyvalue := map PStr (chars s).

(** [iter(v)]: what a [for] loop over [v] goes through. *)
Definition py_iter (v : pyvalue) : outcome (list pyvalue) :=
  match v with
  | PList items => Returned items
  | PDict entries => Returned (map (fun entry => PStr (fst entry)) entries)
  | PStr s => Returned (characters s)
  | _ => Raised (not_iterable v)
  end.

(** [len(v)] *)
Definition py_len (v : pyvalue) : outcome nat :=
  match v with
  | PList items => Returned (length items)
  | PDict entries => Returned (length entries)
  | PStr s => Returned (py_strlen s)
  | _ => Raised (has_no_len v)
  end.

(** [v == s] for a string literal [s]. *)
Definition py_eq_str (v : pyvalue) (s : string) : bool :=
  match v with
  | PStr t => String.eqb t s
  | _ => false
  end.

(** A property as [main.py] writes it: a dict from strings to strings. *)
Abbreviation Property := (list (string * string)).

Fixpoint str_lookup (key : string) (d : Property) : option string :=
  match d with
  | [] => None
  | (k, v) :: rest => if String.eqb k key then Some v else str_lookup key rest
  end.

(** [d.get(key, default)] and [d[key]] on a property. *)
Definition prop_get (d : Property) (key default : string) : string :=
  from_option id default (str_lookup key d).

Definition prop_item (d : Property) (key : string) : outcome string :=
  match str_lookup key d with
  | Some v => Returned v
  | None => Raised (KeyError key)
  end.

(** ** The calls made on an xlsxwriter workbook *)

(** What xlsxwriter meets that the model cannot decide. *)
Class XlsxWriter : Type := {
  (** [worksheet.write] handed an instance of a class other than the
      builtins (a float, a date, an object of a library): the exception it
      raises, if any. *)
  write_object : string -> string -> option exn;
  (** [str.lower] on a string with characters beyond ASCII. *)
  lower_beyond_ascii : string -> string;
  (** What [close] raises when it creates the file, if anything. *)
  create_file : string -> option exn
}.

(** A cell format is the dict of properties handed to [add_format]. *)
Abbreviation Format := pyvalue.

(** One call on a worksheet, with its arguments. *)
Inductive cell_op : Type :=
| set_column (columns : string) (width : nat)
| set_column_at (first_col last_col width : nat)
| set_row (row height : nat)
| merge_range (cells : string) (data : string) (cell_format : Format)
| merge_range_at (first_row first_col last_row last_col : nat) (data : string)
    (cell_format : Format)
| write (row col : nat) (value : pyvalue) (cell_format : option Format)
| freeze_panes (row col : nat)
| data_validation (first_row first_col last_row last_col : nat) (options : pyvalue).

(** A workbook: the file it is to be written to, the formats added, the
    worksheets in the order added, each with the calls made on it, and
    whether [close] was called (the file is written by [close]). *)
Record Workbook : Type := mkWorkbook {
  filename : string;
  added_formats : list Format;
  worksheets : list (string * list cell_op);
  closed : bool
}.

(** Code that writes to one worksheet: from the calls made so far to an
    outcome and the calls made then. *)
Definition Sheet (A : Type) : Type := list cell_op -> outcome A * list cell_op.

Definition sheet_ret {A} (a : A) : Sheet A := fun ops => (Returned a, ops).

Definition sheet_bind {A B} (m : Sheet A) (k : A -> Sheet B) : Sheet B :=
  fun ops =>
    match m ops with
    | (Returned a, ops') => k a ops'
    | (Raised e, ops') => (Raised e, ops')
    end.

Definition sheet_lift {A} (o : outcome A) : Sheet A := fun ops => (o, ops).

(** A call that xlsxwriter carries out whatever its arguments are, among
    them [merge_range] on ranges that do not overlap: the merged ranges of
    a sheet of this generator lie in rows of their own. *)
Definition call (op : cell_op) : Sheet unit := fun ops => (Returned tt, ops ++ [op]).

(** Code that works on a workbook. *)
Definition Xl (A : Type) : Type := Workbook -> outcome A * Workbook.

Definition xl_ret {A} (a : A) : Xl A := fun wb => (Returned a, wb).

Definition xl_bind {A B} (m : Xl A) (k : A -> Xl B) : Xl B :=
  fun wb =>
    match m wb with
    | (Returned a, wb') => k a wb'
    | (Raised e, wb') => (Raised e, wb')
    end.

(** [xlsxwriter.Workbook(filename)] *)
Definition new_Workbook (output_path : string) : Workbook :=
  mkWorkbook output_path [] [] false.

(** [workbook.add_format(properties)] *)
Definition add_format (properties : pyvalue) : Xl Format :=
  fun wb =>
    (Returned properties,
     mkWorkbook (filename wb) (added_formats wb ++ [properties]) (worksheets wb) (closed wb)).

Declare Scope sheet_scope.
Delimit Scope sheet_scope with sheet.
Notation "'do' x <- m 'then' k" := (sheet_bind m (fun x => k))
  (at level 10, x name, m at level 100, k at level 200) : sheet_scope.
Notation "'run_' m 'then' k" := (sheet_bind m (fun _ => k))
  (at level 10, m at level 100, k at level 200) : sheet_scope.

Declare Scope xl_scope.
Delimit Scope xl_scope with xl.
Notation "'do' x <- m 'then' k" := (xl_bind m (fun x => k))
  (at level 10, x name, m at level 100, k at level 200) : xl_scope.
Notation "'run_' m 'then' k" := (xl_bind m (fun _ => k))
  (at level 10, m at level 100, k at level 200) : xl_scope.

(** [for x in xs: body], the loops that carry the [row] counter along, and
    [for i, x in enumerate(xs)]. *)
Fixpoint for_each {A} (xs : list A) (body : A -> Sheet unit) : Sheet unit :=
  match xs with
  | [] => sheet_ret tt
  | x :: rest => sheet_bind (body x) (fun _ => for_each rest body)
  end.

Fixpoint for_rows {A} (xs : list A) (row : nat) (body : A -> nat -> Sheet nat) : Sheet nat :=
  match xs with
  | [] => sheet_ret row
  | x :: rest => sheet_bind (body x row) (fun row' => for_rows rest row' body)
  end.

Definition enumerate {A} (xs : list A) : list (nat * A) := imap (fun i x => (i, x)) xs.

Fixpoint for_xl {A} (xs : list A) (body : A -> Xl unit) : Xl unit :=
  match xs with
  | [] => xl_ret tt
  | x :: rest => xl_bind (body x) (fun _ => for_xl rest body)
  end.

(** ** agents/excel_generator.py *)

(** The [formats] dict: format names to formats, in insertion order. *)
Abbreviation Formats := (list (string * Format)).

(** [formats[key]] and [formats.get(key)] *)
Definition format_item (formats : Formats) (key : string) : outcome Format :=
  match assoc_get key formats with
  | Some f => Returned f
  | None => Raised (KeyError key)
  end.

Definition format_get (formats : Formats) (key : string) : option Format :=
  assoc_get key formats.

Local Open Scope Z_scope.

(** The property dicts of [_create_formats], in the order of the source. *)
Definition format_properties : list (string * pyvalue) :=
  [("title",
    PDict [("bold", PBool true); ("font_size", PInt 16); ("font_color", PStr "white");
           ("bg_color", PStr "#1f4788"); ("align", PStr "center");
           ("valign", PStr "vcenter"); ("border", PInt 1)]);
   ("header",
    PDict [("bold", PBool true); ("font_size", PInt 12); ("font_color", PStr "white");
           ("bg_color", PStr "#4472c4"); ("align", PStr "center");
           ("valign", PStr "vcenter"); ("border", PInt 1); ("text_wrap", PBool true)]);
   ("category",
    PDict [("bold", PBool true); ("font_size", PInt 11); ("bg_color", PStr "#d9e2f3");
           ("border", PInt 1); ("indent", PInt 1)]);
   ("subcategory",
    PDict [("bold", PBool true); ("font_size", PInt 10); ("bg_color", PStr "#e7eef8");
           ("border", PInt 1); ("indent", PInt 2)]);
   ("metric",
    PDict [("font_size", PInt 10); ("border", PInt 1); ("indent", PInt 3);
           ("text_wrap", PBool true)]);
   ("input_numeric",
    PDict [("font_size", PInt 10); ("border", PInt 1); ("bg_color", PStr "#fff2cc");
           ("num_format", PStr "#,##0.00")]);
   ("input_text",
    PDict [("font_size", PInt 10); ("border", PInt 1); ("bg_color", PStr "#fff2cc")]);
   ("input_percent",
    PDict [("font_size", PInt 10); ("border", PInt 1); ("bg_color", PStr "#fff2cc");
           ("num_format", PStr "0.0%")]);
   ("input_currency",
    PDict [("font_size", PInt 10); ("border", PInt 1); ("bg_color", PStr "#fff2cc");
           ("num_format", PStr "$#,##0.00")]);
   ("note",
    PDict [("font_size", PInt 9); ("font_color", PStr "#7f7f7f"); ("italic", PBool true)]);
   ("timestamp",
    PDict [("font_size", PInt 9); ("font_color", PStr "#7f7f7f");
           ("num_format", PStr "yyyy-mm-dd hh:mm:ss")])].

(** The option dicts of [_add_validation]. *)
Definition positive_number_validation : pyvalue :=
  PDict [("validate", PStr "decimal"); ("criteria", PStr ">="); ("value", PInt 0);
         ("error_message", PStr "Please enter a positive number")].

Definition percentage_validation : pyvalue :=
  PDict [("validate", PStr "decimal"); ("criteria", PStr "between"); ("minimum", PInt 0);
         ("maximum", PInt 100);
         ("error_message", PStr "Please enter a value between 0 and 100")].

Definition yes_no_validation : pyvalue :=
  PDict [("validate", PStr "list");
         ("source", PList [PStr "Yes"; PStr "No"; PStr "N/A"]);
         ("dropdown", PBool true)].

Local Close Scope Z_scope.

Section Generator.

Context {X : XlsxWriter}.

(** The integers that convert to a float: [write] takes a number through
    [float], which overflows from [2^1024 - 2^970] on. *)
Definition float_limit : Z := 2 ^ 1024 - 2 ^ 970.

(** What [worksheet.write] raises for a value, if anything: it writes
    [None], booleans, strings and the numbers within the range of a float,
    and has no way to write a list or a dict. *)
Definition write_error (value : pyvalue) : option exn :=
  match value with
  | PNone | PBool _ | PStr _ => None
  | PInt n =>
      if (Z.abs n <? float_limit)%Z then None
      else Some (Exception "OverflowError" "int too large to convert to float")
  | PList _ | PDict _ =>
      Some (TypeError ("Unsupported type <class '" ++ type_name value ++ "'> in write()")%string)
  | PObject class_name text => write_object class_name text
  end.

(** [worksheet.write(row, col, value, cell_format)] *)
Definition write_cell (row col : nat) (value : pyvalue) (cell_format : option Format)
  : Sheet unit :=
  match write_error value with
  | Some e => sheet_lift (Raised e)
  | None => call (write row col value cell_format)
  end.

(** [worksheet.write(row, col, len(xs))]: the length of a list is a machine
    integer, which is within the range of a float. *)
Definition write_count (row col n : nat) : Sheet unit :=
  call (write row col (PInt (Z.of_nat n)) None).

(** The names that a worksheet cannot have and the exceptions for them. *)
Definition invalid_sheetname_characters : list ascii :=
  ["["; "]"; ":"; "*"; "?"; "/"; "\"]%char.

Definition InvalidWorksheetName (message : string) : exn :=
  Exception "InvalidWorksheetName" message.

Definition DuplicateWorksheetName (message : string) : exn :=
  Exception "DuplicateWorksheetName" message.

(** [s.lower()] *)
Definition py_lower (s : string) : string :=
  if is_ascii s then lower s else lower_beyond_ascii s.

(** [Workbook._check_sheetname] against the names of the worksheets added
    so far: an empty name stands for [Sheet] and the number of the
    worksheet; a name is refused when it has more than 31 characters,
    holds one of the characters that Excel forbids, starts or ends with an
    apostrophe, or is, case set aside, the name of a worksheet already
    there. *)
Definition check_sheetname (names : list string) (sheetname : string) : outcome string :=
  let sheetname :=
    if String.eqb sheetname "" then ("Sheet" ++ str_of_nat (S (length names)))%string
    else sheetname in
  if (31 <? py_strlen sheetname)%nat then
    Raised (InvalidWorksheetName
              ("Excel worksheet name '" ++ sheetname ++ "' must be <= 31 chars.")%string)
  else if existsb (fun c => existsb (Ascii.eqb c) invalid_sheetname_characters)
            (list_ascii_of_string sheetname) then
    Raised (InvalidWorksheetName
              ("Invalid Excel character '[]:*?/\' in sheetname '" ++ sheetname ++ "'.")%string)
  else if String.prefix "'" sheetname || endswith sheetname "'" then
    Raised (InvalidWorksheetName
              ("Sheet name cannot start or end with an apostrophe " ++ sheetname ++ ".")%string)
  else if existsb (fun name => String.eqb (py_lower sheetname) (py_lower name)) names then
    Raised (DuplicateWorksheetName
              ("Sheetname '" ++ sheetname ++ "', with case ignored, is already in use.")%string)
  else Returned sheetname.

(** [worksheet = workbook.add_worksheet(name)] followed by the code that
    writes to that worksheet. *)
Definition on_new_worksheet {A} (name : string) (body : Sheet A) : Xl A :=
  fun wb =>
    match check_sheetname (map fst (worksheets wb)) name with
    | Raised e => (Raised e, wb)
    | Returned sheetname =>
        let (result, ops) := body [] in
        (result,
         mkWorkbook (filename wb) (added_formats wb) (worksheets wb ++ [(sheetname, ops)])
           (closed wb))
    end.

(** [workbook.close()]: the file is written, unless it cannot be created. *)
Definition close : Xl unit :=
  fun wb =>
    match create_file (filename wb) with
    | Some e => (Raised e, wb)
    | None =>
        (Returned tt, mkWorkbook (filename wb) (added_formats wb) (worksheets wb) true)
    end.

Local Open Scope xl_scope.

(** [_create_formats]: one [add_format] call per entry, in order. *)
Fixpoint add_formats (entries : list (string * pyvalue)) : Xl Formats :=
  match entries with
  | [] => xl_ret []
  | (name, properties) :: rest =>
      do f <- add_format properties then
      do others <- add_formats rest then
      xl_ret ((name, f) :: others)
  end.

Definition _create_formats : Xl Formats := add_formats format_properties.

Local Close Scope xl_scope.
Local Open Scope sheet_scope.

(** [worksheet.write(row, col, value, formats[key])] *)
Definition write_as (formats : Formats) (row col : nat) (value : pyvalue) (key : string)
  : Sheet unit :=
  do f <- sheet_lift (format_item formats key) then
  write_cell row col value (Some f).

(** [worksheet.write(row, col, datetime.now(), formats[key])]: xlsxwriter
    writes every date of the present; [now] is the reading of the clock. *)
Definition write_datetime (formats : Formats) (row col : nat) (now : string) (key : string)
  : Sheet unit :=
  do f <- sheet_lift (format_item formats key) then
  call (write row col (PObject "datetime" now) (Some f)).

(** [_get_input_format] *)
Definition format_map : list (string * string) :=
  [("numeric", "input_numeric"); ("integer", "input_numeric");
   ("percentage", "input_percent"); ("currency", "input_currency");
   ("text", "input_text"); ("boolean", "input_text")].

Definition _get_input_format (formats : Formats) (data_type : pyvalue)
  : outcome (option Format) :=
  match data_type with
  | PStr s => Returned (format_get formats (prop_get format_map s "input_text"))
  | PList _ | PDict _ => Raised (unhashable data_type)
  | _ => Returned (format_get formats "input_text")
  end.

(** [_add_validation] *)
Definition _add_validation (row col : nat) (data_type : pyvalue) : Sheet unit :=
  if py_eq_str data_type "numeric" || py_eq_str data_type "integer" then
    call (data_validation row col row col positive_number_validation)
  else if py_eq_str data_type "percentage" then
    call (data_validation row col row col percentage_validation)
  else if py_eq_str data_type "boolean" then
    call (data_validation row col row col yes_no_validation)
  else
    sheet_ret tt.

Definition instructions : list string :=
  ["1. Yellow cells indicate required input fields";
   "2. Complete data for each property in its respective sheet";
   "3. Use the 'Data Entry' sheet for consolidated reporting";
   "4. Ensure all units match the specified requirements";
   "5. Save the file regularly to prevent data loss";
   "6. Review the 'Validation Rules' sheet for data requirements"].

(** The body of [_create_overview_sheet]; [now] is the reading of
    [datetime.now()]. *)
Definition overview_sheet (formats : Formats) (now : string) (investor : string)
    (properties : list Property) : Sheet unit :=
  run_ call (set_column "A:A" 20) then
  run_ call (set_column "B:E" 15) then
  do title <- sheet_lift (format_item formats "title") then
  run_ call (merge_range "A1:E1" ("ESG Data Capture Form - " ++ investor) title) then
  run_ call (set_row 0 30) then
  let row := 2 in
  run_ write_as formats row 0 (PStr "Generated:") "metric" then
  run_ write_datetime formats row 1 now "timestamp" then
  let row := row + 1 in
  run_ write_as formats row 0 (PStr "Total Properties:") "metric" then
  run_ write_count row 1 (length properties) then
  let row := row + 2 in
  do header <- sheet_lift (format_item formats "header") then
  run_ call (merge_range ("A" ++ str_of_nat (row + 1) ++ ":E" ++ str_of_nat (row + 1))
               "Instructions" header) then
  let row := row + 2 in
  do row <- for_rows instructions row
              (fun instruction row =>
                 run_ write_as formats row 0 (PStr instruction) "metric" then
                 sheet_ret (row + 1)) then
  let row := row + 2 in
  do header <- sheet_lift (format_item formats "header") then
  run_ call (merge_range ("A" ++ str_of_nat (row + 1) ++ ":C" ++ str_of_nat (row + 1))
               "Properties Included" header) then
  let row := row + 2 in
  run_ write_as formats row 0 (PStr "Property Name") "subcategory" then
  run_ write_as formats row 1 (PStr "Type") "subcategory" then
  run_ write_as formats row 2 (PStr "Location") "subcategory" then
  let row := row + 1 in
  do _ <- for_rows properties row
            (fun prop row =>
               run_ write_as formats row 0 (PStr (prop_get prop "name" "")) "metric" then
               run_ write_as formats row 1 (PStr (prop_get prop "type" "")) "metric" then
               run_ write_as formats row 2 (PStr (prop_get prop "location" "")) "metric" then
               sheet_ret (row + 1)) then
  sheet_ret tt.

(** The loop over [metrics_data.items()] that the three metric sheets
    share: a row for the category, a row for each subcategory, and for each
    metric the row written by [metric_row]. *)
Definition metric_rows (metrics_data : pyvalue) (row : nat)
    (category_row subcategory_row : string -> nat -> Sheet unit)
    (metric_row : pyvalue -> nat -> Sheet unit) : Sheet nat :=
  do categories <- sheet_lift (py_items metrics_data) then
  for_rows categories row
    (fun entry row =>
       run_ category_row (fst entry) row then
       let row := row + 1 in
       do subcategories <- sheet_lift (py_items (snd entry)) then
       for_rows subcategories row
         (fun sub row =>
            run_ subcategory_row (fst sub) row then
            let row := row + 1 in
            do metrics <- sheet_lift (py_iter (snd sub)) then
            for_rows metrics row
              (fun metric row =>
                 run_ metric_row metric row then
                 sheet_ret (row + 1)))).

(** [worksheet.write(row, col, metric.get(key, default), formats['metric'])] *)
Definition write_field (formats : Formats) (row col : nat) (metric : pyvalue)
    (key default : string) : Sheet unit :=
  do value <- sheet_lift (py_get metric key (PStr default)) then
  write_as formats row col value "metric".

(** The body of [_create_metrics_summary_sheet]. *)
Definition metrics_summary_sheet (formats : Formats) (metrics_data : pyvalue) : Sheet unit :=
  run_ call (set_column "A:A" 20) then
  run_ call (set_column "B:B" 25) then
  run_ call (set_column "C:C" 40) then
  run_ call (set_column "D:D" 15) then
  run_ call (set_column "E:E" 15) then
  run_ call (set_column "F:F" 20) then
  run_ for_each
         (enumerate ["Category"; "Subcategory"; "Metric"; "Unit"; "Frequency"; "Data Type"])
         (fun header => write_as formats 0 (fst header) (PStr (snd header)) "header") then
  run_ call (freeze_panes 1 0) then
  do _ <- metric_rows metrics_data 1
            (fun category row => write_as formats row 0 (PStr category) "category")
            (fun subcategory row => write_as formats row 1 (PStr subcategory) "subcategory")
            (fun metric row =>
               run_ write_field formats row 2 metric "name" "" then
               run_ write_field formats row 3 metric "unit" "" then
               run_ write_field formats row 4 metric "frequency" "Annual" then
               write_field formats row 5 metric "data_type" "text") then
  sheet_ret tt.

(** The input cell of a metric: [write(row, col, '', cell_format)] and
    [_add_validation]. *)
Definition input_cell (formats : Formats) (row col : nat) (data_type : pyvalue) : Sheet unit :=
  do cell_format <- sheet_lift (_get_input_format formats data_type) then
  run_ write_cell row col (PStr "") cell_format then
  _add_validation row col data_type.

(** The body of [_create_data_entry_sheet]. *)
Definition data_entry_sheet (formats : Formats) (metrics_data : pyvalue)
    (properties : list Property) : Sheet unit :=
  run_ call (set_column "A:C" 20) then
  run_ call (set_column "D:D" 40) then
  run_ call (set_column "E:E" 15) then
  let property_start_col := 5 in
  run_ for_each (seq 0 (length properties))
         (fun i => call (set_column_at (property_start_col + i) (property_start_col + i) 15))
  then
  run_ write_as formats 0 0 (PStr "Category") "header" then
  run_ write_as formats 0 1 (PStr "Subcategory") "header" then
  run_ write_as formats 0 2 (PStr "Metric") "header" then
  run_ write_as formats 0 3 (PStr "Description") "header" then
  run_ write_as formats 0 4 (PStr "Unit") "header" then
  run_ for_each (enumerate properties)
         (fun prop =>
            do name <- sheet_lift (prop_item (snd prop) "name") then
            write_as formats 0 (property_start_col + fst prop) (PStr name) "header") then
  run_ call (freeze_panes 1 5) then
  do _ <- metric_rows metrics_data 1
            (fun category row =>
               do f <- sheet_lift (format_item formats "category") then
               call (merge_range_at row 0 row 4 category f))
            (fun subcategory row =>
               do f <- sheet_lift (format_item formats "subcategory") then
               call (merge_range_at row 1 row 4 subcategory f))
            (fun metric row =>
               run_ write_field formats row 2 metric "name" "" then
               run_ write_field formats row 3 metric "description" "" then
               run_ write_field formats row 4 metric "unit" "" then
               do data_type <- sheet_lift (py_get metric "data_type" (PStr "text")) then
               for_each (seq 0 (length properties))
                 (fun i => input_cell formats row (property_start_col + i) data_type)) then
  sheet_ret tt.

(** The body of [_create_property_sheet], after the worksheet is added. *)
Definition property_sheet (formats : Formats) (metrics_data : pyvalue)
    (property_info : Property) : Sheet unit :=
  run_ call (set_column "A:A" 20) then
  run_ call (set_column "B:B" 25) then
  run_ call (set_column "C:C" 40) then
  run_ call (set_column "D:D" 15) then
  run_ call (set_column "E:E" 20) then
  run_ call (set_column "F:F" 50) then
  do name <- sheet_lift (prop_item property_info "name") then
  do title <- sheet_lift (format_item formats "title") then
  run_ call (merge_range "A1:F1" ("ESG Data - " ++ name) title) then
  run_ call (set_row 0 30) then
  let row := 2 in
  run_ write_as formats row 0 (PStr "Property Type:") "metric" then
  run_ write_as formats row 1 (PStr (prop_get property_info "type" "")) "input_text" then
  let row := row + 1 in
  run_ write_as formats row 0 (PStr "Location:") "metric" then
  run_ write_as formats row 1 (PStr (prop_get property_info "location" "")) "input_text" then
  let row := row + 2 in
  run_ for_each
         (enumerate ["Category"; "Subcategory"; "Metric"; "Unit"; "Value"; "Notes"])
         (fun header => write_as formats row (fst header) (PStr (snd header)) "header") then
  let row := row + 1 in
  do _ <- metric_rows metrics_data row
            (fun category row => write_as formats row 0 (PStr category) "category")
            (fun subcategory row => write_as formats row 1 (PStr subcategory) "subcategory")
            (fun metric row =>
               run_ write_field formats row 2 metric "name" "" then
               run_ write_field formats row 3 metric "unit" "" then
               do data_type <- sheet_lift (py_get metric "data_type" (PStr "text")) then
               run_ input_cell formats row 4 data_type then
               write_as formats row 5 (PStr "") "input_text") then
  sheet_ret tt.

Definition validation_rules : list (list string) :=
  [["Data Type"; "Description"; "Example"];
   ["numeric"; "Positive numbers only"; "1234.56"];
   ["integer"; "Whole numbers only"; "100"];
   ["percentage"; "Values between 0-100"; "75.5"];
   ["currency"; "Monetary values"; "$10,000.00"];
   ["boolean"; "Yes/No values"; "Yes"];
   ["text"; "Any text input"; "Description text"]].

Definition validation_notes : list string :=
  ["• Yellow cells require data input";
   "• Ensure units match exactly as specified";
   "• Use consistent reporting periods across all metrics";
   "• Leave cells blank if data is not available";
   "• Add explanatory notes where necessary"].

(** The body of [_create_validation_sheet]. *)
Definition validation_sheet (formats : Formats) : Sheet unit :=
  run_ call (set_column "A:A" 20) then
  run_ call (set_column "B:B" 40) then
  run_ call (set_column "C:C" 30) then
  do title <- sheet_lift (format_item formats "title") then
  run_ call (merge_range "A1:C1" "Data Validation Rules" title) then
  do row <- for_rows validation_rules 2
              (fun rule row =>
                 run_ (if Nat.eqb row 2 then
                         for_each (enumerate rule)
                           (fun cell => write_as formats row (fst cell) (PStr (snd cell)) "header")
                       else
                         for_each (enumerate rule)
                           (fun cell => write_as formats row (fst cell) (PStr (snd cell)) "metric"))
                 then
                 sheet_ret (row + 1)) then
  let row := row + 2 in
  do header <- sheet_lift (format_item formats "header") then
  run_ call (merge_range ("A" ++ str_of_nat (row + 1) ++ ":C" ++ str_of_nat (row + 1))
               "Notes" header) then
  let row := row + 2 in
  do _ <- for_rows validation_notes row
            (fun note row =>
               run_ write_as formats row 0 (PStr note) "note" then
               sheet_ret (row + 1)) then
  sheet_ret tt.

Local Close Scope sheet_scope.
Local Open Scope xl_scope.

Definition _create_overview_sheet (formats : Formats) (now : string) (investor : string)
    (properties : list Property) : Xl unit :=
  on_new_worksheet "Overview" (overview_sheet formats now investor properties).

Definition _create_metrics_summary_sheet (formats : Formats) (metrics_data : pyvalue)
  : Xl unit :=
  on_new_worksheet "Metrics Summary" (metrics_summary_sheet formats metrics_data).

Definition _create_data_entry_sheet (formats : Formats) (metrics_data : pyvalue)
    (properties : list Property) : Xl unit :=
  on_new_worksheet "Data Entry" (data_entry_sheet formats metrics_data properties).

(** [_create_property_sheet]: [property_info['name']] is read before the
    worksheet is added. *)
Definition _create_property_sheet (formats : Formats) (metrics_data : pyvalue)
    (property_info : Property) : Xl unit :=
  fun wb =>
    match prop_item property_info "name" with
    | Returned name =>
        on_new_worksheet (str_prefix 31 name)
          (property_sheet formats metrics_data property_info) wb
    | Raised e => (Raised e, wb)
    end.

Definition _create_validation_sheet (formats : Formats) : Xl unit :=
  on_new_worksheet "Validation Rules" (validation_sheet formats).

(** What [create_comprehensive_form] does to the workbook it has opened. *)
Definition fill_workbook (now : string) (metrics_data : pyvalue)
    (properties : list Property) (investor : string) : Xl unit :=
  do formats <- _create_formats then
  run_ _create_overview_sheet formats now investor properties then
  run_ _create_metrics_summary_sheet formats metrics_data then
  run_ _create_data_entry_sheet formats metrics_data properties then
  run_ for_xl properties (_create_property_sheet formats metrics_data) then
  run_ _create_validation_sheet formats then
  close.

(** [ESGFormGenerator.create_comprehensive_form]: the outcome and the
    workbook as the call leaves it. *)
Definition create_comprehensive_form (now : string) (metrics_data : pyvalue)
    (properties : list Property) (investor : string) (output_path : string)
  : outcome unit * Workbook :=
  fill_workbook now metrics_data properties investor (new_Workbook output_path).

Local Close Scope xl_scope.

End Generator.

(** ** main.py *)

(** A property as the value handed to the crew. *)
Definition property_value (p : Property) : pyvalue :=
  PDict (map (fun entry => (fst entry, PStr (snd entry))) p).

(** The configuration at the top of [main]. *)
Definition main_investor_name : string := "BlackRock".

Definition main_property_list : list Property :=
  [[("name", "Property A"); ("type", "Office"); ("location", "New York")];
   [("name", "Property B"); ("type", "Retail"); ("location", "California")];
   [("name", "Property C"); ("type", "Industrial"); ("location", "Texas")]].

(** [os.path.join("outputs", f"ESG_DataCapture_{investor}_{n}_properties.xlsx")] *)
Definition output_path_for (investor : string) (properties : list Property) : string :=
  "outputs/ESG_DataCapture_" ++ investor ++ "_" ++ str_of_nat (length properties)
  ++ "_properties.xlsx".

(** The lines printed by the [except] clause. *)
Definition error_report (e : exn) : list (list fpiece) :=
  [[Lit (newline ++ "❌ Error during analysis: "); Fmt (PStr (exn_message e))];
   [Lit "Please check that:"];
   [Lit "  - Your PDF files are in the correct folders"];
   [Lit "  - Your Google API key is set correctly"];
   [Lit "  - All required packages are installed"]].

Section Main.

Context {vector : Type} {E : External vector} {X : XlsxWriter}.

Local Open Scope py_scope.

Fixpoint print_all (lines : list (list fpiece)) : Py vector unit :=
  match lines with
  | [] => ret tt
  | line :: rest => run_ print line then print_all rest
  end.

(** [os.makedirs(name, exist_ok=True)] *)
Definition os_makedirs (name : string) : Py vector unit :=
  fun w =>
    match makedirs name w with
    | Some e => (Raised e, w)
    | None => (Returned tt, w)
    end.

(** The [try] block of [main] for a crew, an investor and a property list;
    the value handed back is the workbook written to the output path. *)
Definition analyse_and_generate (now : string) (esg_crew : ESGAnalysisCrew)
    (investor : string) (properties : list Property) : Py vector Workbook :=
  do result <- run esg_crew (PList (map property_value properties)) then
  run_ print [Lit (newline ++ "3. Analysis Complete!")] then
  do categories <- lift (py_get result "categories" (PDict [])) then
  do found <- lift (py_len categories) then
  run_ print [Lit "   - Found metrics across "; Fmt (PInt (Z.of_nat found));
              Lit " categories"] then
  run_ print [Lit (newline ++ "4. Generating Excel data capture form...")] then
  let output_path := output_path_for investor properties in
  run_ os_makedirs "outputs" then
  match create_comprehensive_form now result properties investor output_path with
  | (Raised e, _) => raise e
  | (Returned _, workbook) =>
      run_ print_all
             [[Lit (newline ++ "✅ Success! ESG data capture form generated:")];
              [Lit "   📁 "; Fmt (PStr output_path)];
              [Lit (newline ++ "   The form includes:")];
              [Lit "   - Overview and instructions"];
              [Lit "   - Consolidated metrics sheet"];
              [Lit "   - Individual property sheets"];
              [Lit "   - Data validation and formulas"]] then
      ret workbook
  end.

(** [try: ... except Exception as e: (report); raise]: an exception whose
    class does not derive from [Exception] passes through unreported. *)
Definition reporting_errors {A} (body : Py vector A) : Py vector A :=
  fun w =>
    match body w with
    | (Returned a, w') => (Returned a, w')
    | (Raised e, w') =>
        if derives_from_Exception e then
          match print_all (error_report e) w' with
          | (_, w'') => (Raised e, w'')
          end
        else (Raised e, w')
    end.

(** [main] *)
Definition main (now : string) : Py vector Workbook :=
  run_ print_all
         [[Lit (repeat_string 60 "=")];
          [Lit "ESG Data Capture Workflow"];
          [Lit "Investor: "; Fmt (PStr main_investor_name)];
          [Lit "Properties: "; Fmt (PInt (Z.of_nat (length main_property_list)))];
          [Lit (repeat_string 60 "=")];
          [Lit (newline ++ "1. Initializing ESG Analysis Crew...")]] then
  do esg_crew <- ESGAnalysisCrew_init main_investor_name then
  run_ print_all
         [[Lit (newline ++ "2. Analyzing ESG requirements...")];
          [Lit "   - Scanning local regulations..."];
          [Lit "   - Reviewing investor frameworks..."];
          [Lit "   - Consolidating metrics..."]] then
  reporting_errors
    (analyse_and_generate now esg_crew main_investor_name main_property_list).

End Main.

(** ** Statements about the taxonomy that [run] hands back *)

(** Within every (category, subcategory) no two metric records share a name
    up to case. *)
Definition names_unique (taxonomy : pyvalue) : Prop :=
  forall category subcategory name,
    count_named name (metrics_at taxonomy category subcategory) <= 1.

(** Whatever the crew produces, the taxonomy returned by [run] has no two
    records of one name in one subcategory. *)
Definition run_deduplicates : Prop :=
  forall (E : External nat) (self : ESGAnalysisCrew) (properties taxonomy : pyvalue)
         (w w' : World nat),
    run self properties w = (Returned taxonomy, w') -> names_unique taxonomy.

(** Did this call of [run] substitute the fallback taxonomy? *)
Definition used_fallback {vector : Type} {E : External vector}
    (self : ESGAnalysisCrew) (properties : pyvalue) (w : World vector) : bool :=
  match kickoff (crew self) (kickoff_inputs self properties) w with
  | (Returned v, _) => negb (isinstance_dict v)
  | (Raised _, _) => false
  end.

(** The value returned by [run] carries a flag that tells whether the
    fallback was substituted. *)
Definition fallback_is_flagged_in_result : Prop :=
  exists flag : pyvalue -> bool,
    forall (E : External nat) (self : ESGAnalysisCrew) (properties taxonomy : pyvalue)
           (w w' : World nat),
      run self properties w = (Returned taxonomy, w') ->
      flag taxonomy = used_fallback self properties w.

(** Every metric record of every taxonomy returned by [run] has the five
    fields. *)
Definition every_metric_has_all_fields : Prop :=
  forall (E : External nat) (self : ESGAnalysisCrew) (properties taxonomy : pyvalue)
         (w w' : World nat),
    run self properties w = (Returned taxonomy, w') ->
    forallb has_all_fields (all_metrics taxonomy) = true.

(** ** Statements about index construction *)

(** The two loaders that [index_documents] builds. *)
Definition regulations_loader : DirectoryLoader :=
  new_DirectoryLoader "./data/regulations" "**/*.pdf" PyPDFLoader.

Definition frameworks_loader : DirectoryLoader :=
  new_DirectoryLoader "./data/frameworks" "**/*.pdf" PyPDFLoader.

(** Is the file name one that ends in [.pdf]? *)
Definition is_pdf_name (f : File) : bool := endswith (basename (fpath f)) ".pdf".

(** Does the path lie below one of the two data directories? *)
Definition in_data_directories (p : path) : Prop :=
  exists rel, rel <> []
    /\ (p = ["data"; "regulations"] ++ rel \/ p = ["data"; "frameworks"] ++ rel).

(** The chunks kept by an indexer, the empty list before a store is set. *)
Definition indexed_chunks {vector : Type} (self : DocumentIndexer (vector := vector))
  : list Document :=
  match vectorstore self with
  | Some vs => map fst (collection vs)
  | None => []
  end.


(** The two data directories are there. *)
Definition data_directories_exist {vector : Type} (w : World vector) : Prop :=
  is_dir ["data"; "regulations"] w = true /\ is_dir ["data"; "frameworks"] w = true.

(** What Chroma keeps at a location: nothing where no directory is. *)
Definition kept_at {vector : Type} (location : string) (w : World vector) : store vector :=
  match chroma w !! location with
  | Some kept => kept
  | None => []
  end.

(** The world once Chroma has opened a location. *)
Definition opened {vector : Type} (location : string) (w : World vector) : World vector :=
  with_chroma w (<[location := kept_at location w]> (chroma w)).

(** What [index_documents] does with the chunks once the documents are
    loaded and split. *)
Definition store_chunks {vector : Type} {E : External vector}
    (self : DocumentIndexer (vector := vector)) (chunks : list Document) (w : World vector)
  : outcome DocumentIndexer * World vector :=
  let location := persist_directory self in
  let kept := kept_at location w in
  let texts := map page_content chunks in
  let w1 := with_embed_log (opened location w) (embed_log w ++ texts) in
  match embed_documents texts with
  | Raised e => (Raised e, w1)
  | Returned vectors =>
      match chunks with
      | [] => (Raised (ValueError "Expected IDs to be a non-empty list, got 0 IDs"), w1)
      | _ :: _ =>
          if Nat.eqb (length vectors) (length chunks) then
            (Returned (set_vectorstore self (mkChroma (kept ++ zip chunks vectors) location)),
             mkWorld (environ w) (directories w) (files w)
               (<[location := kept ++ zip chunks vectors]> (chroma w))
               (embed_log w ++ texts) (console w))
          else (Raised (ValueError "Unequal lengths for fields: ids, embeddings"), w1)
      end
  end.











(** A world in which a collection of two chunks is kept at [./chroma_db],
    and one in which the directory is there without an index. *)
Definition kept_collection : store nat :=
  [(mkDocument "energy use in kWh" ["data"; "regulations"; "a.pdf"] 0, 17);
   (mkDocument "board diversity" ["data"; "regulations"; "e.pdf"] 0, 15)].

Definition world_with_index : World nat :=
  with_chroma (with_files data_world five_documents) {["./chroma_db" := kept_collection]}.



(** The result of [search] is the sequence of the chunks ranked: some
    reading of it gives, for every store, every query and every positive
    [k], the chunks that the store ranks for the query. *)
Definition search_returns_the_chunks : Prop :=
  exists chunks_of : string -> list Document,
    forall (E : External nat) (self : DocumentIndexer) (vs : Chroma) (query : string)
           (k : Z) (q : nat) (w w' : World nat) (result : string),
      vectorstore self = Some vs -> (0 < k)%Z -> embed_query query = Returned q ->
      search self query k w = (Returned result, w') ->
      chunks_of result = nearest (collection vs) q (Z.to_nat k).

(** Two stores with the same text, in one chunk and in two. *)
Definition one_chunk_store : store nat :=
  [(mkDocument ("energy use" ++ blank_line ++ "water use")%string
      ["data"; "regulations"; "a.pdf"] 0,
    21)].

Definition two_chunk_store : store nat :=
  [(mkDocument "energy use" ["data"; "regulations"; "a.pdf"] 0, 10);
   (mkDocument "water use" ["data"; "regulations"; "a.pdf"] 1, 9)].

(** ** Statements about the form generator and [main] *)

(** The sample metrics and properties of [test_workflow.py]. *)
Definition sample_metric (name description unit frequency data_type : string) : pyvalue :=
  PDict [("name", PStr name); ("description", PStr description); ("unit", PStr unit);
         ("frequency", PStr frequency); ("data_type", PStr data_type)].

Definition sample_metrics : pyvalue :=
  PDict
    [("Environmental",
      PDict
        [("Energy",
          PList [sample_metric "Total Energy Consumption"
                   "Annual energy usage from all sources" "kWh" "Annual" "numeric";
                 sample_metric "Renewable Energy %"
                   "Percentage of energy from renewable sources" "%" "Annual" "percentage"]);
         ("Emissions",
          PList [sample_metric "Scope 1 Emissions" "Direct GHG emissions" "tCO2e"
                   "Annual" "numeric"])]);
     ("Social",
      PDict
        [("Employees",
          PList [sample_metric "Total Employees" "Number of employees" "count"
                   "Annual" "integer"])]);
     ("Governance",
      PDict
        [("Board",
          PList [sample_metric "Board Diversity" "Percentage of diverse board members" "%"
                   "Annual" "percentage"])])].

Definition sample_properties : list Property :=
  [[("name", "Test Property A"); ("type", "Office"); ("location", "New York")];
   [("name", "Test Property B"); ("type", "Retail"); ("location", "California")]].

Definition sample_now : string := "2024-05-01 09:30:00".

(** xlsxwriter for the sample runs: it writes floats and dates and no other
    object, and the files can be created. *)
Definition sample_xlsx : XlsxWriter :=
  {| write_object :=
       fun class_name _ =>
         if String.eqb class_name "float" || String.eqb class_name "datetime" then None
         else Some (TypeError ("Unsupported type <class '" ++ class_name ++ "'> in write()"));
     lower_beyond_ascii := fun s => s;
     create_file := fun _ => None |}.

(** The name of the worksheet of a property, added when the workbook has
    [count] worksheets. *)
Definition property_sheet_name (count : nat) (p : Property) : string :=
  let name := str_prefix 31 (prop_get p "name" "") in
  if String.eqb name "" then "Sheet" ++ str_of_nat (S count) else name.

(** The names of the worksheets of a form for the properties, in order. *)
Definition sheet_names (properties : list Property) : list string :=
  ["Overview"; "Metrics Summary"; "Data Entry"]
  ++ imap (fun i p => property_sheet_name (3 + i) p) properties
  ++ ["Validation Rules"].

(** Does the property have a name? *)
Definition has_name (p : Property) : bool := bool_decide (is_Some (str_lookup "name" p)).

(** The data types for which [_add_validation] adds a rule. *)
Definition validated_types : list pyvalue :=
  [PStr "numeric"; PStr "integer"; PStr "percentage"; PStr "boolean"].

(** Did the call return? *)
Definition is_returned {A : Type} (o : outcome A) : bool :=
  match o with
  | Returned _ => true
  | Raised _ => false
  end.

(** The shape the metric sheets can go through: a dict of dicts of
    iterables of dicts. *)
Definition is_dict_of (ok : pyvalue -> bool) (v : pyvalue) : bool :=
  match v with
  | PDict entries => forallb (fun entry => ok (snd entry)) entries
  | _ => false
  end.

Definition iterable_of (ok : pyvalue -> bool) (v : pyvalue) : bool :=
  match py_iter v with
  | Returned items => forallb ok items
  | Raised _ => false
  end.

Definition taxonomy_shaped (metrics_data : pyvalue) : bool :=
  is_dict_of (is_dict_of (iterable_of isinstance_dict)) metrics_data.

(** [wb'] is [wb] with the worksheets [names] added, not closed since. *)
Definition extends (wb wb' : Workbook) (names : list string) : Prop :=
  filename wb' = filename wb
  /\ added_formats wb' = added_formats wb
  /\ closed wb' = closed wb
  /\ map fst (worksheets wb') = map fst (worksheets wb) ++ names.

(** [m] returns or raises, from whatever calls were made before, as [b]
    tells. *)
Definition succeeds {A : Type} (m : Sheet A) (b : bool) : Prop :=
  forall ops, is_returned (fst (m ops)) = b.

(** A data type that [format_map.get] can look up. *)
Definition hashable (data_type : pyvalue) : bool :=
  match data_type with
  | PList _ | PDict _ => false
  | _ => true
  end.

(** A value that [worksheet.write] takes. *)
Definition writable {X : XlsxWriter} (value : pyvalue) : bool :=
  match write_error value with
  | None => true
  | Some _ => false
  end.

(** The field of a metric record that a sheet writes. *)
Definition field (entries : list (string * pyvalue)) (key default : string) : pyvalue :=
  from_option id (PStr default) (assoc_get key entries).

(** The metric records that the Metrics Summary sheet can write. *)
Definition summary_ok {X : XlsxWriter} (metric : pyvalue) : bool :=
  match metric with
  | PDict entries =>
      writable (field entries "name" "") && writable (field entries "unit" "")
      && writable (field entries "frequency" "Annual")
      && writable (field entries "data_type" "text")
  | _ => false
  end.

(** The metric records that the Data Entry sheet can write for [n]
    properties. *)
Definition entry_ok {X : XlsxWriter} (n : nat) (metric : pyvalue) : bool :=
  match metric with
  | PDict entries =>
      writable (field entries "name" "") && writable (field entries "description" "")
      && writable (field entries "unit" "")
      && (Nat.eqb n 0 || hashable (field entries "data_type" "text"))
  | _ => false
  end.

(** The metric records that the sheet of a property can write. *)
Definition sheet_ok {X : XlsxWriter} (metric : pyvalue) : bool :=
  match metric with
  | PDict entries =>
      writable (field entries "name" "") && writable (field entries "unit" "")
      && hashable (field entries "data_type" "text")
  | _ => false
  end.

(** A taxonomy all of whose metric records are as [ok] asks. *)
Definition taxonomy_of (ok : pyvalue -> bool) (metrics_data : pyvalue) : bool :=
  is_dict_of (is_dict_of (iterable_of ok)) metrics_data.

(** The lines that [main] prints before it builds the crew, and those
    between the construction and the [try] block. *)
Definition main_banner : list (list fpiece) :=
  [[Lit (repeat_string 60 "=")];
   [Lit "ESG Data Capture Workflow"];
   [Lit "Investor: "; Fmt (PStr main_investor_name)];
   [Lit "Properties: "; Fmt (PInt (Z.of_nat (length main_property_list)))];
   [Lit (repeat_string 60 "=")];
   [Lit (newline ++ "1. Initializing ESG Analysis Crew...")]].

Definition main_steps_announced : list (list fpiece) :=
  [[Lit (newline ++ "2. Analyzing ESG requirements...")];
   [Lit "   - Scanning local regulations..."];
   [Lit "   - Reviewing investor frameworks..."];
   [Lit "   - Consolidating metrics..."]].

(** The world with more lines on the console. *)
Definition printed {vector : Type} (lines : list (list fpiece)) (w : World vector)
  : World vector :=
  with_console w (console w ++ lines).

(** The crew that [main] builds in a world. *)
Definition main_crew {vector : Type} (w : World vector) : ESGAnalysisCrew :=
  new_ESGAnalysisCrew main_investor_name (environ w !! "GOOGLE_API_KEY").

(** A property list whose second entry has no name, and a crew output that
    lists its metrics under one key instead of nesting them. *)
Definition properties_with_a_nameless_one : list Property :=
  [[("name", "Test Property A"); ("type", "Office"); ("location", "New York")];
   [("type", "Retail"); ("location", "California")]].

Definition flat_metrics : pyvalue :=
  PDict [("metrics", PList [PStr "Total Energy Consumption"; PStr "Board Diversity"])].

(** ** The cells written on a worksheet *)

(** The cell that a [write] call fills. *)
Definition written_cell (op : cell_op) : list (nat * nat) :=
  match op with
  | write row col _ _ => [(row, col)]
  | _ => []
  end.

Definition written_cells (ops : list cell_op) : list (nat * nat) :=
  flat_map written_cell ops.

(** [m] only adds calls; its [write] calls fill distinct cells, all in the
    row [row]. *)
Definition in_row {A : Type} (m : Sheet A) (row : nat) : Prop :=
  forall ops, exists new,
    snd (m ops) = ops ++ new
    /\ NoDup (written_cells new)
    /\ Forall (fun cell => fst cell = row) (written_cells new).

(** [m] only adds calls; its [write] calls fill distinct cells from the row
    [lo] on and, when it returns a row, above that row. *)
Definition rows_from (m : Sheet nat) (lo : nat) : Prop :=
  forall ops, exists new,
    snd (m ops) = ops ++ new
    /\ NoDup (written_cells new)
    /\ Forall (fun cell => lo <= fst cell) (written_cells new)
    /\ forall hi, fst (m ops) = Returned hi ->
         lo <= hi /\ Forall (fun cell => fst cell < hi) (written_cells new).

(** The number of metric rows that a sheet writes for a taxonomy of the
    right shape: one per category, subcategory and metric. *)
Definition iteration_length (v : pyvalue) : nat :=
  match py_iter v with
  | Returned items => length items
  | Raised _ => 0
  end.

Definition rows_of_subcategories (v : pyvalue) : nat :=
  match v with
  | PDict subs => list_sum (map (fun sub => 1 + iteration_length (snd sub)) subs)
  | _ => 0
  end.

Definition rows_of_taxonomy (v : pyvalue) : nat :=
  match v with
  | PDict cats => list_sum (map (fun cat => 1 + rows_of_subcategories (snd cat)) cats)
  | _ => 0
  end.

(** A name that Excel takes for a worksheet: at most 31 characters, none
    of them forbidden, no apostrophe at either end. *)
Definition valid_sheetname (name : string) : bool :=
  (py_strlen name <=? 31)%nat
  && negb (existsb (fun c => existsb (Ascii.eqb c) invalid_sheetname_characters)
             (list_ascii_of_string name))
  && negb (String.prefix "'" name || endswith name "'").

(** No string occurs twice. *)
Fixpoint distinct (names : list string) : bool :=
  match names with
  | [] => true
  | name :: rest => negb (existsb (String.eqb name) rest) && distinct rest
  end.

(** Names that one workbook can give to its worksheets: each is valid and
    no two are the same with case set aside. *)
Definition sheetnames_ok {X : XlsxWriter} (names : list string) : bool :=
  forallb valid_sheetname names && distinct (map py_lower names).

(** Can the file of the workbook be created? *)
Definition creatable {X : XlsxWriter} (output_path : string) : bool :=
  match create_file output_path with
  | None => true
  | Some _ => false
  end.

(** The metric records that the sheets of the properties can write, if
    there is a property. *)
Definition sheets_ok {X : XlsxWriter} (properties : list Property) (metrics_data : pyvalue)
  : bool :=
  match properties with
  | [] => true
  | _ :: _ => taxonomy_of sheet_ok metrics_data
  end.

(** [m] only adds calls; its [write] calls fill, in order, the first of
    the cells [cells], and all of them when [m] returns. *)
Definition fills {A : Type} (m : Sheet A) (cells : list (nat * nat)) : Prop :=
  forall ops, exists new rest,
    snd (m ops) = ops ++ new
    /\ cells = written_cells new ++ rest
    /\ (is_returned (fst (m ops)) = true -> rest = []).

(** * Properties *)

(** ** [ESGAnalysisCrew.run] *)

Section RunFacts.

Context {vector : Type} {E : External vector}.

Lemma run_dict (self : ESGAnalysisCrew) (properties : pyvalue) (w w1 : World vector)
    (entries : list (string * pyvalue)) :
  kickoff (crew self) (kickoff_inputs self properties) w = (Returned (PDict entries), w1) ->
  run self properties w = (Returned (PDict entries), w1).
Proof.
  intros Hk. unfold run, bind. rewrite Hk. reflexivity.
Qed.

Lemma run_not_dict (self : ESGAnalysisCrew) (properties : pyvalue) (w w1 : World vector)
    (v : pyvalue) :
  kickoff (crew self) (kickoff_inputs self properties) w = (Returned v, w1) ->
  isinstance_dict v = false ->
  run self properties w =
    (Returned _create_basic_metrics_structure,
     with_console w1 (console w1 ++ [not_a_dictionary_warning v])).
Proof.
  intros Hk Hv. unfold run, bind. rewrite Hk, Hv. reflexivity.
Qed.

End RunFacts.

(** C1. When the crew hands back something that is not a dict, [run] does
    not raise: it returns the fallback taxonomy, whose categories are
    Environmental, Social and Governance, each holding one sample metric,
    a record with a name and a unit. *)
Theorem run_falls_back_when_output_is_not_a_dict
    {vector : Type} {E : External vector}
    (self : ESGAnalysisCrew) (properties v : pyvalue) (w w1 : World vector) :
  kickoff (crew self) (kickoff_inputs self properties) w = (Returned v, w1) ->
  isinstance_dict v = false ->
  exists (taxonomy : pyvalue) (w' : World vector),
    run self properties w = (Returned taxonomy, w')
    /\ dict_keys taxonomy = ["Environmental"; "Social"; "Governance"]
    /\ metrics_of_category taxonomy "Environmental"
       = [PDict [("name", PStr "Total Energy Consumption"); ("unit", PStr "kWh")]]
    /\ metrics_of_category taxonomy "Social"
       = [PDict [("name", PStr "Total Employees"); ("unit", PStr "count")]]
    /\ metrics_of_category taxonomy "Governance"
       = [PDict [("name", PStr "Board Diversity"); ("unit", PStr "%")]].
Proof.
  intros Hk Hv.
  eexists _, _. split; [apply (run_not_dict _ _ _ _ _ Hk Hv)|].
  repeat split.
Qed.

Lemma run_falls_back_on_plain_text :
  exists (taxonomy : pyvalue) (w' : World nat),
    run (E := sample_external (Returned (PStr "I could not produce JSON.")))
      blackrock_crew main_properties empty_world = (Returned taxonomy, w')
    /\ dict_keys taxonomy = ["Environmental"; "Social"; "Governance"]
    /\ metrics_of_category taxonomy "Environmental"
       = [PDict [("name", PStr "Total Energy Consumption"); ("unit", PStr "kWh")]]
    /\ metrics_of_category taxonomy "Social"
       = [PDict [("name", PStr "Total Employees"); ("unit", PStr "count")]]
    /\ metrics_of_category taxonomy "Governance"
       = [PDict [("name", PStr "Board Diversity"); ("unit", PStr "%")]].
Proof.
  apply (run_falls_back_when_output_is_not_a_dict
           (E := sample_external (Returned (PStr "I could not produce JSON.")))
           blackrock_crew main_properties (PStr "I could not produce JSON.")
           empty_world empty_world);
    reflexivity.
Defined.

(** C9. A dict handed back by the crew is returned as it is, whatever its
    shape, the empty dict included; nothing is printed and the fallback is
    not substituted. *)
Theorem run_returns_any_dict_unchanged
    {vector : Type} {E : External vector}
    (self : ESGAnalysisCrew) (properties : pyvalue) (w w1 : World vector)
    (entries : list (string * pyvalue)) :
  kickoff (crew self) (kickoff_inputs self properties) w = (Returned (PDict entries), w1) ->
  run self properties w = (Returned (PDict entries), w1)
  /\ (PDict entries <> _create_basic_metrics_structure ->
      fst (run self properties w) <> Returned _create_basic_metrics_structure).
Proof.
  intros Hk. rewrite (run_dict _ _ _ _ _ Hk).
  split; [reflexivity|].
  simpl. intros Hne Heq. apply Hne. congruence.
Qed.

Lemma run_returns_the_empty_dict :
  run (E := sample_external (Returned (PDict []))) blackrock_crew main_properties empty_world
    = (Returned (PDict []), empty_world)
  /\ (PDict [] <> _create_basic_metrics_structure ->
      fst (run (E := sample_external (Returned (PDict [])))
             blackrock_crew main_properties empty_world)
        <> Returned _create_basic_metrics_structure).
Proof.
  apply (run_returns_any_dict_unchanged (E := sample_external (Returned (PDict [])))
           blackrock_crew main_properties empty_world empty_world []).
  reflexivity.
Defined.

(** C2, as stated, fails: a crew output that lists "Scope 1 Emissions" and
    "scope 1 emissions" side by side comes back from [run] with both. *)
Lemma run_keeps_both_spellings : ~ run_deduplicates.
Proof.
  intros Hclaim.
  specialize (Hclaim (sample_external (Returned duplicated_taxonomy))
                blackrock_crew main_properties duplicated_taxonomy
                empty_world empty_world eq_refl
                "Environmental" "Emissions" "scope 1 emissions").
  vm_compute in Hclaim. lia.
Qed.

(** C2, amended. The code has no merge step of its own: for a dict handed
    back by the crew, every (category, subcategory) of the result of [run]
    holds exactly the metric records the crew put there, so a name occurs
    in the result as often as in the crew's output. *)
Theorem run_merges_nothing
    {vector : Type} {E : External vector}
    (self : ESGAnalysisCrew) (properties : pyvalue) (w w1 : World vector)
    (entries : list (string * pyvalue)) :
  kickoff (crew self) (kickoff_inputs self properties) w = (Returned (PDict entries), w1) ->
  exists (taxonomy : pyvalue) (w' : World vector),
    run self properties w = (Returned taxonomy, w')
    /\ forall category subcategory,
         metrics_at taxonomy category subcategory
           = metrics_at (PDict entries) category subcategory
         /\ forall name,
              count_named name (metrics_at taxonomy category subcategory)
                = count_named name (metrics_at (PDict entries) category subcategory).
Proof.
  intros Hk. exists (PDict entries), w1.
  split; [exact (run_dict _ _ _ _ _ Hk)|].
  intros category subcategory. split; [reflexivity|]. intros name. reflexivity.
Qed.

Lemma run_merges_nothing_on_duplicates :
  exists (taxonomy : pyvalue) (w' : World nat),
    run (E := sample_external (Returned duplicated_taxonomy))
      blackrock_crew main_properties empty_world = (Returned taxonomy, w')
    /\ forall category subcategory,
         metrics_at taxonomy category subcategory
           = metrics_at duplicated_taxonomy category subcategory
         /\ forall name,
              count_named name (metrics_at taxonomy category subcategory)
                = count_named name (metrics_at duplicated_taxonomy category subcategory).
Proof.
  apply (run_merges_nothing (E := sample_external (Returned duplicated_taxonomy))
           blackrock_crew main_properties empty_world empty_world).
  reflexivity.
Defined.

(** C6, as stated, fails: a crew whose output is not a dict and a crew whose
    output is the very dict of the fallback make [run] return the same
    value, so nothing in the returned value tells the two apart. *)
Lemma fallback_is_not_flagged : ~ fallback_is_flagged_in_result.
Proof.
  intros [flag Hflag].
  pose proof (Hflag (sample_external (Returned (PStr "no JSON here")))
                blackrock_crew main_properties _create_basic_metrics_structure
                empty_world _ eq_refl) as Hused.
  pose proof (Hflag (sample_external (Returned _create_basic_metrics_structure))
                blackrock_crew main_properties _create_basic_metrics_structure
                empty_world _ eq_refl) as Hnot.
  vm_compute in Hused, Hnot. congruence.
Qed.

(** C6, amended. When the fallback is substituted nothing is raised, the
    returned value is the bare fallback dict with the three categories as
    its only keys, and the one trace of the substitution is the warning
    line that [run] prints on the console. *)
Theorem fallback_is_reported_on_the_console_only
    {vector : Type} {E : External vector}
    (self : ESGAnalysisCrew) (properties v : pyvalue) (w w1 : World vector) :
  kickoff (crew self) (kickoff_inputs self properties) w = (Returned v, w1) ->
  isinstance_dict v = false ->
  exists w' : World vector,
    run self properties w = (Returned _create_basic_metrics_structure, w')
    /\ dict_keys _create_basic_metrics_structure = ["Environmental"; "Social"; "Governance"]
    /\ console w' =
         console w1
         ++ [[Lit "Warning: Crew output was not a dictionary. Raw output: "; Fmt v]]
    /\ environ w' = environ w1 /\ files w' = files w1
    /\ chroma w' = chroma w1 /\ embed_log w' = embed_log w1
    /\ directories w' = directories w1.
Proof.
  intros Hk Hv. eexists. split; [apply (run_not_dict _ _ _ _ _ Hk Hv)|].
  simpl. repeat split; reflexivity.
Qed.

Lemma fallback_warning_for_a_crew_output_object :
  exists w' : World nat,
    run (E := sample_external (Returned (PObject "CrewOutput" "Here are the metrics")))
      blackrock_crew main_properties empty_world
      = (Returned _create_basic_metrics_structure, w')
    /\ dict_keys _create_basic_metrics_structure = ["Environmental"; "Social"; "Governance"]
    /\ console w' =
         console empty_world
         ++ [[Lit "Warning: Crew output was not a dictionary. Raw output: ";
              Fmt (PObject "CrewOutput" "Here are the metrics")]]
    /\ environ w' = environ empty_world /\ files w' = files empty_world
    /\ chroma w' = chroma empty_world /\ embed_log w' = embed_log empty_world
    /\ directories w' = directories empty_world.
Proof.
  apply (fallback_is_reported_on_the_console_only
           (E := sample_external (Returned (PObject "CrewOutput" "Here are the metrics")))
           blackrock_crew main_properties (PObject "CrewOutput" "Here are the metrics")
           empty_world empty_world);
    reflexivity.
Defined.

(** C7, as stated, fails: the metric records of the fallback taxonomy lack
    three of the five fields. *)
Lemma fallback_metrics_lack_fields : ~ every_metric_has_all_fields.
Proof.
  intros Hclaim.
  specialize (Hclaim (sample_external (Returned PNone))
                blackrock_crew main_properties _create_basic_metrics_structure
                empty_world _ eq_refl).
  vm_compute in Hclaim. discriminate.
Qed.

(** C7, amended. Every metric record of the fallback taxonomy carries the
    two fields name and unit and no other; the metric records of a dict
    handed back by the crew are returned with the fields they came with. *)
Theorem metric_records_keep_their_fields
    {vector : Type} {E : External vector}
    (self : ESGAnalysisCrew) (properties v : pyvalue) (w w1 : World vector) :
  kickoff (crew self) (kickoff_inputs self properties) w = (Returned v, w1) ->
  exists (taxonomy : pyvalue) (w' : World vector),
    run self properties w = (Returned taxonomy, w')
    /\ (isinstance_dict v = false ->
        Forall (fun metric => dict_keys metric = ["name"; "unit"]) (all_metrics taxonomy)
        /\ length (all_metrics taxonomy) = 3)
    /\ (isinstance_dict v = true -> all_metrics taxonomy = all_metrics v).
Proof.
  intros Hk. destruct (isinstance_dict v) eqn:Hv.
  - destruct v; try discriminate.
    eexists _, _. split; [apply (run_dict _ _ _ _ _ Hk)|].
    split; [discriminate|reflexivity].
  - eexists _, _. split; [apply (run_not_dict _ _ _ _ _ Hk Hv)|].
    split; [|discriminate].
    intros _. split; [repeat constructor|reflexivity].
Qed.

Lemma fallback_records_have_name_and_unit :
  exists (taxonomy : pyvalue) (w' : World nat),
    run (E := sample_external (Returned PNone)) blackrock_crew main_properties empty_world
      = (Returned taxonomy, w')
    /\ (isinstance_dict PNone = false ->
        Forall (fun metric => dict_keys metric = ["name"; "unit"]) (all_metrics taxonomy)
        /\ length (all_metrics taxonomy) = 3)
    /\ (isinstance_dict PNone = true -> all_metrics taxonomy = all_metrics PNone).
Proof.
  apply (metric_records_keep_their_fields (E := sample_external (Returned PNone))
           blackrock_crew main_properties PNone empty_world empty_world).
  reflexivity.
Defined.

(** ** Patterns *)

Lemma fnmatch_literal (pat : string) :
  (forall c, In c (list_ascii_of_string pat) ->
             Ascii.eqb c "*" = false /\ Ascii.eqb c "?" = false) ->
  forall name, fnmatch pat name = String.eqb pat name.
Proof.
  induction pat as [|c pat IH]; intros Hlit name.
  - destruct name; reflexivity.
  - destruct (Hlit c (or_introl eq_refl)) as [Hstar Hany].
    cbn -[Ascii.eqb]. rewrite Hstar.
    destruct name as [|d name]; [reflexivity|].
    rewrite Hany, IH; [reflexivity|].
    intros c' Hc'. apply Hlit. right. exact Hc'.
Qed.

Lemma fnmatch_dot_pdf (name : string) : fnmatch ".pdf" name = String.eqb name ".pdf".
Proof.
  rewrite String.eqb_sym. apply fnmatch_literal.
  intros c Hc. cbn in Hc.
  destruct Hc as [<-|[<-|[<-|[<-|[]]]]]; split; reflexivity.
Qed.

Lemma fnmatch_star_pdf (name : string) : fnmatch "*.pdf" name = endswith name ".pdf".
Proof.
  induction name as [|a name IH].
  - reflexivity.
  - change (fnmatch "*.pdf" (String a name))
      with (fnmatch ".pdf" (String a name) || fnmatch "*.pdf" name).
    rewrite IH, fnmatch_dot_pdf. reflexivity.
Qed.

Lemma glob_pdf_anywhere (rel : path) :
  glob_match ["**"; "*.pdf"] rel
    = match rel with [] => false | _ => endswith (basename rel) ".pdf" end.
Proof.
  induction rel as [|c rel IH].
  - reflexivity.
  - change (glob_match ["**"; "*.pdf"] (c :: rel))
      with (glob_match ["*.pdf"] (c :: rel) || glob_match ["**"; "*.pdf"] rel).
    rewrite IH.
    change (glob_match ["*.pdf"] (c :: rel))
      with (fnmatch "*.pdf" c && match rel with [] => true | _ => false end).
    rewrite fnmatch_star_pdf.
    destruct rel as [|c' rel'].
    + cbn -[endswith]. rewrite andb_true_r, orb_false_r. reflexivity.
    + rewrite andb_false_r. reflexivity.
Qed.

Lemma relative_to_app (root p rel : path) :
  relative_to root p = Some rel -> p = root ++ rel.
Proof.
  revert p. induction root as [|r root IH]; intros p Hrel.
  - cbn in Hrel. injection Hrel as <-. reflexivity.
  - destruct p as [|c p]; [discriminate|]. cbn in Hrel.
    destruct (String.eqb r c) eqn:Hrc; [|discriminate].
    apply String.eqb_eq in Hrc. subst c.
    cbn. f_equal. apply IH. exact Hrel.
Qed.

Lemma basename_app (root rel : path) : rel <> [] -> basename (root ++ rel) = basename rel.
Proof.
  intros Hrel. unfold basename.
  induction root as [|r root IH]; [reflexivity|].
  cbn [app]. destruct (root ++ rel) eqn:Happ.
  - destruct root; destruct rel; cbn in Happ; congruence.
  - rewrite <- IH. reflexivity.
Qed.

(** What a loader with the pattern [**/*.pdf] picks up. *)
Lemma selected_pdf_below (dir : string) (f : File) :
  selected (new_DirectoryLoader dir "**/*.pdf" PyPDFLoader) f = true ->
  exists rel, rel <> [] /\ fpath f = path_of dir ++ rel /\ is_pdf_name f = true.
Proof.
  unfold selected. cbn [dl_path new_DirectoryLoader].
  destruct (relative_to (path_of dir) (fpath f)) as [rel|] eqn:Hrel; [|discriminate].
  intros Hsel. apply andb_true_iff in Hsel as [Hglob _].
  change (glob_parts (new_DirectoryLoader dir "**/*.pdf" PyPDFLoader))
    with ["**"; "*.pdf"] in Hglob.
  rewrite glob_pdf_anywhere in Hglob.
  apply relative_to_app in Hrel.
  exists rel. destruct rel as [|c rel]; [discriminate|].
  split; [discriminate|]. split; [exact Hrel|].
  unfold is_pdf_name. rewrite Hrel, basename_app by discriminate. exact Hglob.
Qed.

Lemma selected_implies_pdf_name (dir : string) (f : File) :
  selected (new_DirectoryLoader dir "**/*.pdf" PyPDFLoader) f
    = selected (new_DirectoryLoader dir "**/*.pdf" PyPDFLoader) f && is_pdf_name f.
Proof.
  destruct (selected _ f) eqn:Hsel; [|reflexivity].
  apply selected_pdf_below in Hsel as (rel & _ & _ & ->). reflexivity.
Qed.

Lemma filter_selected_pdf (dir : string) (fs : list File) :
  List.filter (selected (new_DirectoryLoader dir "**/*.pdf" PyPDFLoader)) fs
    = List.filter (selected (new_DirectoryLoader dir "**/*.pdf" PyPDFLoader))
        (List.filter is_pdf_name fs).
Proof.
  induction fs as [|f fs IH]; [reflexivity|].
  cbn [List.filter]. rewrite (selected_implies_pdf_name dir f).
  destruct (is_pdf_name f); cbn [List.filter].
  - rewrite andb_true_r. destruct (selected _ f); [f_equal|]; exact IH.
  - rewrite andb_false_r. exact IH.
Qed.

(** ** The documents a loader hands on *)

Lemma pdf_documents_source (p : path) (pages : list string) (d : Document) :
  In d (pdf_documents p pages) -> source d = p /\ In (page_content d) pages.
Proof.
  unfold pdf_documents. intros Hd.
  apply list_elem_of_In, elem_of_lookup_imap in Hd as (i & text & -> & Hi).
  split; [reflexivity|]. apply list_elem_of_In. eapply list_elem_of_lookup_2. exact Hi.
Qed.

Lemma load_files_sources (silent : bool) (items : list File) (docs : list Document) :
  load_files silent items = Returned docs ->
  forall d, In d docs -> exists f, In f items /\ source d = fpath f.
Proof.
  revert docs. induction items as [|f items IH]; intros docs Hload d Hd.
  - cbn in Hload. injection Hload as <-. destruct Hd.
  - cbn in Hload. destruct (pdf_pages f) as [pages|] eqn:Hpages.
    + destruct (load_files silent items) as [rest|e] eqn:Hrest; [|discriminate].
      injection Hload as <-. apply in_app_or in Hd as [Hd|Hd].
      * apply pdf_documents_source in Hd as [Hsrc _]. exists f. split; [left; reflexivity|exact Hsrc].
      * destruct (IH rest eq_refl d Hd) as (f' & Hf' & Hsrc). exists f'. split; [right|]; assumption.
    + destruct silent; [|discriminate].
      destruct (IH docs Hload d Hd) as (f' & Hf' & Hsrc). exists f'. split; [right|]; assumption.
Qed.



(** ** [DocumentIndexer.index_documents], step by step *)

Section IndexFacts.

Context {vector : Type} {E : External vector}.

Implicit Types (self : DocumentIndexer (vector := vector)) (w : World vector).

Lemma Chroma_open_spec (location : string) w :
  Chroma_open location w = (Returned (mkChroma (kept_at location w) location), opened location w).
Proof.
  unfold Chroma_open.
  destruct (chroma w !! location) as [kept|] eqn:Hkept;
    unfold opened, kept_at; rewrite Hkept; [|reflexivity].
  rewrite insert_id by exact Hkept. destruct w; reflexivity.
Qed.

Lemma kept_at_lookup (location : string) w (kept : store vector) :
  chroma w !! location = Some kept -> kept_at location w = kept.
Proof. intros Hkept. unfold kept_at. rewrite Hkept. reflexivity. Qed.

Lemma opened_kept (location : string) w (kept : store vector) :
  chroma w !! location = Some kept -> opened location w = w.
Proof.
  intros Hkept. unfold opened, kept_at. rewrite Hkept.
  rewrite insert_id by exact Hkept. destruct w; reflexivity.
Qed.

Lemma index_documents_steps self w :
  index_documents self w =
    if is_dir ["data"; "regulations"] w then
      match load_files false (List.filter (selected regulations_loader) (files w)) with
      | Raised e => (Raised e, w)
      | Returned reg_docs =>
          if is_dir ["data"; "frameworks"] w then
            match load_files false (List.filter (selected frameworks_loader) (files w)) with
            | Raised e => (Raised e, w)
            | Returned framework_docs =>
                store_chunks self (split_documents text_splitter (reg_docs ++ framework_docs)) w
            end
          else
            (Raised (FileNotFoundError "Directory not found: './data/frameworks'"), w)
      end
    else (Raised (FileNotFoundError "Directory not found: './data/regulations'"), w).
Proof.
  unfold index_documents, bind, DirectoryLoader_load.
  change (silent_errors (new_DirectoryLoader _ _ _)) with false.
  change (path_of (dl_path (new_DirectoryLoader "./data/regulations" "**/*.pdf" PyPDFLoader)))
    with ["data"; "regulations"].
  change (path_of (dl_path (new_DirectoryLoader "./data/frameworks" "**/*.pdf" PyPDFLoader)))
    with ["data"; "frameworks"].
  fold regulations_loader frameworks_loader.
  destruct (is_dir ["data"; "regulations"] w); [|reflexivity].
  destruct (load_files false (List.filter (selected regulations_loader) (files w)))
    as [reg_docs|e]; [|reflexivity].
  destruct (is_dir ["data"; "frameworks"] w); [|reflexivity].
  destruct (load_files false (List.filter (selected frameworks_loader) (files w)))
    as [framework_docs|e]; [|reflexivity].
  unfold Chroma_from_documents, bind. rewrite Chroma_open_spec.
  unfold store_chunks, Chroma_add_documents.
  cbn [collection chroma_persist_directory].
  change (embed_log (opened (persist_directory self) w)) with (embed_log w).
  destruct (embed_documents _) as [vectors|e]; [|reflexivity].
  destruct (split_documents text_splitter (reg_docs ++ framework_docs)) as [|chunk chunks];
    [reflexivity|].
  destruct (Nat.eqb (length vectors) (length (chunk :: chunks))); [|reflexivity].
  unfold Chroma_persist, ret, opened, with_chroma, with_embed_log.
  cbn [collection chroma_persist_directory environ directories files chroma embed_log console].
  rewrite insert_insert_eq. reflexivity.
Qed.

(** What a returning call has done. *)
Lemma index_documents_returned self w self' w' :
  index_documents self w = (Returned self', w') ->
  exists reg_docs framework_docs vectors,
    data_directories_exist w
    /\ load_files false (List.filter (selected regulations_loader) (files w)) = Returned reg_docs
    /\ load_files false (List.filter (selected frameworks_loader) (files w))
         = Returned framework_docs
    /\ split_documents text_splitter (reg_docs ++ framework_docs) <> []
    /\ embed_documents
         (map page_content (split_documents text_splitter (reg_docs ++ framework_docs)))
         = Returned vectors
    /\ length vectors = length (split_documents text_splitter (reg_docs ++ framework_docs))
    /\ self' = set_vectorstore self
                 (mkChroma (kept_at (persist_directory self) w
                            ++ zip (split_documents text_splitter (reg_docs ++ framework_docs))
                                 vectors)
                    (persist_directory self))
    /\ w' = mkWorld (environ w) (directories w) (files w)
              (<[persist_directory self :=
                   kept_at (persist_directory self) w
                   ++ zip (split_documents text_splitter (reg_docs ++ framework_docs)) vectors]>
                 (chroma w))
              (embed_log w
               ++ map page_content (split_documents text_splitter (reg_docs ++ framework_docs)))
              (console w).
Proof.
  rewrite index_documents_steps. unfold data_directories_exist.
  destruct (is_dir ["data"; "regulations"] w); [|discriminate].
  destruct (load_files false (List.filter (selected regulations_loader) (files w)))
    as [reg_docs|e]; [|discriminate].
  destruct (is_dir ["data"; "frameworks"] w); [|discriminate].
  destruct (load_files false (List.filter (selected frameworks_loader) (files w)))
    as [framework_docs|e]; [|discriminate].
  unfold store_chunks. cbv zeta.
  destruct (embed_documents _) as [vectors|e] eqn:Hembed; [|discriminate].
  destruct (split_documents text_splitter (reg_docs ++ framework_docs))
    as [|chunk chunks] eqn:Hchunks; [discriminate|].
  destruct (Nat.eqb (length vectors) (length (chunk :: chunks))) eqn:Hlen; [|discriminate].
  apply Nat.eqb_eq in Hlen.
  intros Heq. injection Heq as <- <-.
  exists reg_docs, framework_docs, vectors. rewrite Hchunks.
  repeat split; try assumption; try reflexivity. discriminate.
Qed.

Lemma split_documents_source (splitter : RecursiveCharacterTextSplitter)
    (docs : list Document) (chunk : Document) :
  In chunk (split_documents splitter docs) ->
  exists d, In d docs /\ source chunk = source d /\ page chunk = page d
            /\ In (page_content chunk) (split_text splitter (page_content d)).
Proof.
  unfold split_documents. intros Hin.
  apply in_flat_map in Hin as (d & Hd & Hchunk).
  apply in_map_iff in Hchunk as (text & <- & Htext).
  exists d. repeat split; assumption.
Qed.


End IndexFacts.

(** C10. [index_documents] has no path argument.  Every chunk it adds to
    what the location held comes from a file below [./data/regulations] or
    [./data/frameworks] whose name ends in [.pdf], and the files with other
    names play no part: with them removed the call has the same outcome,
    stores and persists the same collection and embeds the same texts. *)
Theorem index_documents_reads_pdfs_of_two_fixed_directories
    {vector : Type} {E : External vector}
    (self : DocumentIndexer (vector := vector)) (w : World vector) (fs : list File) :
  (forall self' w',
      index_documents self (with_files w fs) = (Returned self', w') ->
      exists added,
        indexed_chunks self' = map fst (kept_at (persist_directory self) w) ++ added
        /\ forall chunk, In chunk added ->
             in_data_directories (source chunk)
             /\ endswith (basename (source chunk)) ".pdf" = true)
  /\ (let all := index_documents self (with_files w fs) in
      let pdfs := index_documents self (with_files w (List.filter is_pdf_name fs)) in
      fst all = fst pdfs
      /\ chroma (snd all) = chroma (snd pdfs)
      /\ embed_log (snd all) = embed_log (snd pdfs)
      /\ console (snd all) = console (snd pdfs)).
Proof.
  split.
  - intros self' w' Hrun.
    apply index_documents_returned in Hrun
      as (reg_docs & framework_docs & vectors & _ & Hreg & Hfw & _ & _ & Hlen & -> & _).
    exists (split_documents text_splitter (reg_docs ++ framework_docs)).
    split.
    + unfold indexed_chunks. cbn [vectorstore set_vectorstore collection].
      rewrite map_app, fst_zip by lia. reflexivity.
    + intros chunk Hchunk.
      apply split_documents_source in Hchunk as (d & Hd & -> & _).
      apply in_app_or in Hd as [Hd|Hd].
      * destruct (load_files_sources _ _ _ Hreg d Hd) as (f & Hf & ->).
        apply filter_In in Hf as [_ Hsel].
        apply selected_pdf_below in Hsel as (rel & Hrel & Hpath & Hpdf).
        split; [|exact Hpdf]. exists rel. split; [exact Hrel|]. left. exact Hpath.
      * destruct (load_files_sources _ _ _ Hfw d Hd) as (f & Hf & ->).
        apply filter_In in Hf as [_ Hsel].
        apply selected_pdf_below in Hsel as (rel & Hrel & Hpath & Hpdf).
        split; [|exact Hpdf]. exists rel. split; [exact Hrel|]. right. exact Hpath.
  - cbv zeta. rewrite !index_documents_steps.
    change (is_dir ?p (with_files w ?l)) with (is_dir p w).
    change (files (with_files w ?l)) with l.
    unfold regulations_loader, frameworks_loader.
    rewrite <- !filter_selected_pdf.
    destruct (is_dir ["data"; "regulations"] w); [|repeat split].
    destruct (load_files false (List.filter (selected _) fs)) as [reg_docs|e];
      [|repeat split].
    destruct (is_dir ["data"; "frameworks"] w); [|repeat split].
    destruct (load_files false (List.filter (selected _) fs)) as [framework_docs|e];
      [|repeat split].
    unfold store_chunks. cbv zeta.
    destruct (embed_documents _) as [vectors|e]; [|repeat split].
    destruct (split_documents text_splitter (reg_docs ++ framework_docs)); [repeat split|].
    destruct (Nat.eqb _ _); repeat split.
Qed.

Lemma index_documents_skips_the_notes :
  exists self' w',
    index_documents (E := sample_external (Returned PNone)) fresh_indexer
      (with_files data_world four_documents_and_notes) = (Returned self', w')
    /\ map source (indexed_chunks self')
       = [["data"; "regulations"; "a.pdf"]; ["data"; "frameworks"; "investor"; "gresb.pdf"]]
    /\ Forall (fun chunk => in_data_directories (source chunk)
                            /\ endswith (basename (source chunk)) ".pdf" = true)
         (indexed_chunks self').
Proof.
  eexists _, _. split; [vm_compute; reflexivity|]. split; [reflexivity|].
  destruct (proj1 (index_documents_reads_pdfs_of_two_fixed_directories
                     (E := sample_external (Returned PNone)) fresh_indexer data_world
                     four_documents_and_notes) _ _ ltac:(vm_compute; reflexivity))
    as (added & Hadded & Hfrom).
  apply List.Forall_forall. intros chunk Hchunk. apply Hfrom.
  change (kept_at (persist_directory fresh_indexer) data_world) with ([] : store nat)
    in Hadded.
  cbn [map app] in Hadded. rewrite Hadded in Hchunk. exact Hchunk.
Defined.





(** ** The text splitter keeps to its chunk size *)















Section SplitterFacts.

Variable self : RecursiveCharacterTextSplitter.








End SplitterFacts.





(** ** [DocumentIndexer._initialize_vectorstore] *)

Section CacheFacts.

Context {vector : Type} {E : External vector}.

Implicit Types (self : DocumentIndexer (vector := vector)) (w : World vector).

Lemma initialize_loads self w (kept : store vector) :
  chroma w !! persist_directory self = Some kept ->
  _initialize_vectorstore self w
    = (Returned (set_vectorstore self (mkChroma kept (persist_directory self))), w).
Proof.
  intros Hkept. unfold _initialize_vectorstore, bind, path_exists, ret.
  rewrite bool_decide_eq_true_2 by eauto.
  rewrite Chroma_open_spec, (opened_kept _ _ _ Hkept).
  unfold kept_at. rewrite Hkept. reflexivity.
Qed.

Lemma initialize_builds self w :
  chroma w !! persist_directory self = None ->
  _initialize_vectorstore self w = index_documents self w.
Proof.
  intros Hnone. unfold _initialize_vectorstore, bind, path_exists.
  rewrite bool_decide_eq_false_2; [reflexivity|].
  rewrite Hnone. intros [kept Hkept]. discriminate.
Qed.

Lemma index_documents_persists self w self1 w1 :
  index_documents self w = (Returned self1, w1) ->
  exists built,
    self1 = set_vectorstore self (mkChroma built (persist_directory self))
    /\ chroma w1 !! persist_directory self = Some built.
Proof.
  intros Hrun.
  apply index_documents_returned in Hrun
    as (r & f & vectors & _ & _ & _ & _ & _ & _ & -> & ->).
  eexists. split; [reflexivity|]. cbn. apply lookup_insert_eq.
Qed.

(** After a returning call the location holds the collection of the
    object handed back. *)
Lemma initialize_leaves_index self w self1 w1 :
  _initialize_vectorstore self w = (Returned self1, w1) ->
  exists kept,
    self1 = set_vectorstore self (mkChroma kept (persist_directory self))
    /\ chroma w1 !! persist_directory self = Some kept.
Proof.
  intros Hinit.
  destruct (chroma w !! persist_directory self) as [kept|] eqn:Hkept.
  - rewrite (initialize_loads _ _ _ Hkept) in Hinit. injection Hinit as <- <-.
    exists kept. split; [reflexivity|exact Hkept].
  - rewrite (initialize_builds _ _ Hkept) in Hinit.
    eapply index_documents_persists. exact Hinit.
Qed.

End CacheFacts.




(** ** [DocumentIndexer.search] *)

(** C3, as stated, fails: [search] does not hand back the chunks.  A store
    that holds a text in one chunk and a store that holds it in two give
    the same result, so the chunks ranked cannot be read off it. *)
Lemma search_result_is_not_the_chunks : ~ search_returns_the_chunks.
Proof.
  intros [chunks_of Hclaim].
  pose proof (Hclaim (sample_external (Returned PNone))
                (mkDocumentIndexer "./chroma_db" (Some (mkChroma one_chunk_store "./chroma_db")))
                _ "water" 10%Z _ empty_world _ _ eq_refl eq_refl eq_refl eq_refl) as Hone.
  pose proof (Hclaim (sample_external (Returned PNone))
                (mkDocumentIndexer "./chroma_db" (Some (mkChroma two_chunk_store "./chroma_db")))
                _ "water" 10%Z _ empty_world _ _ eq_refl eq_refl eq_refl eq_refl) as Htwo.
  vm_compute in Hone, Htwo. rewrite Hone in Htwo. discriminate.
Qed.

(** C3, amended. For an indexer with a store, [search] hands back one
    string: the page contents of the chunks that the ranking of the vector
    store gives for the embedded query and [k], in the order of the
    ranking, with a blank line between them.  Which chunks these are, how
    many, and in which order is the ranking's answer, passed on as it is.
    [search] leaves the world as it is; it raises what the embedding of the
    query raises, the [TypeError] of the store for a [k] below one, and
    [AttributeError] where no store is set. *)
Theorem search_joins_the_ranked_chunks
    {vector : Type} {E : External vector}
    (self : DocumentIndexer (vector := vector)) (query : string) (k : Z) (w : World vector) :
  snd (search self query k w) = w
  /\ (vectorstore self = None ->
      fst (search self query k w) = Raised (NoneType_has_no_attribute "similarity_search"))
  /\ forall vs, vectorstore self = Some vs ->
       (forall e, embed_query query = Raised e -> fst (search self query k w) = Raised e)
       /\ forall q, embed_query query = Returned q ->
            ((k <= 0)%Z -> fst (search self query k w) = Raised (nonpositive_results k))
            /\ ((0 < k)%Z ->
                fst (search self query k w)
                = Returned (String.concat blank_line
                              (map page_content (nearest (collection vs) q (Z.to_nat k))))).
Proof.
  unfold search, Chroma_similarity_search, bind, lift, ret, raise.
  destruct (vectorstore self) as [vs|].
  - destruct (embed_query query) as [q|e] eqn:Hq.
    + destruct (k <=? 0)%Z eqn:Hk.
      * apply Z.leb_le in Hk. split; [reflexivity|]. split; [discriminate|].
        intros vs' [= <-]. split; [discriminate|].
        intros q' [= <-]. split; [reflexivity|lia].
      * apply Z.leb_gt in Hk. split; [reflexivity|]. split; [discriminate|].
        intros vs' [= <-]. split; [discriminate|].
        intros q' [= <-]. split; [lia|reflexivity].
    + split; [reflexivity|]. split; [discriminate|].
      intros vs' [= <-]. split; [intros e' [= <-]; reflexivity|discriminate].
  - split; [reflexivity|]. split; [reflexivity|discriminate].
Qed.

Lemma search_of_two_chunks_for_ten :
  fst (search (E := sample_external (Returned PNone))
         (mkDocumentIndexer "./chroma_db" (Some (mkChroma two_chunk_store "./chroma_db")))
         "water" 10 empty_world)
  = Returned ("energy use" ++ blank_line ++ "water use")%string.
Proof.
  apply (proj2 (proj2 (proj2 (proj2 (search_joins_the_ranked_chunks
           (E := sample_external (Returned PNone))
           (mkDocumentIndexer "./chroma_db" (Some (mkChroma two_chunk_store "./chroma_db")))
           "water" 10 empty_world)) _ eq_refl) 5 eq_refl)).
  reflexivity.
Defined.

(** * Further properties of the code *)

(** ** [ESGAnalysisCrew.run], continued *)

(** X1. [run] returns in two ways only: the crew handed back a dict, which
    is the result, with the world as the crew left it; or the crew handed
    back something else, and the result is the fallback taxonomy with the
    warning printed.  Either way the result is a dict. *)
Theorem run_returns_a_dict
    {vector : Type} {E : External vector}
    (self : ESGAnalysisCrew) (properties result : pyvalue) (w w' : World vector) :
  run self properties w = (Returned result, w') ->
  isinstance_dict result = true
  /\ exists v w1,
       kickoff (crew self) (kickoff_inputs self properties) w = (Returned v, w1)
       /\ (isinstance_dict v = true /\ result = v /\ w' = w1
           \/ isinstance_dict v = false
              /\ result = _create_basic_metrics_structure
              /\ w' = with_console w1 (console w1 ++ [not_a_dictionary_warning v])).
Proof.
  unfold run, bind.
  destruct (kickoff (crew self) (kickoff_inputs self properties) w) as [[v|e] w1];
    [|discriminate].
  destruct (isinstance_dict v) eqn:Hv; cbn.
  - intros [= <- <-]. split; [exact Hv|].
    exists v, w1. split; [reflexivity|]. left. repeat split. exact Hv.
  - intros [= <- <-]. split; [reflexivity|].
    exists v, w1. split; [reflexivity|]. right. repeat split. exact Hv.
Qed.

Lemma run_returns_a_dict_for_a_crew_output_object :
  isinstance_dict _create_basic_metrics_structure = true
  /\ exists v w1,
       @kickoff nat (sample_external (Returned (PObject "CrewOutput" "Here are the metrics")))
         (crew blackrock_crew) (kickoff_inputs blackrock_crew main_properties) empty_world
       = (Returned v, w1)
       /\ (isinstance_dict v = true /\ _create_basic_metrics_structure = v
           /\ with_console empty_world
                [not_a_dictionary_warning (PObject "CrewOutput" "Here are the metrics")]
              = w1
           \/ isinstance_dict v = false
              /\ _create_basic_metrics_structure = _create_basic_metrics_structure
              /\ with_console empty_world
                   [not_a_dictionary_warning (PObject "CrewOutput" "Here are the metrics")]
                 = with_console w1 (console w1 ++ [not_a_dictionary_warning v])).
Proof.
  apply (run_returns_a_dict
           (E := sample_external (Returned (PObject "CrewOutput" "Here are the metrics")))
           blackrock_crew main_properties _create_basic_metrics_structure empty_world).
  reflexivity.
Defined.

(** X2. [run] has no handler: it raises an exception and leaves a world
    exactly when the crew's kickoff raises that exception and leaves that
    world (no warning is printed, no fallback is returned). *)
Theorem run_raises_exactly_what_kickoff_raises
    {vector : Type} {E : External vector}
    (self : ESGAnalysisCrew) (properties : pyvalue) (w w' : World vector) (e : exn) :
  run self properties w = (Raised e, w')
  <-> kickoff (crew self) (kickoff_inputs self properties) w = (Raised e, w').
Proof.
  unfold run, bind.
  destruct (kickoff (crew self) (kickoff_inputs self properties) w) as [[v|e1] w1]; cbn.
  - destruct (isinstance_dict v); cbn; split; discriminate.
  - tauto.
Qed.

Lemma run_raises_a_transport_failure :
  run (E := sample_external (Raised (Exception "ConnectionError" "no route to host")))
    blackrock_crew main_properties empty_world
  = (Raised (Exception "ConnectionError" "no route to host"), empty_world).
Proof.
  apply (proj2 (run_raises_exactly_what_kickoff_raises
                  (E := sample_external
                          (Raised (Exception "ConnectionError" "no route to host")))
                  blackrock_crew main_properties empty_world empty_world
                  (Exception "ConnectionError" "no route to host"))).
  reflexivity.
Defined.

(** ** [DocumentIndexer], continued *)

(** X3. An indexer whose construction returned has its vector store set
    and keeps its collection at the location named by
    [CHROMA_PERSIST_DIRECTORY], [./chroma_db] when the variable is unset.
    [search] on it never fails for want of a store and leaves the world as
    it is: it raises what the embedding of the query raises, the
    [TypeError] of the store for a [k] below one, and otherwise returns the
    ranked chunks joined. *)
Theorem constructed_indexer_is_searchable
    {vector : Type} {E : External vector}
    (self : DocumentIndexer (vector := vector)) (w w1 : World vector) :
  DocumentIndexer_init w = (Returned self, w1) ->
  exists w0 vs,
    OpenAIEmbeddings_init w = (Returned tt, w0)
    /\ persist_directory self
       = from_option id "./chroma_db" (environ w0 !! "CHROMA_PERSIST_DIRECTORY")
    /\ vectorstore self = Some vs
    /\ chroma w1 !! persist_directory self = Some (collection vs)
    /\ forall query k w2,
         search self query k w2
         = (match embed_query query with
            | Raised e => Raised e
            | Returned q =>
                if (k <=? 0)%Z then Raised (nonpositive_results k)
                else Returned (String.concat blank_line
                                 (map page_content (nearest (collection vs) q (Z.to_nat k))))
            end, w2).
Proof.
  unfold DocumentIndexer_init, bind, getenv.
  destruct (OpenAIEmbeddings_init w) as [[[]|e] w0]; [|discriminate].
  intros Hinit.
  apply initialize_leaves_index in Hinit as (kept & -> & Hkept).
  exists w0. eexists. split; [reflexivity|]. split; [reflexivity|].
  split; [reflexivity|]. split; [exact Hkept|].
  intros query k w2. unfold search, Chroma_similarity_search, bind, lift, ret, raise.
  cbn. destruct (embed_query query); [|reflexivity].
  destruct (k <=? 0)%Z; reflexivity.
Qed.

Lemma indexer_of_a_world_with_an_index_is_searchable :
  exists self,
    DocumentIndexer_init (E := sample_external (Returned PNone)) world_with_index
      = (Returned self, world_with_index)
    /\ persist_directory self = "./chroma_db"
    /\ search (E := sample_external (Returned PNone)) self "energy" 1 world_with_index
       = (Returned "energy use in kWh", world_with_index)
    /\ search (E := sample_external (Returned PNone)) self "energy" 0 world_with_index
       = (Raised (nonpositive_results 0), world_with_index).
Proof.
  eexists. split; [vm_compute; reflexivity|].
  destruct (constructed_indexer_is_searchable
              (E := sample_external (Returned PNone)) _ world_with_index world_with_index
              ltac:(vm_compute; reflexivity))
    as (w0 & vs & Hw0 & Hdir & Hvs & _ & Hsearch).
  injection Hw0 as <-.
  split; [exact Hdir|]. rewrite !Hsearch.
  injection Hvs as <-. split; reflexivity.
Defined.

(** X4. [index_documents] is no cache and adds to what the location holds:
    a build that returned, run again on the world it left, sends every
    chunk text to the embedding service once more and stores every chunk a
    second time, after the collection of the first build. *)
Theorem rebuild_stores_everything_twice
    {vector : Type} {E : External vector}
    (self self1 : DocumentIndexer (vector := vector)) (w w1 : World vector) :
  index_documents self w = (Returned self1, w1) ->
  exists (chunks : list Document) (vectors : list vector) (first : store vector) self2 w2,
    chunks <> []
    /\ length vectors = length chunks
    /\ embed_log w1 = embed_log w ++ map page_content chunks
    /\ vectorstore self1 = Some (mkChroma first (persist_directory self))
    /\ first = kept_at (persist_directory self) w ++ zip chunks vectors
    /\ index_documents self w1 = (Returned self2, w2)
    /\ embed_log w2 = embed_log w1 ++ map page_content chunks
    /\ vectorstore self2
       = Some (mkChroma (first ++ zip chunks vectors) (persist_directory self))
    /\ chroma w2 !! persist_directory self = Some (first ++ zip chunks vectors).
Proof.
  intros Hrun.
  apply index_documents_returned in Hrun
    as (reg_docs & framework_docs & vectors & [Hdreg Hdfw] & Hreg & Hfw & Hsome & Hembed
        & Hlen & -> & ->).
  remember (split_documents text_splitter (reg_docs ++ framework_docs)) as chunks eqn:Hch.
  rewrite index_documents_steps.
  change (is_dir ?p (mkWorld ?en (directories w) ?f ?c ?l ?co)) with (is_dir p w).
  cbn [files]. rewrite Hdreg, Hdfw, Hreg, Hfw, <- Hch.
  unfold store_chunks. cbv zeta. rewrite Hembed.
  destruct chunks as [|c cs]; [congruence|].
  rewrite Hlen, Nat.eqb_refl.
  repeat match goal with
         | |- context [kept_at ?l (mkWorld ?a ?b ?c0 (<[?i := ?x]> ?m) ?e ?f)] =>
             replace (kept_at l (mkWorld a b c0 (<[i := x]> m) e f)) with x
               by (symmetry; apply kept_at_lookup, lookup_insert_eq)
         end.
  exists (c :: cs), vectors. eexists. eexists. eexists.
  split; [exact Hsome|]. split; [exact Hlen|]. split; [reflexivity|].
  split; [reflexivity|]. split; [reflexivity|]. split; [reflexivity|].
  split; [reflexivity|]. split; [reflexivity|].
  cbn [chroma]. apply lookup_insert_eq.
Qed.

Lemma rebuild_of_the_sample_corpus_stores_twice :
  exists self1 w1 self2 w2,
    index_documents (E := sample_external (Returned PNone)) fresh_indexer
      (with_files data_world four_documents_and_notes) = (Returned self1, w1)
    /\ index_documents (E := sample_external (Returned PNone)) fresh_indexer w1
       = (Returned self2, w2)
    /\ map page_content (indexed_chunks self2)
       = ["energy use in kWh"; "tenant engagement"; "energy use in kWh"; "tenant engagement"]
    /\ embed_log w2
       = ["energy use in kWh"; "tenant engagement"; "energy use in kWh"; "tenant engagement"].
Proof.
  assert (Hfirst : exists self1 w1,
             index_documents (E := sample_external (Returned PNone)) fresh_indexer
               (with_files data_world four_documents_and_notes) = (Returned self1, w1)).
  { eexists _, _. vm_compute. reflexivity. }
  destruct Hfirst as (self1 & w1 & Hfirst).
  destruct (rebuild_stores_everything_twice
              (E := sample_external (Returned PNone)) _ _ _ _ Hfirst)
    as (chunks & vectors & first & self2 & w2 & _ & _ & _ & _ & _ & Hsecond & _).
  exists self1, w1, self2, w2. split; [exact Hfirst|]. split; [exact Hsecond|].
  vm_compute in Hfirst. injection Hfirst as <- <-.
  vm_compute in Hsecond. injection Hsecond as <- <-.
  split; reflexivity.
Defined.

(** X5. A build that returns has added every chunk of every page loaded to
    what the location held before: the chunks of the regulations before
    those of the frameworks, each in the order of its document and of the
    splitter. *)
Theorem every_chunk_is_stored_in_corpus_order
    {vector : Type} {E : External vector}
    (self self' : DocumentIndexer (vector := vector)) (w w' : World vector) :
  index_documents self w = (Returned self', w') ->
  exists reg_docs framework_docs,
    DirectoryLoader_load regulations_loader w = (Returned reg_docs, w)
    /\ DirectoryLoader_load frameworks_loader w = (Returned framework_docs, w)
    /\ indexed_chunks self'
       = map fst (kept_at (persist_directory self) w)
         ++ split_documents text_splitter reg_docs
         ++ split_documents text_splitter framework_docs
    /\ map fst (kept_at (persist_directory self) w') = indexed_chunks self'.
Proof.
  intros Hrun.
  apply index_documents_returned in Hrun
    as (reg_docs & framework_docs & vectors & [Hdreg Hdfw] & Hreg & Hfw & _ & _ & Hlen
        & -> & ->).
  exists reg_docs, framework_docs.
  unfold DirectoryLoader_load.
  change (silent_errors regulations_loader) with false.
  change (silent_errors frameworks_loader) with false.
  change (path_of (dl_path regulations_loader)) with ["data"; "regulations"].
  change (path_of (dl_path frameworks_loader)) with ["data"; "frameworks"].
  rewrite Hdreg, Hdfw, Hreg, Hfw. split; [reflexivity|]. split; [reflexivity|].
  unfold indexed_chunks. cbn [vectorstore set_vectorstore collection].
  split.
  - rewrite map_app, fst_zip by lia. f_equal. unfold split_documents. apply flat_map_app.
  - apply f_equal, kept_at_lookup, lookup_insert_eq.
Qed.

Lemma both_sample_documents_are_stored :
  exists self' w',
    index_documents (E := sample_external (Returned PNone)) fresh_indexer
      (with_files data_world four_documents_and_notes) = (Returned self', w')
    /\ map page_content (indexed_chunks self') = ["energy use in kWh"; "tenant engagement"].
Proof.
  eexists _, _. split; [vm_compute; reflexivity|].
  edestruct (every_chunk_is_stored_in_corpus_order
               (E := sample_external (Returned PNone)) fresh_indexer)
    with (w := with_files data_world four_documents_and_notes)
    as (reg_docs & framework_docs & Hreg & Hfw & Hchunks & _);
    [vm_compute; reflexivity|].
  rewrite Hchunks.
  vm_compute in Hreg, Hfw. injection Hreg as <-. injection Hfw as <-. reflexivity.
Defined.

(** ** [ESGFormGenerator]: formats and validation *)

Lemma add_formats_spec (entries : list (string * pyvalue)) (wb : Workbook) :
  add_formats entries wb
    = (Returned entries,
       mkWorkbook (filename wb) (added_formats wb ++ map snd entries) (worksheets wb)
         (closed wb)).
Proof.
  revert wb. induction entries as [|[name properties] entries IH]; intros wb.
  - cbn. rewrite app_nil_r. destruct wb; reflexivity.
  - cbn [add_formats]. unfold xl_bind, add_format. rewrite IH. cbn.
    rewrite <- app_assoc. reflexivity.
Qed.

(** X6. With the formats of [_create_formats], [_get_input_format] always
    finds a format for a hashable data type, known or not, and the format
    has the yellow background of an input cell; a data type that is a list
    or a dict raises [TypeError]. *)
Theorem input_format_is_a_yellow_cell (data_type : pyvalue) :
  match data_type with
  | PList _ | PDict _ =>
      _get_input_format format_properties data_type = Raised (unhashable data_type)
  | _ =>
      exists f, _get_input_format format_properties data_type = Returned (Some f)
                /\ dict_get "bg_color" f = Some (PStr "#fff2cc")
  end.
Proof.
  destruct data_type as [| | |s| | |]; try reflexivity;
    try (eexists; split; reflexivity).
  unfold _get_input_format, prop_get, format_map. cbn [str_lookup].
  repeat match goal with
         | |- context [String.eqb ?k s] => destruct (String.eqb k s)
         end;
    eexists; split; reflexivity.
Qed.

Lemma py_eq_str_true (v : pyvalue) (s : string) : py_eq_str v s = true <-> v = PStr s.
Proof.
  destruct v; cbn; try (split; [discriminate|intros [=]]).
  rewrite String.eqb_eq. split; [intros ->; reflexivity|intros [= ->]; reflexivity].
Qed.

Lemma add_validation_spec (row col : nat) (data_type : pyvalue)
    (ops : list cell_op) :
  exists added,
    _add_validation row col data_type ops = (Returned tt, ops ++ added)
    /\ (added = [] \/ exists options, added = [data_validation row col row col options])
    /\ (added <> [] <-> In data_type validated_types).
Proof.
  unfold _add_validation, validated_types.
  destruct (py_eq_str data_type "numeric") eqn:Hn;
    [apply py_eq_str_true in Hn; subst; eexists; split; [reflexivity|];
     split; [right; eexists; reflexivity|]; split; [intros _; cbn; tauto|discriminate]|].
  destruct (py_eq_str data_type "integer") eqn:Hi;
    [apply py_eq_str_true in Hi; subst; eexists; split; [reflexivity|];
     split; [right; eexists; reflexivity|]; split; [intros _; cbn; tauto|discriminate]|].
  destruct (py_eq_str data_type "percentage") eqn:Hp;
    [apply py_eq_str_true in Hp; subst; eexists; split; [reflexivity|];
     split; [right; eexists; reflexivity|]; split; [intros _; cbn; tauto|discriminate]|].
  destruct (py_eq_str data_type "boolean") eqn:Hb;
    [apply py_eq_str_true in Hb; subst; eexists; split; [reflexivity|];
     split; [right; eexists; reflexivity|]; split; [intros _; cbn; tauto|discriminate]|].
  exists []. cbn. rewrite app_nil_r. split; [reflexivity|]. split; [left; reflexivity|].
  split; [intros H; destruct (H eq_refl)|].
  intros [<-|[<-|[<-|[<-|[]]]]]; cbn in *; discriminate.
Qed.

(** X7. [_add_validation] never fails and adds at most one rule, on the one
    cell it is given; it adds a rule exactly for the data types numeric,
    integer, percentage and boolean, and none for currency, text or
    anything else. *)
Theorem validation_is_added_for_four_types (row col : nat) (data_type : pyvalue)
    (ops : list cell_op) :
  exists added,
    _add_validation row col data_type ops = (Returned tt, ops ++ added)
    /\ (added = [] \/ exists options, added = [data_validation row col row col options])
    /\ (added <> [] <-> In data_type validated_types).
Proof.
  exact (add_validation_spec row col data_type ops).
Qed.

(** ** [ESGFormGenerator.create_comprehensive_form]: the workbook *)

Section WorkbookFacts.

Context {X : XlsxWriter}.

Lemma extends_refl (wb : Workbook) : extends wb wb [].
Proof. repeat split. rewrite app_nil_r. reflexivity. Qed.

Lemma extends_trans (wb1 wb2 wb3 : Workbook) (names1 names2 : list string) :
  extends wb1 wb2 names1 -> extends wb2 wb3 names2 -> extends wb1 wb3 (names1 ++ names2).
Proof.
  intros (Hf1 & Ha1 & Hc1 & Hw1) (Hf2 & Ha2 & Hc2 & Hw2).
  repeat split; try congruence. rewrite Hw2, Hw1, app_assoc. reflexivity.
Qed.

(** A name that is accepted is the name asked for, or the default for the
    empty name; it has at most 31 characters and is, case set aside, the
    name of no worksheet already there. *)
Lemma check_sheetname_returned (names : list string) (name sheetname : string) :
  check_sheetname names name = Returned sheetname ->
  sheetname = (if String.eqb name "" then ("Sheet" ++ str_of_nat (S (length names)))%string
               else name)
  /\ py_strlen sheetname <= 31
  /\ ~ In (py_lower sheetname) (map py_lower names).
Proof.
  unfold check_sheetname.
  set (given := if String.eqb name "" then _ else name).
  destruct (31 <? py_strlen given)%nat eqn:Hlen; [discriminate|].
  destruct (existsb _ (list_ascii_of_string given)); [discriminate|].
  destruct (String.prefix "'" given || endswith given "'"); [discriminate|].
  destruct (existsb _ names) eqn:Hdup; [discriminate|].
  intros [= <-]. split; [reflexivity|]. split; [apply Nat.ltb_ge; exact Hlen|].
  intros Hin. apply in_map_iff in Hin as (other & Hsame & Hother).
  assert (Hex : existsb (fun n => String.eqb (py_lower given) (py_lower n)) names = true).
  { apply existsb_exists. exists other. split; [exact Hother|].
    apply String.eqb_eq. symmetry. exact Hsame. }
  congruence.
Qed.

(** What adding a worksheet does: the name is refused and the workbook is
    as it was, or the worksheet is added under the name accepted and the
    outcome is that of the code that writes to it. *)
Lemma on_new_worksheet_spec {A} (name : string) (body : Sheet A) (wb wb' : Workbook)
    (r : outcome A) :
  on_new_worksheet name body wb = (r, wb') ->
  (exists e, check_sheetname (map fst (worksheets wb)) name = Raised e
             /\ r = Raised e /\ wb' = wb)
  \/ (exists sheetname,
        check_sheetname (map fst (worksheets wb)) name = Returned sheetname
        /\ extends wb wb' [sheetname] /\ r = fst (body [])).
Proof.
  unfold on_new_worksheet.
  destruct (check_sheetname (map fst (worksheets wb)) name) as [sheetname|e].
  - destruct (body []) as [result ops]. intros [= <- <-]. right. exists sheetname.
    split; [reflexivity|]. split; [|reflexivity].
    repeat split. cbn. rewrite map_app. reflexivity.
  - intros [= <- <-]. left. exists e. repeat split.
Qed.

(** Adding a worksheet under a name that is accepted. *)
Lemma on_new_worksheet_accepted {A} (name sheetname : string) (body : Sheet A)
    (wb : Workbook) :
  check_sheetname (map fst (worksheets wb)) name = Returned sheetname ->
  exists wb', on_new_worksheet name body wb = (fst (body []), wb')
              /\ extends wb wb' [sheetname].
Proof.
  intros Hcheck. unfold on_new_worksheet. rewrite Hcheck.
  destruct (body []) as [result ops]. eexists. split; [reflexivity|].
  repeat split. cbn. rewrite map_app. reflexivity.
Qed.

Lemma extends_length (wb wb' : Workbook) (names : list string) :
  extends wb wb' names -> length (worksheets wb') = length (worksheets wb) + length names.
Proof.
  intros (_ & _ & _ & Hw). apply (f_equal (@length string)) in Hw.
  rewrite length_app, !length_map in Hw. exact Hw.
Qed.

(** The worksheets of the properties: those added are the first of the
    names that the properties give, each at its place in the workbook. *)
Lemma property_sheets_extend (formats : Formats) (metrics_data : pyvalue)
    (properties : list Property) (wb wb' : Workbook) (r : outcome unit) :
  for_xl properties (_create_property_sheet formats metrics_data) wb = (r, wb') ->
  exists names rest,
    extends wb wb' names
    /\ imap (fun i p => property_sheet_name (length (worksheets wb) + i) p) properties
       = names ++ rest
    /\ (is_returned r = true -> rest = [] /\ forallb has_name properties = true).
Proof.
  revert wb. induction properties as [|p properties IH]; intros wb Hrun.
  - cbn in Hrun. injection Hrun as <- <-. exists [], [].
    split; [apply extends_refl|]. split; [reflexivity|]. intros _. split; reflexivity.
  - cbn [for_xl] in Hrun. unfold xl_bind in Hrun.
    destruct (_create_property_sheet formats metrics_data p wb) as [r1 wb1] eqn:Hp.
    unfold _create_property_sheet, prop_item in Hp.
    destruct (str_lookup "name" p) as [name|] eqn:Hname.
    + assert (Hh : has_name p = true)
        by (unfold has_name; rewrite Hname; apply bool_decide_eq_true_2; eauto).
      apply on_new_worksheet_spec in Hp
        as [(e & Hcheck & -> & ->)|(sheetname & Hcheck & Hext & Hr1)].
      * injection Hrun as <- <-. exists []. eexists.
        split; [apply extends_refl|]. split; [reflexivity|discriminate].
      * apply check_sheetname_returned in Hcheck as (Hgiven & _).
        rewrite length_map in Hgiven.
        assert (Hs : property_sheet_name (length (worksheets wb) + 0) p = sheetname).
        { unfold property_sheet_name, prop_get. rewrite Hname, Nat.add_0_r. cbn [from_option id].
          symmetry. exact Hgiven. }
        assert (Hshift : imap (fun i q => property_sheet_name (length (worksheets wb) + i) q)
                           (p :: properties)
                         = sheetname
                           :: imap (fun i q => property_sheet_name
                                                 (length (worksheets wb1) + i) q) properties).
        { cbn [imap]. rewrite Hs. f_equal. apply imap_ext. intros i q _. cbn.
          rewrite (extends_length _ _ _ Hext). cbn [length]. f_equal. lia. }
        rewrite Hshift.
        destruct r1 as [[]|e].
        -- destruct (IH wb1 Hrun) as (names & rest & Hext' & Hsplit & Hdone).
           exists ([sheetname] ++ names), rest.
           split; [eapply extends_trans; eassumption|].
           split; [cbn [app]; rewrite Hsplit; reflexivity|].
           intros Hr. destruct (Hdone Hr) as [-> Hall].
           cbn [forallb]. rewrite Hh. split; [reflexivity|exact Hall].
        -- injection Hrun as <- <-. exists [sheetname]. eexists.
           split; [exact Hext|]. split; [reflexivity|discriminate].
    + injection Hp as <- <-. injection Hrun as <- <-.
      exists []. eexists.
      split; [apply extends_refl|]. split; [reflexivity|discriminate].
Qed.

End WorkbookFacts.

(** ** When the sheets can be written *)

Section Succeeds.

Context {X : XlsxWriter}.

Lemma succeeds_ret {A} (a : A) : succeeds (sheet_ret a) true.
Proof. intros ops. reflexivity. Qed.

Lemma succeeds_call (op : cell_op) : succeeds (call op) true.
Proof. intros ops. reflexivity. Qed.

Lemma succeeds_bind {A B} (m : Sheet A) (k : A -> Sheet B) (b1 b2 b : bool) :
  succeeds m b1 -> (forall a, succeeds (k a) b2) -> b = b1 && b2 ->
  succeeds (sheet_bind m k) b.
Proof.
  intros Hm Hk -> ops. unfold sheet_bind. specialize (Hm ops).
  destruct (m ops) as [[a|e] ops1]; cbn in Hm; subst b1; [apply Hk|reflexivity].
Qed.

Lemma succeeds_bind_lift {A B} (o : outcome A) (k : A -> Sheet B) (b : bool) :
  match o with
  | Returned a => succeeds (k a) b
  | Raised _ => b = false
  end ->
  succeeds (sheet_bind (sheet_lift o) k) b.
Proof.
  destruct o as [a|e]; intros H ops; [apply H|subst b; reflexivity].
Qed.

Lemma succeeds_for_each {A} (xs : list A) (body : A -> Sheet unit) (ok : A -> bool) :
  (forall x, succeeds (body x) (ok x)) ->
  succeeds (for_each xs body) (forallb ok xs).
Proof.
  intros Hbody. induction xs as [|x xs IH]; [apply succeeds_ret|].
  cbn [for_each forallb].
  eapply succeeds_bind; [apply Hbody|intros _; exact IH|reflexivity].
Qed.

Lemma succeeds_for_rows {A} (xs : list A) (body : A -> nat -> Sheet nat) (ok : A -> bool) :
  (forall x row, succeeds (body x row) (ok x)) ->
  forall row, succeeds (for_rows xs row body) (forallb ok xs).
Proof.
  intros Hbody. induction xs as [|x xs IH]; intros row; [apply succeeds_ret|].
  cbn [for_rows forallb].
  eapply succeeds_bind; [apply Hbody|intros row'; apply IH|reflexivity].
Qed.

Lemma succeeds_write_cell (row col : nat) (value : pyvalue) (cell_format : option Format) :
  succeeds (write_cell row col value cell_format) (writable value).
Proof.
  intros ops. unfold write_cell, writable. destruct (write_error value); reflexivity.
Qed.

Lemma succeeds_write_as (row col : nat) (value : pyvalue) (key : string) :
  succeeds (write_as format_properties row col value key)
    (is_returned (format_item format_properties key) && writable value).
Proof.
  unfold write_as. apply succeeds_bind_lift.
  destruct (format_item format_properties key); [|reflexivity].
  cbn [is_returned andb]. apply succeeds_write_cell.
Qed.

Lemma succeeds_write_datetime (row col : nat) (now key : string) :
  succeeds (write_datetime format_properties row col now key)
    (is_returned (format_item format_properties key)).
Proof.
  intros ops. unfold write_datetime, sheet_bind, sheet_lift.
  destruct (format_item format_properties key); reflexivity.
Qed.

Lemma succeeds_write_field (row col : nat) (metric : pyvalue) (key default : string) :
  succeeds (write_field format_properties row col metric key default)
    match metric with
    | PDict entries => writable (field entries key default)
    | _ => false
    end.
Proof.
  unfold write_field. apply succeeds_bind_lift.
  destruct metric; try reflexivity. cbn [py_get]. apply succeeds_write_as.
Qed.

Lemma succeeds_add_validation (row col : nat) (data_type : pyvalue) :
  succeeds (_add_validation row col data_type) true.
Proof.
  intros ops.
  destruct (add_validation_spec row col data_type ops) as (added & -> & _).
  reflexivity.
Qed.

Lemma succeeds_input_cell (row col : nat) (data_type : pyvalue) :
  succeeds (input_cell format_properties row col data_type) (hashable data_type).
Proof.
  unfold input_cell. apply succeeds_bind_lift.
  destruct data_type; cbn [_get_input_format hashable]; try reflexivity;
    (eapply succeeds_bind;
     [apply succeeds_write_cell|intros _; apply succeeds_add_validation|reflexivity]).
Qed.

(** The loop shared by the three metric sheets. *)
Lemma succeeds_metric_rows (metrics_data : pyvalue) (row : nat)
    (category_row subcategory_row : string -> nat -> Sheet unit)
    (metric_row : pyvalue -> nat -> Sheet unit) (ok : pyvalue -> bool) :
  (forall c r, succeeds (category_row c r) true) ->
  (forall s r, succeeds (subcategory_row s r) true) ->
  (forall m r, succeeds (metric_row m r) (ok m)) ->
  succeeds (metric_rows metrics_data row category_row subcategory_row metric_row)
    (is_dict_of (is_dict_of (iterable_of ok)) metrics_data).
Proof.
  intros Hc Hs Hm. unfold metric_rows. apply succeeds_bind_lift.
  destruct metrics_data; try reflexivity. cbn [py_items is_dict_of].
  apply succeeds_for_rows. intros [c subs] r. cbn [fst snd].
  eapply succeeds_bind; [apply Hc| |reflexivity]. intros _.
  apply succeeds_bind_lift.
  destruct subs; try reflexivity. cbn [py_items is_dict_of].
  apply succeeds_for_rows. intros [s metrics] r'. cbn [fst snd].
  eapply succeeds_bind; [apply Hs| |reflexivity]. intros _.
  apply succeeds_bind_lift. unfold iterable_of.
  destruct (py_iter metrics) as [items|e]; [|reflexivity].
  apply succeeds_for_rows. intros m r''.
  eapply succeeds_bind; [apply Hm|intros _; apply succeeds_ret|].
  rewrite andb_true_r. reflexivity.
Qed.

End Succeeds.

Lemma forallb_const_true {A} (xs : list A) : forallb (fun _ => true) xs = true.
Proof. induction xs; [reflexivity|assumption]. Qed.

Lemma forallb_const {A} (b : bool) (xs : list A) :
  forallb (fun _ => b) xs = Nat.eqb (length xs) 0 || b.
Proof.
  destruct xs as [|x xs]; [reflexivity|]. destruct b; [apply forallb_const_true|reflexivity].
Qed.

(** One step of a sheet that cannot fail, and the rest of it. *)
(** One step of a sheet that cannot fail, and the rest of it. *)
Ltac sure_step :=
  cbv beta zeta;
  lazymatch goal with
  | |- succeeds (sheet_ret _) _ => apply succeeds_ret
  | |- succeeds (call _) _ => apply succeeds_call
  | |- succeeds (write_count _ _ _) _ => apply succeeds_call
  | |- succeeds (write_as format_properties _ _ _ _) _ => apply succeeds_write_as
  | |- succeeds (write_datetime format_properties _ _ _ _) _ => apply succeeds_write_datetime
  | |- succeeds (sheet_bind (sheet_lift (format_item format_properties ?k)) _) _ =>
      let v := eval vm_compute in (format_item format_properties k) in
      change (format_item format_properties k) with v;
      apply succeeds_bind_lift; cbv beta iota
  | |- succeeds (sheet_bind (sheet_lift (Returned _)) _) _ =>
      apply succeeds_bind_lift; cbv beta iota
  | |- succeeds (sheet_bind _ _) _ =>
      eapply succeeds_bind; [sure_step|intros ?|reflexivity]
  end.

Section SheetsSucceed.

Context {X : XlsxWriter}.

Lemma succeeds_overview_sheet (now : string) (investor : string)
    (properties : list Property) :
  succeeds (overview_sheet format_properties now investor properties) true.
Proof.
  unfold overview_sheet. do 2 sure_step. sure_step. do 6 sure_step.
  sure_step. sure_step.
  eapply succeeds_bind;
    [apply succeeds_for_rows with (ok := fun _ => true); intros x r; do 2 sure_step| |
     rewrite forallb_const_true; reflexivity].
  intros ?. sure_step. do 4 sure_step.
  eapply succeeds_bind;
    [apply succeeds_for_rows with (ok := fun _ => true); intros x r; do 4 sure_step| |
     rewrite forallb_const_true; reflexivity].
  intros ?. sure_step.
Qed.

Lemma succeeds_for_each_sure {A} (xs : list A) (body : A -> Sheet unit) :
  (forall x, succeeds (body x) true) -> succeeds (for_each xs body) true.
Proof.
  intros Hbody ops.
  rewrite (succeeds_for_each xs body (fun _ => true) Hbody ops).
  apply forallb_const_true.
Qed.

Lemma succeeds_headers (row : nat) (headers : list string) :
  succeeds
    (for_each (enumerate headers)
       (fun header => write_as format_properties row (fst header) (PStr (snd header)) "header"))
    true.
Proof.
  apply succeeds_for_each_sure. intros x. sure_step.
Qed.

Lemma succeeds_metrics_summary_sheet (metrics_data : pyvalue) :
  succeeds (metrics_summary_sheet format_properties metrics_data)
    (taxonomy_of summary_ok metrics_data).
Proof.
  unfold metrics_summary_sheet. do 6 sure_step.
  eapply succeeds_bind; [apply succeeds_headers|intros ?|reflexivity].
  sure_step.
  eapply succeeds_bind;
    [apply succeeds_metric_rows with (ok := summary_ok)|intros ?; apply succeeds_ret|
      rewrite andb_true_r; reflexivity].
  - intros c r. sure_step.
  - intros s r. sure_step.
  - intros m r. destruct m; try (intros ops; reflexivity).
    eapply succeeds_bind; [apply succeeds_write_field|intros ?|].
    eapply succeeds_bind; [apply succeeds_write_field|intros ?|].
    eapply succeeds_bind; [apply succeeds_write_field|intros ?; apply succeeds_write_field|].
    all: cbv beta; try reflexivity.
    cbn [summary_ok]. rewrite <- !andb_assoc. reflexivity.
Qed.

Lemma succeeds_validation_sheet : succeeds (validation_sheet format_properties) true.
Proof.
  unfold validation_sheet. do 3 sure_step. sure_step. sure_step.
  eapply succeeds_bind;
    [apply succeeds_for_rows with (ok := fun _ => true)| |
      rewrite forallb_const_true; reflexivity].
  - intros rule row. cbv beta.
    eapply succeeds_bind;
      [destruct (Nat.eqb row 2);
       [apply succeeds_headers|apply succeeds_for_each_sure; intros x; sure_step]|
        intros ?; apply succeeds_ret|reflexivity].
  - intros ?. sure_step. sure_step.
    eapply succeeds_bind;
      [apply succeeds_for_rows with (ok := fun _ => true); intros x r; do 2 sure_step|
        intros ?; apply succeeds_ret|rewrite forallb_const_true; reflexivity].
Qed.

Lemma forallb_enumerate {A} (ok : A -> bool) (xs : list A) :
  forallb (fun ix => ok (snd ix)) (enumerate xs) = forallb ok xs.
Proof.
  unfold enumerate.
  assert (H : forall (f : nat -> nat) l,
             forallb (fun ix : nat * A => ok (snd ix)) (imap (fun i x => (f i, x)) l)
             = forallb ok l).
  { intros f l. revert f. induction l as [|x l IH]; intros f; [reflexivity|].
    cbn. f_equal. apply (IH (fun i => f (S i))). }
  apply (H (fun i => i)).
Qed.

Lemma succeeds_data_entry_row (properties : list Property) (metric : pyvalue) (row : nat) :
  succeeds
    (sheet_bind (write_field format_properties row 2 metric "name" "") (fun _ =>
     sheet_bind (write_field format_properties row 3 metric "description" "") (fun _ =>
     sheet_bind (write_field format_properties row 4 metric "unit" "") (fun _ =>
     sheet_bind (sheet_lift (py_get metric "data_type" (PStr "text"))) (fun data_type =>
     for_each (seq 0 (length properties))
       (fun i => input_cell format_properties row (5 + i) data_type))))))
    (entry_ok (length properties) metric).
Proof.
  destruct metric; try (intros ops; reflexivity).
  cbn [entry_ok]. rewrite <- !andb_assoc.
  eapply succeeds_bind; [apply succeeds_write_field|intros ?|reflexivity].
  eapply succeeds_bind; [apply succeeds_write_field|intros ?|reflexivity].
  eapply succeeds_bind; [apply succeeds_write_field|intros ?|reflexivity].
  apply succeeds_bind_lift. cbn [py_get].
  intros ops.
  rewrite (succeeds_for_each _ _ (fun _ => hashable (field entries "data_type" "text")));
    [rewrite forallb_const, length_seq; reflexivity|].
  intros i. apply succeeds_input_cell.
Qed.

Lemma succeeds_data_entry_sheet (metrics_data : pyvalue) (properties : list Property) :
  succeeds (data_entry_sheet format_properties metrics_data properties)
    (forallb has_name properties
     && taxonomy_of (entry_ok (length properties)) metrics_data).
Proof.
  unfold data_entry_sheet. do 3 sure_step. cbv zeta.
  eapply succeeds_bind;
    [apply succeeds_for_each with (ok := fun _ => true); intros i; apply succeeds_call|
      intros ?|rewrite forallb_const_true; reflexivity].
  do 5 sure_step.
  eapply succeeds_bind;
    [apply succeeds_for_each with (ok := fun ix => has_name (snd ix))|intros ?|
      rewrite forallb_enumerate; reflexivity].
  - intros [i p]. cbn [fst snd]. apply succeeds_bind_lift.
    unfold prop_item, has_name. destruct (str_lookup "name" p) as [name|].
    + rewrite bool_decide_eq_true_2 by eauto. sure_step.
    + apply bool_decide_eq_false_2. intros [name Hname]. discriminate.
  - sure_step.
    eapply succeeds_bind;
      [apply succeeds_metric_rows with (ok := entry_ok (length properties))|
        intros ?; apply succeeds_ret|rewrite andb_true_r; reflexivity].
    + intros c r. sure_step. sure_step.
    + intros s r. sure_step. sure_step.
    + intros m r. apply succeeds_data_entry_row.
Qed.

Lemma succeeds_property_sheet (metrics_data : pyvalue) (p : Property) :
  succeeds (property_sheet format_properties metrics_data p)
    (has_name p && taxonomy_of sheet_ok metrics_data).
Proof.
  unfold property_sheet. do 6 sure_step.
  apply succeeds_bind_lift. unfold prop_item, has_name.
  destruct (str_lookup "name" p) as [name|];
    [|rewrite bool_decide_eq_false_2; [reflexivity|intros [name Hname]; discriminate]].
  rewrite bool_decide_eq_true_2 by eauto. cbn [andb].
  sure_step. do 2 sure_step. do 4 sure_step.
  eapply succeeds_bind; [apply succeeds_headers|intros ?|reflexivity].
  cbv zeta.
  eapply succeeds_bind;
    [apply succeeds_metric_rows with (ok := sheet_ok)|
      intros ?; apply succeeds_ret|rewrite andb_true_r; reflexivity].
  - intros c r. sure_step.
  - intros s r. sure_step.
  - intros m r. destruct m; try (intros ops; reflexivity).
    cbn [sheet_ok]. rewrite <- !andb_assoc.
    eapply succeeds_bind; [apply succeeds_write_field|intros ?|reflexivity].
    eapply succeeds_bind; [apply succeeds_write_field|intros ?|reflexivity].
    apply succeeds_bind_lift. cbn [py_get].
    eapply succeeds_bind; [apply succeeds_input_cell|intros ?; sure_step|].
    rewrite andb_true_r. reflexivity.
Qed.

End SheetsSucceed.

(** ** When the form is written *)

Section FormFacts.

Context {X : XlsxWriter}.

Lemma existsb_eqb_In (x : string) (l : list string) :
  existsb (String.eqb x) l = true <-> In x l.
Proof.
  rewrite existsb_exists. split.
  - intros (y & Hy & Heq). apply String.eqb_eq in Heq. subst y. exact Hy.
  - intros Hin. exists x. split; [exact Hin|apply String.eqb_refl].
Qed.

Lemma distinct_NoDup (l : list string) : distinct l = true <-> NoDup l.
Proof.
  induction l as [|x l IH]; cbn [distinct].
  - split; [intros _; constructor|reflexivity].
  - rewrite andb_true_iff, negb_true_iff, IH, NoDup_cons, list_elem_of_In,
      <- existsb_eqb_In.
    destruct (existsb (String.eqb x) l); intuition congruence.
Qed.

Lemma sheetnames_ok_spec (names : list string) :
  sheetnames_ok names = true <->
  Forall (fun name => valid_sheetname name = true) names /\ NoDup (map py_lower names).
Proof.
  unfold sheetnames_ok. rewrite andb_true_iff, distinct_NoDup, forallb_forall, List.Forall_forall.
  reflexivity.
Qed.

Lemma sheetnames_ok_prefix (names rest : list string) :
  sheetnames_ok (names ++ rest) = true -> sheetnames_ok names = true.
Proof.
  rewrite !sheetnames_ok_spec, map_app. intros [Hall Hnd]. split.
  - apply Forall_app in Hall as [Hall _]. exact Hall.
  - apply NoDup_app in Hnd as (Hnd & _ & _). exact Hnd.
Qed.

(** The names stay in order when one more is accepted. *)
Lemma sheetnames_ok_snoc (names : list string) (name : string) :
  sheetnames_ok (names ++ [name])
  = sheetnames_ok names
    && (valid_sheetname name
        && negb (existsb (fun other => String.eqb (py_lower name) (py_lower other)) names)).
Proof.
  assert (Hex : existsb (fun other => String.eqb (py_lower name) (py_lower other)) names = true
                <-> In (py_lower name) (map py_lower names)).
  { rewrite existsb_exists, in_map_iff. split.
    - intros (other & Hin & Heq). apply String.eqb_eq in Heq. eauto.
    - intros (other & Heq & Hin). exists other. split; [exact Hin|].
      apply String.eqb_eq. symmetry. exact Heq. }
  apply eq_true_iff_eq.
  rewrite !andb_true_iff, negb_true_iff, !sheetnames_ok_spec, map_app, Forall_app, NoDup_app.
  cbn [map]. split.
  - intros ((Hall & Hname) & Hnd & Hsep & _). apply Forall_inv in Hname.
    repeat split; try assumption.
    destruct (existsb _ names) eqn:Hsame; [|reflexivity].
    exfalso. apply (Hsep (py_lower name)).
    + apply list_elem_of_In, Hex. reflexivity.
    + apply list_elem_of_singleton. reflexivity.
  - intros ((Hall & Hnd) & Hname & Hsame).
    split; [split; [exact Hall|constructor; [exact Hname|constructor]]|].
    split; [exact Hnd|]. split; [|apply NoDup_singleton].
    intros lowered Hin Hone. apply list_elem_of_singleton in Hone. subst lowered.
    apply list_elem_of_In, Hex in Hin. congruence.
Qed.

(** The name taken for a worksheet: the name given, or the default. *)
Lemma check_sheetname_is_returned (names : list string) (given : string) :
  let name := if String.eqb given "" then ("Sheet" ++ str_of_nat (S (length names)))%string
              else given in
  is_returned (check_sheetname names given)
  = valid_sheetname name
    && negb (existsb (fun other => String.eqb (py_lower name) (py_lower other)) names).
Proof.
  cbv zeta. unfold check_sheetname, valid_sheetname.
  set (name := if String.eqb given "" then _ else given).
  rewrite Nat.ltb_antisym.
  destruct (py_strlen name <=? 31)%nat; [|reflexivity].
  destruct (existsb _ (list_ascii_of_string name)); [reflexivity|].
  destruct (String.prefix "'" name || endswith name "'"); [reflexivity|].
  cbn [negb andb]. destruct (existsb _ names); reflexivity.
Qed.

(** A worksheet with a name of its own: either the name is not accepted,
    or the worksheet is added and the code that writes to it decides. *)
Lemma sheet_step {A} (name : string) (body : Sheet A) (b : bool) (wb wb' : Workbook)
    (r : outcome A) :
  succeeds body b -> String.eqb name "" = false ->
  sheetnames_ok (map fst (worksheets wb)) = true ->
  on_new_worksheet name body wb = (r, wb') ->
  (sheetnames_ok (map fst (worksheets wb) ++ [name]) = false
   /\ is_returned r = false /\ wb' = wb)
  \/ (sheetnames_ok (map fst (worksheets wb) ++ [name]) = true
      /\ extends wb wb' [name] /\ is_returned r = b).
Proof.
  intros Hbody Hname Hok Hrun.
  pose proof (check_sheetname_is_returned (map fst (worksheets wb)) name) as Hcheck.
  cbv zeta in Hcheck. rewrite Hname in Hcheck.
  rewrite sheetnames_ok_snoc, Hok, <- Hcheck. cbn [andb].
  apply on_new_worksheet_spec in Hrun
    as [(e & Hraised & -> & ->)|(sheetname & Hreturned & Hext & ->)].
  - left. rewrite Hraised. repeat split.
  - right. rewrite Hreturned. split; [reflexivity|].
    apply check_sheetname_returned in Hreturned as (Hsheet & _).
    rewrite Hname in Hsheet. subst sheetname.
    split; [exact Hext|apply Hbody].
Qed.

(** The worksheets of the properties are written exactly when every
    property has a name, the names of the worksheets are accepted and the
    metric records can be written. *)
Lemma property_sheets_return (metrics_data : pyvalue) (properties : list Property) :
  forall (wb wb' : Workbook) (r : outcome unit),
    sheetnames_ok (map fst (worksheets wb)) = true ->
    for_xl properties (_create_property_sheet format_properties metrics_data) wb = (r, wb') ->
    is_returned r
    = forallb has_name properties
      && sheets_ok properties metrics_data
      && sheetnames_ok
           (map fst (worksheets wb)
            ++ imap (fun i p => property_sheet_name (length (worksheets wb) + i) p)
                 properties).
Proof.
  induction properties as [|p properties IH]; intros wb wb' r Hok Hrun.
  - cbn in Hrun. injection Hrun as <- <-. cbn. rewrite app_nil_r, Hok. reflexivity.
  - cbn [for_xl] in Hrun. unfold xl_bind in Hrun.
    destruct (_create_property_sheet format_properties metrics_data p wb)
      as [r1 wb1] eqn:Hp.
    unfold _create_property_sheet, prop_item in Hp.
    cbn [forallb sheets_ok]. unfold has_name at 1.
    destruct (str_lookup "name" p) as [given|] eqn:Hgiven.
    2: { injection Hp as <- <-. injection Hrun as <- <-.
         rewrite bool_decide_eq_false_2; [reflexivity|intros [name Hsome]; discriminate]. }
    rewrite bool_decide_eq_true_2 by eauto. cbn [andb].
    pose proof (check_sheetname_is_returned (map fst (worksheets wb)) (str_prefix 31 given))
      as Hcheck. cbv zeta in Hcheck. rewrite length_map in Hcheck.
    assert (Hname : property_sheet_name (length (worksheets wb) + 0) p
                    = if String.eqb (str_prefix 31 given) ""
                      then ("Sheet" ++ str_of_nat (S (length (worksheets wb))))%string
                      else str_prefix 31 given).
    { unfold property_sheet_name, prop_get. rewrite Hgiven, Nat.add_0_r. reflexivity. }
    rewrite <- Hname in Hcheck.
    set (name := property_sheet_name (length (worksheets wb) + 0) p) in *.
    assert (Hsnoc := sheetnames_ok_snoc (map fst (worksheets wb)) name).
    rewrite Hok, <- Hcheck in Hsnoc. cbn [andb] in Hsnoc.
    assert (Hcons : map fst (worksheets wb)
                    ++ imap (fun i q => property_sheet_name (length (worksheets wb) + i) q)
                         (p :: properties)
                    = (map fst (worksheets wb) ++ [name])
                      ++ imap (fun i q => property_sheet_name (S (length (worksheets wb)) + i) q)
                           properties).
    { rewrite <- app_assoc. cbn [imap app]. do 2 f_equal.
      apply imap_ext. intros i q _. cbn. f_equal. lia. }
    rewrite Hcons.
    apply on_new_worksheet_spec in Hp
      as [(e & Hraised & -> & ->)|(sheetname & Hreturned & Hext & Hr1)].
    + injection Hrun as <- <-. rewrite Hraised in Hsnoc. cbn in Hsnoc.
      destruct (sheetnames_ok ((map fst (worksheets wb) ++ [name]) ++ _)) eqn:Hall.
      * apply sheetnames_ok_prefix in Hall. congruence.
      * rewrite !andb_false_r. reflexivity.
    + rewrite Hreturned in Hsnoc. cbn in Hsnoc.
      apply check_sheetname_returned in Hreturned as (Hsheet & _).
      rewrite length_map, <- Hname in Hsheet. subst sheetname.
      pose proof (succeeds_property_sheet metrics_data p []) as Hbody.
      rewrite <- Hr1 in Hbody. unfold has_name in Hbody. rewrite Hgiven in Hbody.
      rewrite bool_decide_eq_true_2 in Hbody by eauto. cbn [andb] in Hbody.
      destruct Hext as (Hf & Ha & Hc & Hw).
      assert (Hlen : length (worksheets wb1) = S (length (worksheets wb))).
      { apply (f_equal (@length string)) in Hw.
        rewrite length_app, !length_map in Hw. cbn in Hw. lia. }
      destruct r1 as [[]|e].
      * cbn in Hbody. rewrite <- Hbody, andb_true_r.
        rewrite (IH wb1 wb' r); [|rewrite Hw; exact Hsnoc|exact Hrun].
        rewrite Hw, Hlen.
        destruct properties; cbn [sheets_ok]; rewrite <- ?Hbody, ?andb_true_r; reflexivity.
      * injection Hrun as <- <-. cbn in Hbody. rewrite <- Hbody.
        rewrite andb_false_r. reflexivity.
Qed.

(** What [create_comprehensive_form] leaves and when it returns. *)
Lemma form_spec (now : string) (metrics_data : pyvalue) (properties : list Property)
    (investor output_path : string) (r : outcome unit) (wb : Workbook) :
  create_comprehensive_form now metrics_data properties investor output_path = (r, wb) ->
  filename wb = output_path
  /\ added_formats wb = map snd format_properties
  /\ closed wb = is_returned r
  /\ (exists rest,
        sheet_names properties = map fst (worksheets wb) ++ rest
        /\ (is_returned r = true -> rest = []))
  /\ is_returned r
     = forallb has_name properties
       && sheetnames_ok (sheet_names properties)
       && taxonomy_of summary_ok metrics_data
       && taxonomy_of (entry_ok (length properties)) metrics_data
       && sheets_ok properties metrics_data
       && creatable output_path.
Proof.
  unfold create_comprehensive_form, fill_workbook, _create_formats, xl_bind.
  rewrite add_formats_spec.
  set (wb0 := mkWorkbook _ _ _ _).
  assert (Hok0 : sheetnames_ok (map fst (worksheets wb0)) = true) by reflexivity.
  (* Overview *)
  destruct (_create_overview_sheet _ _ _ _ wb0) as [r1 wb1] eqn:H1.
  apply (sheet_step _ _ true) in H1
    as [(Hbad & _)|(Hok1 & (Hf1 & Ha1 & Hc1 & Hw1) & Hr1)];
    [vm_compute in Hbad; discriminate| |apply succeeds_overview_sheet|reflexivity|exact Hok0].
  destruct r1 as [[]|e1]; [clear Hr1|discriminate Hr1].
  rewrite <- Hw1 in Hok1. cbn in Hw1.
  (* Metrics Summary *)
  destruct (_create_metrics_summary_sheet _ _ wb1) as [r2 wb2] eqn:H2.
  apply (sheet_step _ _ (taxonomy_of summary_ok metrics_data)) in H2
    as [(Hbad & _)|(Hok2 & (Hf2 & Ha2 & Hc2 & Hw2) & Hr2)];
    [rewrite Hw1 in Hbad; vm_compute in Hbad; discriminate| |
     apply succeeds_metrics_summary_sheet|reflexivity|exact Hok1].
  rewrite <- Hw2 in Hok2. rewrite Hw1 in Hw2. cbn in Hw2.
  destruct r2 as [[]|e2]; cbn [is_returned] in Hr2.
  2: { intros [= <- <-]. rewrite Hf2, Hf1, Ha2, Ha1, Hc2, Hc1, Hw2.
       repeat split; [eexists; split; [reflexivity|discriminate]|].
       rewrite <- Hr2, ?andb_false_r. reflexivity. }
  (* Data Entry *)
  destruct (_create_data_entry_sheet _ _ _ wb2) as [r3 wb3] eqn:H3.
  apply (sheet_step _ _ (forallb has_name properties
                         && taxonomy_of (entry_ok (length properties)) metrics_data)) in H3
    as [(Hbad & _)|(Hok3 & (Hf3 & Ha3 & Hc3 & Hw3) & Hr3)];
    [rewrite Hw2 in Hbad; vm_compute in Hbad; discriminate| |
     apply succeeds_data_entry_sheet|reflexivity|exact Hok2].
  rewrite <- Hw3 in Hok3. rewrite Hw2 in Hw3. cbn in Hw3.
  destruct r3 as [[]|e3]; cbn [is_returned] in Hr3.
  2: { intros [= <- <-]. rewrite Hf3, Hf2, Hf1, Ha3, Ha2, Ha1, Hc3, Hc2, Hc1, Hw3.
       repeat split; [eexists; split; [reflexivity|discriminate]|].
       symmetry. apply not_true_iff_false. intros Hall.
       rewrite !andb_true_iff in Hall. destruct Hall as (((((Hn & _) & _) & He) & _) & _).
       rewrite Hn, He in Hr3. discriminate. }
  symmetry in Hr3. apply andb_true_iff in Hr3 as [Hnamed Hentries].
  assert (Hlen3 : length (worksheets wb3) = 3).
  { apply (f_equal (@length string)) in Hw3. rewrite length_map in Hw3. exact Hw3. }
  (* the properties *)
  destruct (for_xl _ _ wb3) as [r4 wb4] eqn:H4.
  pose proof (property_sheets_return metrics_data properties wb3 wb4 r4 Hok3 H4) as Hr4.
  apply property_sheets_extend
    in H4 as (names & rest & (Hf4 & Ha4 & Hc4 & Hw4) & Hsplit & Hdone).
  rewrite Hlen3 in Hr4, Hsplit. rewrite Hw3 in Hr4, Hw4.
  destruct r4 as [[]|e4]; cbn [is_returned] in Hr4.
  2: { intros [= <- <-].
       rewrite Hf4, Hf3, Hf2, Hf1, Ha4, Ha3, Ha2, Ha1, Hc4, Hc3, Hc2, Hc1, Hw4.
       repeat split.
       - exists (rest ++ ["Validation Rules"]). split; [|discriminate].
         unfold sheet_names. rewrite Hsplit, <- !app_assoc. reflexivity.
       - symmetry. apply not_true_iff_false. intros Hall.
         rewrite !andb_true_iff in Hall. destruct Hall as (((((Hn & Hs) & _) & _) & Hp) & _).
         unfold sheet_names in Hs. rewrite app_assoc in Hs.
         apply sheetnames_ok_prefix in Hs.
         rewrite Hn, Hp, Hs in Hr4. discriminate. }
  destruct (Hdone eq_refl) as [-> _]. rewrite app_nil_r in Hsplit.
  symmetry in Hr4. rewrite !andb_true_iff in Hr4. destruct Hr4 as ((_ & Hsheets) & Hok4).
  rewrite Hsplit in Hok4. rewrite <- Hw4 in Hok4.
  (* Validation Rules *)
  destruct (_create_validation_sheet _ wb4) as [r5 wb5] eqn:H5.
  assert (Hnames : sheet_names properties = map fst (worksheets wb4) ++ ["Validation Rules"]).
  { unfold sheet_names. rewrite Hw4, Hsplit, <- !app_assoc. reflexivity. }
  apply (sheet_step _ _ true) in H5
    as [(Hbad & Hr5 & ->)|(Hok5 & (Hf5 & Ha5 & Hc5 & Hw5) & Hr5)];
    [| |apply succeeds_validation_sheet|reflexivity|exact Hok4].
  { destruct r5 as [[]|e5]; [discriminate Hr5|]. intros [= <- <-].
    rewrite Hf4, Hf3, Hf2, Hf1, Ha4, Ha3, Ha2, Ha1, Hc4, Hc3, Hc2, Hc1.
    repeat split.
    - exists ["Validation Rules"]. split; [exact Hnames|discriminate].
    - rewrite Hnames, Hbad, ?andb_false_r. reflexivity. }
  destruct r5 as [[]|e5]; [clear Hr5|discriminate Hr5].
  rewrite <- Hnames in Hok5, Hw5.
  (* close *)
  assert (Hf : filename wb5 = output_path) by (rewrite Hf5, Hf4, Hf3, Hf2, Hf1; reflexivity).
  assert (Ha : added_formats wb5 = map snd format_properties)
    by (rewrite Ha5, Ha4, Ha3, Ha2, Ha1; reflexivity).
  rewrite Hnamed, Hok5, <- Hr2, Hentries, Hsheets. cbn [andb].
  unfold close, creatable. rewrite Hf.
  destruct (create_file output_path) as [e|]; intros [= <- <-]; cbn.
  - rewrite Hc5, Hc4, Hc3, Hc2, Hc1. repeat split; try assumption.
    exists []. rewrite app_nil_r. split; [symmetry; exact Hw5|discriminate].
  - repeat split; try assumption.
    exists []. rewrite app_nil_r. split; [symmetry; exact Hw5|reflexivity].
Qed.

End FormFacts.

Lemma is_dict_of_mono (ok1 ok2 : pyvalue -> bool) (v : pyvalue) :
  (forall x, ok1 x = true -> ok2 x = true) ->
  is_dict_of ok1 v = true -> is_dict_of ok2 v = true.
Proof.
  intros Hmono. destruct v; try discriminate. cbn.
  rewrite !forallb_forall. intros Hall x Hx. apply Hmono, Hall, Hx.
Qed.

Lemma iterable_of_mono (ok1 ok2 : pyvalue -> bool) (v : pyvalue) :
  (forall x, ok1 x = true -> ok2 x = true) ->
  iterable_of ok1 v = true -> iterable_of ok2 v = true.
Proof.
  intros Hmono. unfold iterable_of. destruct (py_iter v) as [items|e]; [|discriminate].
  rewrite !forallb_forall. intros Hall x Hx. apply Hmono, Hall, Hx.
Qed.

Section FormTheorems.

Context {X : XlsxWriter}.

(** X8. When [create_comprehensive_form] returns, the file of the workbook
    could be created and the workbook is closed on the output path, with the
    eleven formats added and with the worksheets Overview, Metrics Summary,
    Data Entry, one per property in the order of the list, and Validation
    Rules.  The worksheet of a property is named by the first 31 characters
    of the property's name, or [Sheet] and its number when the name is
    empty; every property had a name, every name of a worksheet is one that
    Excel takes, and no two of them are the same with case set aside. *)
Theorem returned_form_has_a_sheet_per_property
    (now : string) (metrics_data : pyvalue) (properties : list Property)
    (investor output_path : string) (wb : Workbook) :
  create_comprehensive_form now metrics_data properties investor output_path
    = (Returned tt, wb) ->
  filename wb = output_path
  /\ closed wb = true
  /\ create_file output_path = None
  /\ added_formats wb = map snd format_properties
  /\ map fst (worksheets wb) = sheet_names properties
  /\ Forall (fun name => valid_sheetname name = true) (sheet_names properties)
  /\ NoDup (map py_lower (sheet_names properties))
  /\ forallb has_name properties = true.
Proof.
  intros Hrun. apply form_spec in Hrun as (Hf & Ha & Hc & (rest & Hnames & Hrest) & Hr).
  cbn [is_returned] in Hc, Hr, Hrest. rewrite (Hrest eq_refl), app_nil_r in Hnames.
  symmetry in Hr. rewrite !andb_true_iff in Hr.
  destruct Hr as (((((Hnamed & Hok) & _) & _) & _) & Hfile).
  apply sheetnames_ok_spec in Hok as [Hvalid Hdistinct].
  unfold creatable in Hfile. destruct (create_file output_path); [discriminate|].
  repeat split; try assumption. symmetry. exact Hnames.
Qed.


(** X10. [create_comprehensive_form] returns, with the workbook closed,
    exactly when every property has a name, the names of the worksheets are
    names that Excel takes and differ with case set aside, the metrics are
    a dict of dicts of iterables of dicts whose fields can be written where
    a sheet writes them and whose data types can be looked up where a sheet
    has input cells, and the file can be created. *)
Theorem form_is_written_exactly_when
    (now : string) (metrics_data : pyvalue) (properties : list Property)
    (investor output_path : string) :
  is_returned (fst (create_comprehensive_form now metrics_data properties investor
                      output_path))
  = forallb has_name properties
    && sheetnames_ok (sheet_names properties)
    && taxonomy_of summary_ok metrics_data
    && taxonomy_of (entry_ok (length properties)) metrics_data
    && sheets_ok properties metrics_data
    && creatable output_path.
Proof.
  destruct (create_comprehensive_form now metrics_data properties investor output_path)
    as [r wb] eqn:Hrun.
  apply form_spec in Hrun as (_ & _ & _ & _ & Hr). exact Hr.
Qed.

End FormTheorems.

(** ** How the form fails *)

Section FormFails.

Context {X : XlsxWriter}.

Lemma sure_then {A B} (m : Sheet A) (k : A -> Sheet B) (ops : list cell_op) :
  succeeds m true -> exists a ops1, sheet_bind m k ops = k a ops1.
Proof.
  intros Hm. specialize (Hm ops). unfold sheet_bind.
  destruct (m ops) as [[a|e] ops1]; [|discriminate]. exists a, ops1. reflexivity.
Qed.

(** Get past a step that cannot fail. *)
End FormFails.

Ltac pass tac :=
  cbv beta zeta;
  lazymatch goal with
  | |- exists _, sheet_bind ?m ?k ?ops = _ =>
      let H := fresh in
      assert (H : succeeds m true) by tac;
      let Heq := fresh in
      destruct (sure_then m k ops H) as (? & ? & Heq); rewrite Heq; clear H Heq;
      cbv beta zeta
  end.

Section FormFailures.

Context {X : XlsxWriter}.

Lemma header_loop_raises (l : list (nat * Property)) :
  forallb (fun ix => has_name (snd ix)) l = false ->
  forall ops, exists ops',
    for_each l
      (fun prop =>
         sheet_bind (sheet_lift (prop_item (snd prop) "name"))
           (fun name => write_as format_properties 0 (5 + fst prop) (PStr name) "header"))
      ops
    = (Raised (KeyError "name"), ops').
Proof.
  induction l as [|[i p] l IH]; intros Hall ops; [discriminate|].
  cbn [forallb fst snd] in Hall. cbn [for_each fst snd].
  unfold has_name in Hall. unfold prop_item at 1.
  destruct (str_lookup "name" p) as [name|] eqn:Hname.
  - rewrite bool_decide_eq_true_2 in Hall by eauto. cbn [andb] in Hall.
    pass ltac:(sure_step; sure_step). apply IH. exact Hall.
  - exists ops. reflexivity.
Qed.

Lemma data_entry_sheet_raises (metrics_data : pyvalue) (properties : list Property) :
  forallb has_name properties = false ->
  forall ops, exists ops',
    data_entry_sheet format_properties metrics_data properties ops
    = (Raised (KeyError "name"), ops').
Proof.
  intros Hall ops. unfold data_entry_sheet.
  do 3 pass ltac:(sure_step).
  pass ltac:(apply succeeds_for_each_sure; intros i; apply succeeds_call).
  do 5 pass ltac:(sure_step).
  rewrite <- (forallb_enumerate has_name) in Hall.
  unfold sheet_bind at 1.
  match goal with
  | |- context [for_each _ _ ?o] =>
      destruct (header_loop_raises _ Hall o) as (ops' & Hloop)
  end.
  cbn [Nat.add] in Hloop |- *. rewrite Hloop. exists ops'. reflexivity.
Qed.

Lemma summary_ok_is_dict (metrics_data : pyvalue) :
  taxonomy_of summary_ok metrics_data = true -> taxonomy_shaped metrics_data = true.
Proof.
  apply is_dict_of_mono. intros subs. apply is_dict_of_mono. intros metrics.
  apply iterable_of_mono. intros m. destruct m; cbn; congruence.
Qed.

(** The form up to the Metrics Summary sheet: the Overview sheet is
    written, and the Metrics Summary worksheet is added. *)
Lemma form_up_to_the_summary (now : string) (metrics_data : pyvalue)
    (properties : list Property) (investor output_path : string) :
  exists wb2 : Workbook,
    map fst (worksheets wb2) = ["Overview"; "Metrics Summary"]
    /\ closed wb2 = false
    /\ create_comprehensive_form now metrics_data properties investor output_path
       = match fst (metrics_summary_sheet format_properties metrics_data []) with
         | Raised e => (Raised e, wb2)
         | Returned _ =>
             xl_bind (_create_data_entry_sheet format_properties metrics_data properties)
               (fun _ =>
                  xl_bind (for_xl properties
                             (_create_property_sheet format_properties metrics_data))
                    (fun _ => xl_bind (_create_validation_sheet format_properties)
                                (fun _ => close)))
               wb2
         end.
Proof.
  unfold create_comprehensive_form, fill_workbook, _create_formats.
  unfold xl_bind at 1. rewrite add_formats_spec.
  set (wb0 := mkWorkbook _ _ _ _).
  destruct (on_new_worksheet_accepted "Overview" "Overview"
              (overview_sheet format_properties now investor properties) wb0 eq_refl)
    as (wb1 & E1 & (Hf1 & Ha1 & Hc1 & Hw1)).
  pose proof (succeeds_overview_sheet now investor properties []) as H1.
  unfold xl_bind at 1. unfold _create_overview_sheet. rewrite E1.
  destruct (fst (overview_sheet format_properties now investor properties []))
    as [[]|e1]; [clear H1|discriminate H1].
  assert (Hcheck : check_sheetname (map fst (worksheets wb1)) "Metrics Summary"
                   = Returned "Metrics Summary") by (rewrite Hw1; reflexivity).
  destruct (on_new_worksheet_accepted "Metrics Summary" "Metrics Summary"
              (metrics_summary_sheet format_properties metrics_data) wb1 Hcheck)
    as (wb2 & E2 & (Hf2 & Ha2 & Hc2 & Hw2)).
  exists wb2. split; [rewrite Hw2, Hw1; reflexivity|].
  split; [rewrite Hc2, Hc1; reflexivity|].
  unfold xl_bind at 1. unfold _create_metrics_summary_sheet. rewrite E2.
  destruct (fst (metrics_summary_sheet format_properties metrics_data [])) as [[]|e2];
    reflexivity.
Qed.

(** X11. A property without a name is put up with by the Overview sheet,
    which writes an empty name, but not by the Data Entry sheet: with
    metrics that the Metrics Summary sheet can write, the form raises
    [KeyError('name')] after the Overview, Metrics Summary and Data Entry
    worksheets were added, and the workbook is not closed. *)
Theorem nameless_property_raises_KeyError
    (now : string) (metrics_data : pyvalue) (properties : list Property)
    (investor output_path : string) :
  taxonomy_of summary_ok metrics_data = true ->
  forallb has_name properties = false ->
  exists wb,
    create_comprehensive_form now metrics_data properties investor output_path
      = (Raised (KeyError "name"), wb)
    /\ map fst (worksheets wb) = ["Overview"; "Metrics Summary"; "Data Entry"]
    /\ closed wb = false.
Proof.
  intros Hsummary Hnames.
  destruct (form_up_to_the_summary now metrics_data properties investor output_path)
    as (wb2 & Hw2 & Hc2 & ->).
  pose proof (succeeds_metrics_summary_sheet metrics_data []) as H2.
  rewrite Hsummary in H2.
  destruct (fst (metrics_summary_sheet format_properties metrics_data [])) as [[]|e2];
    [clear H2|discriminate H2].
  assert (Hcheck : check_sheetname (map fst (worksheets wb2)) "Data Entry"
                   = Returned "Data Entry") by (rewrite Hw2; reflexivity).
  destruct (on_new_worksheet_accepted "Data Entry" "Data Entry"
              (data_entry_sheet format_properties metrics_data properties) wb2 Hcheck)
    as (wb3 & E3 & (Hf3 & Ha3 & Hc3 & Hw3)).
  unfold xl_bind at 1. unfold _create_data_entry_sheet. rewrite E3.
  destruct (data_entry_sheet_raises metrics_data properties Hnames []) as (ops' & ->).
  exists wb3. split; [reflexivity|].
  split; [rewrite Hw3, Hw2; reflexivity|].
  rewrite Hc3, Hc2. reflexivity.
Qed.

(** X12. Metrics that are not a dict of dicts of iterables of dicts make
    the form fail while the Metrics Summary sheet is written, after the
    Overview: the workbook then holds these two worksheets and is not
    closed. *)
Theorem misshaped_metrics_fail_in_the_summary
    (now : string) (metrics_data : pyvalue) (properties : list Property)
    (investor output_path : string) :
  taxonomy_shaped metrics_data = false ->
  exists e wb,
    create_comprehensive_form now metrics_data properties investor output_path
      = (Raised e, wb)
    /\ map fst (worksheets wb) = ["Overview"; "Metrics Summary"]
    /\ closed wb = false.
Proof.
  intros Hshape.
  destruct (form_up_to_the_summary now metrics_data properties investor output_path)
    as (wb2 & Hw2 & Hc2 & ->).
  pose proof (succeeds_metrics_summary_sheet metrics_data []) as H2.
  assert (Hsummary : taxonomy_of summary_ok metrics_data = false).
  { destruct (taxonomy_of summary_ok metrics_data) eqn:Hok; [|reflexivity].
    apply summary_ok_is_dict in Hok. congruence. }
  rewrite Hsummary in H2.
  destruct (fst (metrics_summary_sheet format_properties metrics_data [])) as [[]|e2];
    [discriminate H2|].
  exists e2, wb2. repeat split; assumption.
Qed.

End FormFailures.

(** ** [main] *)

Section MainFacts.

Context {vector : Type} {E : External vector} {X : XlsxWriter}.

Lemma print_all_spec (lines : list (list fpiece)) (w : World vector) :
  print_all lines w = (Returned tt, printed lines w).
Proof.
  revert w. induction lines as [|line lines IH]; intros w.
  - cbn. unfold ret, printed, with_console. rewrite app_nil_r. destruct w; reflexivity.
  - cbn [print_all]. unfold bind, print. rewrite IH. unfold printed, with_console. cbn.
    rewrite <- app_assoc. reflexivity.
Qed.

(** [main] up to the [try] block: the banner, the crew, the steps
    announced. *)
Lemma main_steps (now : string) (w : World vector) :
  main now w
    = match construct (main_crew w) (printed main_banner w) with
      | (Returned _, w0) =>
          reporting_errors
            (analyse_and_generate now (main_crew w) main_investor_name main_property_list)
            (printed main_steps_announced w0)
      | (Raised e, w0) => (Raised e, w0)
      end.
Proof.
  unfold main, bind. rewrite print_all_spec. fold main_banner.
  unfold ESGAnalysisCrew_init, bind, getenv_opt.
  change (environ (printed main_banner w)) with (environ w). fold (main_crew w).
  destruct (construct (main_crew w) (printed main_banner w)) as [[[]|e] w0]; [|reflexivity].
  cbn [ret]. rewrite print_all_spec. reflexivity.
Qed.

Lemma run_result_is_a_dict
    (self : ESGAnalysisCrew) (properties result : pyvalue) (w w' : World vector) :
  run self properties w = (Returned result, w') -> isinstance_dict result = true.
Proof.
  unfold run, bind.
  destruct (kickoff (crew self) (kickoff_inputs self properties) w) as [[v|e] w1];
    [|discriminate].
  destruct (isinstance_dict v) eqn:Hv; cbn; intros [= <- <-]; [exact Hv|reflexivity].
Qed.

End MainFacts.

(** X13. [main] raises in two ways only.  The constructor of the crew,
    which runs before the [try] block, raised: then that exception leaves
    [main] with nothing reported.  Or the [try] block raised, in the
    crew's run, the category count, the creation of the output directory
    or the form generator: then [main] raises that exception, and the
    console ends with the five lines of the error report, made with the
    text of the exception, when its class derives from [Exception], and
    as the [try] block left it when it does not. *)
Theorem main_reports_what_it_raises
    {vector : Type} {E : External vector} {X : XlsxWriter}
    (now : string) (w : World vector) (e : exn) :
  fst (main now w) = Raised e ->
  (exists w0,
      construct (main_crew w) (printed main_banner w) = (Raised e, w0)
      /\ snd (main now w) = w0)
  \/ (exists w0 w1,
        construct (main_crew w) (printed main_banner w) = (Returned tt, w0)
        /\ analyse_and_generate now (main_crew w) main_investor_name main_property_list
             (printed main_steps_announced w0) = (Raised e, w1)
        /\ console (snd (main now w))
           = console w1 ++ (if derives_from_Exception e then error_report e else [])).
Proof.
  rewrite main_steps.
  destruct (construct (main_crew w) (printed main_banner w)) as [[[]|e0] w0].
  - unfold reporting_errors.
    destruct (analyse_and_generate _ _ _ _ _) as [[wb|e1] w1] eqn:Hbody; [discriminate|].
    destruct (derives_from_Exception e1) eqn:Hclass.
    + rewrite print_all_spec. cbn. intros [= <-]. right. exists w0, w1.
      rewrite Hclass. split; [reflexivity|]. split; [exact Hbody|reflexivity].
    + cbn. intros [= <-]. right. exists w0, w1.
      rewrite Hclass, app_nil_r. split; [reflexivity|]. split; [exact Hbody|reflexivity].
  - cbn. intros [= <-]. left. exists w0. split; reflexivity.
Qed.

Lemma main_reports_a_transport_failure :
  exists before,
    console
      (snd (main (E := sample_external
                         (Raised (Exception "ConnectionError" "no route to host")))
              (X := sample_xlsx) sample_now empty_world))
    = before ++ error_report (Exception "ConnectionError" "no route to host").
Proof.
  destruct (main_reports_what_it_raises
              (E := sample_external (Raised (Exception "ConnectionError" "no route to host")))
              (X := sample_xlsx)
              sample_now empty_world (Exception "ConnectionError" "no route to host")
              eq_refl)
    as [(w0 & Hconstruct & _)|(w0 & w1 & _ & _ & Hconsole)].
  - discriminate Hconstruct.
  - exists (console w1). exact Hconsole.
Defined.

(** X14. The number of categories that the [try] block reports is the
    length of the value under the key [categories], not the number of
    categories of the taxonomy: for every result of [run] without that key,
    the fallback taxonomy among them, the line printed after
    "Analysis Complete" says 0 categories. *)
Theorem analysis_reports_no_categories
    {vector : Type} {E : External vector} {X : XlsxWriter}
    (now : string) (esg_crew : ESGAnalysisCrew) (investor : string)
    (properties : list Property) (result : pyvalue) (w w1 : World vector) :
  run esg_crew (PList (map property_value properties)) w = (Returned result, w1) ->
  dict_get "categories" result = None ->
  exists rest,
    console (snd (analyse_and_generate now esg_crew investor properties w))
    = console w1
      ++ [[Lit (newline ++ "3. Analysis Complete!")];
          [Lit "   - Found metrics across "; Fmt (PInt 0); Lit " categories"];
          [Lit (newline ++ "4. Generating Excel data capture form...")]]
      ++ rest.
Proof.
  intros Hrun Hkey. pose proof (run_result_is_a_dict _ _ _ _ _ Hrun) as Hdict.
  destruct result; try discriminate. cbn in Hkey.
  unfold analyse_and_generate, bind. rewrite Hrun.
  cbn [print py_get lift]. rewrite Hkey. cbn [from_option py_len length id].
  unfold os_makedirs, with_console.
  cbn [print environ directories files chroma embed_log console].
  destruct (makedirs "outputs" _) as [e|].
  - cbn. exists []. rewrite <- !app_assoc. reflexivity.
  - destruct (create_comprehensive_form _ _ _ _ _) as [[[]|e] wb].
    + rewrite print_all_spec. cbn. eexists.
      rewrite <- !app_assoc. cbn. reflexivity.
    + cbn. exists []. rewrite <- !app_assoc. reflexivity.
Qed.

Lemma fallback_is_reported_as_no_categories :
  exists rest,
    console
      (snd (analyse_and_generate (E := sample_external (Returned (PStr "no JSON")))
              (X := sample_xlsx)
              sample_now blackrock_crew main_investor_name main_property_list empty_world))
    = [not_a_dictionary_warning (PStr "no JSON")]
      ++ [[Lit (newline ++ "3. Analysis Complete!")];
          [Lit "   - Found metrics across "; Fmt (PInt 0); Lit " categories"];
          [Lit (newline ++ "4. Generating Excel data capture form...")]]
      ++ rest.
Proof.
  apply (analysis_reports_no_categories
           (E := sample_external (Returned (PStr "no JSON"))) (X := sample_xlsx)
           sample_now blackrock_crew main_investor_name main_property_list
           _create_basic_metrics_structure empty_world
           (mkWorld ∅ [] [] ∅ [] [not_a_dictionary_warning (PStr "no JSON")]));
    reflexivity.
Defined.

(** X15. End to end: when the crew is built, hands back something that is
    not a dict, the directory [outputs] is there or can be made and the
    file can be created, [main] does not raise; it writes and closes a
    workbook at [outputs/ESG_DataCapture_BlackRock_3_properties.xlsx] with
    the worksheets Overview, Metrics Summary, Data Entry, Property A,
    Property B, Property C and Validation Rules, built from the fallback
    taxonomy. *)
Theorem main_writes_the_fallback_form
    {vector : Type} {E : External vector} {X : XlsxWriter}
    (now : string) (v : pyvalue) (w w0 w1 : World vector) :
  construct (main_crew w) (printed main_banner w) = (Returned tt, w0) ->
  kickoff (crew (main_crew w))
    (kickoff_inputs (main_crew w) (PList (map property_value main_property_list)))
    (printed main_steps_announced w0) = (Returned v, w1) ->
  isinstance_dict v = false ->
  makedirs "outputs"
    (printed [[Lit (newline ++ "3. Analysis Complete!")];
              [Lit "   - Found metrics across "; Fmt (PInt 0); Lit " categories"];
              [Lit (newline ++ "4. Generating Excel data capture form...")]]
       (printed [not_a_dictionary_warning v] w1)) = None ->
  create_file "outputs/ESG_DataCapture_BlackRock_3_properties.xlsx" = None ->
  exists wb w',
    main now w = (Returned wb, w')
    /\ create_comprehensive_form now _create_basic_metrics_structure
         main_property_list main_investor_name
         "outputs/ESG_DataCapture_BlackRock_3_properties.xlsx" = (Returned tt, wb)
    /\ closed wb = true
    /\ filename wb = "outputs/ESG_DataCapture_BlackRock_3_properties.xlsx"
    /\ map fst (worksheets wb)
       = ["Overview"; "Metrics Summary"; "Data Entry"; "Property A"; "Property B";
          "Property C"; "Validation Rules"].
Proof.
  intros Hc Hk Hv Hdir Hfile. rewrite main_steps, Hc.
  unfold reporting_errors, analyse_and_generate, bind.
  rewrite (run_not_dict _ _ _ _ _ Hk Hv).
  cbn [print lift py_get _create_basic_metrics_structure assoc_get String.eqb Ascii.eqb
         Bool.eqb from_option py_len length id].
  change (output_path_for main_investor_name main_property_list)
    with "outputs/ESG_DataCapture_BlackRock_3_properties.xlsx".
  fold _create_basic_metrics_structure.
  unfold os_makedirs.
  match goal with
  | |- context [makedirs "outputs" ?world] =>
      replace world
        with (printed [[Lit (newline ++ "3. Analysis Complete!")];
                       [Lit "   - Found metrics across "; Fmt (PInt 0); Lit " categories"];
                       [Lit (newline ++ "4. Generating Excel data capture form...")]]
                (printed [not_a_dictionary_warning v] w1))
        by (unfold printed, with_console; cbn; rewrite <- !app_assoc; reflexivity)
  end.
  rewrite Hdir.
  destruct (create_comprehensive_form now _create_basic_metrics_structure
              main_property_list main_investor_name
              "outputs/ESG_DataCapture_BlackRock_3_properties.xlsx")
    as [r wb] eqn:Hform.
  pose proof (form_spec _ _ _ _ _ _ _ Hform) as (Hpath & _ & Hclosed & (rest & Hnames & Hrest) & Hr).
  unfold creatable in Hr. rewrite Hfile in Hr.
  destruct r as [[]|e]; [|vm_compute in Hr; discriminate Hr].
  rewrite (Hrest eq_refl), app_nil_r in Hnames.
  rewrite print_all_spec. cbn [fst snd].
  eexists wb, _. split; [reflexivity|]. split; [reflexivity|].
  split; [exact Hclosed|]. split; [exact Hpath|]. symmetry. exact Hnames.
Qed.

(** ** Sample runs of the form generator and of [main] *)

Lemma test_workflow_form_has_six_sheets :
  exists wb,
    create_comprehensive_form (X := sample_xlsx) sample_now sample_metrics sample_properties
      "Test Investor" "outputs/TEST_ESG_Form.xlsx" = (Returned tt, wb)
    /\ closed wb = true
    /\ map fst (worksheets wb)
       = ["Overview"; "Metrics Summary"; "Data Entry"; "Test Property A";
          "Test Property B"; "Validation Rules"].
Proof.
  destruct (create_comprehensive_form (X := sample_xlsx) sample_now sample_metrics
              sample_properties "Test Investor" "outputs/TEST_ESG_Form.xlsx")
    as [[[]|e] wb] eqn:Hform; [|vm_compute in Hform; discriminate].
  destruct (returned_form_has_a_sheet_per_property _ _ _ _ _ _ Hform)
    as (_ & Hclosed & _ & _ & Hsheets & _).
  exists wb. split; [reflexivity|]. split; [exact Hclosed|exact Hsheets].
Defined.


Lemma test_workflow_form_is_written :
  is_returned
    (fst (create_comprehensive_form (X := sample_xlsx) sample_now sample_metrics
            sample_properties "Test Investor" "outputs/TEST_ESG_Form.xlsx"))
  = true.
Proof.
  rewrite (form_is_written_exactly_when (X := sample_xlsx)). reflexivity.
Defined.

Lemma nameless_test_property_raises_KeyError :
  exists wb,
    create_comprehensive_form (X := sample_xlsx) sample_now sample_metrics
      properties_with_a_nameless_one "Test Investor" "outputs/TEST_ESG_Form.xlsx"
    = (Raised (KeyError "name"), wb)
    /\ map fst (worksheets wb) = ["Overview"; "Metrics Summary"; "Data Entry"]
    /\ closed wb = false.
Proof.
  apply (nameless_property_raises_KeyError (X := sample_xlsx) sample_now sample_metrics
           properties_with_a_nameless_one "Test Investor" "outputs/TEST_ESG_Form.xlsx");
    reflexivity.
Defined.

Lemma flat_metrics_fail_in_the_summary :
  exists e wb,
    create_comprehensive_form (X := sample_xlsx) sample_now flat_metrics sample_properties
      "Test Investor" "outputs/TEST_ESG_Form.xlsx" = (Raised e, wb)
    /\ map fst (worksheets wb) = ["Overview"; "Metrics Summary"]
    /\ closed wb = false.
Proof.
  apply (misshaped_metrics_fail_in_the_summary (X := sample_xlsx) sample_now flat_metrics
           sample_properties "Test Investor" "outputs/TEST_ESG_Form.xlsx").
  reflexivity.
Defined.

Lemma main_writes_the_form_for_plain_text :
  exists wb w',
    main (E := sample_external (Returned (PStr "I could not produce JSON.")))
      (X := sample_xlsx) sample_now empty_world = (Returned wb, w')
    /\ closed wb = true
    /\ map fst (worksheets wb)
       = ["Overview"; "Metrics Summary"; "Data Entry"; "Property A"; "Property B";
          "Property C"; "Validation Rules"].
Proof.
  destruct (main_writes_the_fallback_form
              (E := sample_external (Returned (PStr "I could not produce JSON.")))
              (X := sample_xlsx)
              sample_now (PStr "I could not produce JSON.") empty_world
              (printed main_banner empty_world)
              (printed main_steps_announced (printed main_banner empty_world))
              eq_refl eq_refl eq_refl eq_refl eq_refl)
    as (wb & w' & Hmain & _ & Hclosed & _ & Hsheets).
  exists wb, w'. split; [exact Hmain|]. split; [exact Hclosed|exact Hsheets].
Defined.

(** ** No cell is written twice *)

Section Rows.

Context {X : XlsxWriter}.

Lemma written_cells_app (ops1 ops2 : list cell_op) :
  written_cells (ops1 ++ ops2) = written_cells ops1 ++ written_cells ops2.
Proof. apply flat_map_app. Qed.

Lemma NoDup_rows_apart (hi : nat) (cells1 cells2 : list (nat * nat)) :
  NoDup cells1 -> NoDup cells2 ->
  Forall (fun cell => fst cell < hi) cells1 ->
  Forall (fun cell => hi <= fst cell) cells2 ->
  NoDup (cells1 ++ cells2).
Proof.
  intros H1 H2 Hlow Hhigh. apply NoDup_app. split; [exact H1|]. split; [|exact H2].
  intros cell Hin1 Hin2.
  rewrite List.Forall_forall in Hlow, Hhigh.
  apply list_elem_of_In in Hin1, Hin2.
  specialize (Hlow cell Hin1). specialize (Hhigh cell Hin2). lia.
Qed.

Lemma rows_from_ret (row : nat) : rows_from (sheet_ret row) row.
Proof.
  intros ops. exists []. cbn. rewrite app_nil_r.
  split; [reflexivity|]. split; [constructor|]. split; [constructor|].
  intros hi [= <-]. split; [lia|constructor].
Qed.

Lemma rows_from_bind (m : Sheet nat) (k : nat -> Sheet nat) (lo : nat) :
  rows_from m lo -> (forall row, rows_from (k row) row) ->
  rows_from (sheet_bind m k) lo.
Proof.
  intros Hm Hk ops. unfold sheet_bind.
  destruct (Hm ops) as (new1 & Hops1 & Hnd1 & Hlo1 & Hhi1).
  destruct (m ops) as [[row|e] ops1]; cbn [fst snd] in *; subst ops1.
  - destruct (Hhi1 row eq_refl) as [Hle Hbelow].
    destruct (Hk row (ops ++ new1)) as (new2 & Hops2 & Hnd2 & Hlo2 & Hhi2).
    exists (new1 ++ new2). rewrite Hops2, app_assoc, written_cells_app.
    split; [reflexivity|].
    split; [eapply NoDup_rows_apart; eassumption|].
    split.
    + apply Forall_app. split; [exact Hlo1|].
      eapply List.Forall_impl; [|exact Hlo2]. cbn. intros cell Hcell. lia.
    + intros hi Hret. destruct (Hhi2 hi Hret) as [Hle2 Hbelow2].
      split; [lia|]. apply Forall_app. split; [|exact Hbelow2].
      eapply List.Forall_impl; [|exact Hbelow]. cbn. intros cell Hcell. lia.
  - exists new1. split; [reflexivity|]. split; [exact Hnd1|]. split; [exact Hlo1|].
    intros hi [=].
Qed.

Lemma rows_from_lift {A} (o : outcome A) (k : A -> Sheet nat) (lo : nat) :
  (forall a, o = Returned a -> rows_from (k a) lo) ->
  rows_from (sheet_bind (sheet_lift o) k) lo.
Proof.
  intros Hk ops. destruct o as [a|e]; [apply (Hk a eq_refl)|].
  exists []. cbn. rewrite app_nil_r.
  split; [reflexivity|]. split; [constructor|]. split; [constructor|]. intros hi [=].
Qed.

(** A step within one row, then the rest from the next row on. *)
Lemma rows_from_step {A} (m : Sheet A) (k : Sheet nat) (row : nat) :
  in_row m row -> rows_from k (row + 1) ->
  rows_from (sheet_bind m (fun _ => k)) row.
Proof.
  intros Hm Hk ops. unfold sheet_bind.
  destruct (Hm ops) as (new1 & Hops1 & Hnd1 & Hrow1).
  destruct (m ops) as [[a|e] ops1]; cbn [fst snd] in *; subst ops1.
  - destruct (Hk (ops ++ new1)) as (new2 & Hops2 & Hnd2 & Hlo2 & Hhi2).
    exists (new1 ++ new2). rewrite Hops2, app_assoc, written_cells_app.
    split; [reflexivity|].
    split.
    + apply (NoDup_rows_apart (row + 1)); try assumption.
      eapply List.Forall_impl; [|exact Hrow1]. cbn. intros cell Hcell. lia.
    + split.
      * apply Forall_app. split.
        -- eapply List.Forall_impl; [|exact Hrow1]. cbn. intros cell Hcell. lia.
        -- eapply List.Forall_impl; [|exact Hlo2]. cbn. intros cell Hcell. lia.
      * intros hi Hret. destruct (Hhi2 hi Hret) as [Hle2 Hbelow2].
        split; [lia|]. apply Forall_app. split; [|exact Hbelow2].
        eapply List.Forall_impl; [|exact Hrow1]. cbn. intros cell Hcell. lia.
  - exists new1. split; [reflexivity|]. split; [exact Hnd1|].
    split; [|intros hi [=]].
    eapply List.Forall_impl; [|exact Hrow1]. cbn. intros cell Hcell. lia.
Qed.

Lemma rows_from_for_rows {A} (xs : list A) (body : A -> nat -> Sheet nat) :
  (forall x row, rows_from (body x row) row) ->
  forall row, rows_from (for_rows xs row body) row.
Proof.
  intros Hbody. induction xs as [|x xs IH]; intros row; [apply rows_from_ret|].
  cbn [for_rows]. apply rows_from_bind; [apply Hbody|exact IH].
Qed.

Lemma rows_from_metric_rows (metrics_data : pyvalue) (row : nat)
    (category_row subcategory_row : string -> nat -> Sheet unit)
    (metric_row : pyvalue -> nat -> Sheet unit) :
  (forall c r, in_row (category_row c r) r) ->
  (forall s r, in_row (subcategory_row s r) r) ->
  (forall m r, in_row (metric_row m r) r) ->
  rows_from (metric_rows metrics_data row category_row subcategory_row metric_row) row.
Proof.
  intros Hc Hs Hm. unfold metric_rows.
  apply rows_from_lift. intros categories _.
  apply rows_from_for_rows. intros [c subs] r. cbn [fst snd].
  apply rows_from_step; [apply Hc|].
  apply rows_from_lift. intros subcategories _.
  apply rows_from_for_rows. intros [s metrics] r'. cbn [fst snd].
  apply rows_from_step; [apply Hs|].
  apply rows_from_lift. intros items _.
  apply rows_from_for_rows. intros m r''.
  apply rows_from_step; [apply Hm|apply rows_from_ret].
Qed.

(** Cells of one row are distinct when their columns are. *)
(** The cells that the steps of a row fill. *)
Lemma fills_ret {A} (a : A) : fills (sheet_ret a) [].
Proof.
  intros ops. exists [], []. cbn. rewrite app_nil_r. repeat split.
Qed.

Lemma fills_bind {A B} (m : Sheet A) (k : A -> Sheet B) (cells1 cells2 : list (nat * nat)) :
  fills m cells1 -> (forall a, fills (k a) cells2) -> fills (sheet_bind m k) (cells1 ++ cells2).
Proof.
  intros Hm Hk ops. unfold sheet_bind.
  destruct (Hm ops) as (new1 & rest1 & Hops1 & Hcells1 & Hdone1).
  destruct (m ops) as [[a|e] ops1]; cbn [fst snd] in *; subst ops1.
  - rewrite (Hdone1 eq_refl), app_nil_r in Hcells1. subst cells1.
    destruct (Hk a (ops ++ new1)) as (new2 & rest2 & Hops2 & Hcells2 & Hdone2).
    exists (new1 ++ new2), rest2. rewrite Hops2, app_assoc, written_cells_app, Hcells2.
    split; [reflexivity|]. split; [rewrite app_assoc; reflexivity|exact Hdone2].
  - exists new1, (rest1 ++ cells2). split; [reflexivity|].
    split; [rewrite Hcells1, app_assoc; reflexivity|discriminate].
Qed.

Lemma fills_lift {A B} (o : outcome A) (k : A -> Sheet B) (cells : list (nat * nat)) :
  (forall a, o = Returned a -> fills (k a) cells) ->
  fills (sheet_bind (sheet_lift o) k) cells.
Proof.
  intros Hk ops. destruct o as [a|e]; [apply (Hk a eq_refl)|].
  exists [], cells. cbn. rewrite app_nil_r. split; [reflexivity|].
  split; [reflexivity|discriminate].
Qed.

Lemma fills_write_cell (row col : nat) (value : pyvalue) (cell_format : option Format) :
  fills (write_cell row col value cell_format) [(row, col)].
Proof.
  intros ops. unfold write_cell. destruct (write_error value) as [e|].
  - exists [], [(row, col)]. cbn. rewrite app_nil_r. split; [reflexivity|].
    split; [reflexivity|discriminate].
  - exists [write row col value cell_format], []. repeat split.
Qed.

Lemma fills_write_as (formats : Formats) (row col : nat) (value : pyvalue) (key : string) :
  fills (write_as formats row col value key) [(row, col)].
Proof.
  unfold write_as. apply fills_lift. intros f _. apply fills_write_cell.
Qed.

Lemma fills_write_field (formats : Formats) (row col : nat) (metric : pyvalue)
    (key default : string) :
  fills (write_field formats row col metric key default) [(row, col)].
Proof.
  unfold write_field. apply fills_lift. intros value _. apply fills_write_as.
Qed.

Lemma fills_add_validation (row col : nat) (data_type : pyvalue) :
  fills (_add_validation row col data_type) [].
Proof.
  intros ops.
  destruct (add_validation_spec row col data_type ops)
    as (added & Hrun & [->|[options ->]] & _); rewrite Hrun; eexists _, [];
    repeat split.
Qed.

Lemma fills_input_cell (formats : Formats) (row col : nat) (data_type : pyvalue) :
  fills (input_cell formats row col data_type) [(row, col)].
Proof.
  unfold input_cell. apply fills_lift. intros cell_format _.
  apply (fills_bind _ _ [(row, col)] []); [apply fills_write_cell|].
  intros _. apply fills_add_validation.
Qed.

Lemma fills_for_each {A} (xs : list A) (body : A -> Sheet unit)
    (cells : A -> list (nat * nat)) :
  (forall x, fills (body x) (cells x)) -> fills (for_each xs body) (flat_map cells xs).
Proof.
  intros Hbody. induction xs as [|x xs IH]; [apply fills_ret|].
  cbn [for_each flat_map]. apply fills_bind; [apply Hbody|intros _; exact IH].
Qed.

(** Distinct cells of one row are filled within that row. *)
Lemma fills_in_row {A} (m : Sheet A) (cells : list (nat * nat)) (row : nat) :
  fills m cells -> NoDup cells -> Forall (fun cell => fst cell = row) cells -> in_row m row.
Proof.
  intros Hm Hnd Hrow ops. destruct (Hm ops) as (new & rest & Hops & -> & _).
  exists new. split; [exact Hops|].
  apply NoDup_app in Hnd as (Hnd & _ & _). apply Forall_app in Hrow as [Hrow _].
  split; assumption.
Qed.

(** Cells of one row are distinct when their columns are. *)
Ltac distinct_cells :=
  cbn [written_cells flat_map written_cell app];
  repeat (apply NoDup_cons_2;
          [rewrite ?elem_of_cons, ?elem_of_nil; intuition congruence|]);
  apply NoDup_nil_2.

Lemma in_row_write_as (formats : Formats) (row col : nat) (value : pyvalue) (key : string) :
  in_row (write_as formats row col value key) row.
Proof.
  apply (fills_in_row _ [(row, col)]); [apply fills_write_as|distinct_cells|].
  repeat constructor.
Qed.

Lemma in_row_merge (formats : Formats) (row c1 c2 : nat) (data key : string) :
  in_row
    (sheet_bind (sheet_lift (format_item formats key))
       (fun f => call (merge_range_at row c1 row c2 data f)))
    row.
Proof.
  intros ops. unfold sheet_bind, sheet_lift, call.
  destruct (format_item formats key) as [f|e].
  - exists [merge_range_at row c1 row c2 data f]. split; [reflexivity|]. split; constructor.
  - exists []. cbn. rewrite app_nil_r. split; [reflexivity|]. split; constructor.
Qed.

Lemma in_row_summary_metric (metric : pyvalue) (row : nat) :
  in_row
    (sheet_bind (write_field format_properties row 2 metric "name" "") (fun _ =>
     sheet_bind (write_field format_properties row 3 metric "unit" "") (fun _ =>
     sheet_bind (write_field format_properties row 4 metric "frequency" "Annual") (fun _ =>
     write_field format_properties row 5 metric "data_type" "text"))))
    row.
Proof.
  apply (fills_in_row _ ([(row, 2)] ++ [(row, 3)] ++ [(row, 4)] ++ [(row, 5)])).
  - repeat (apply fills_bind; [apply fills_write_field|intros _]).
    apply fills_write_field.
  - distinct_cells.
  - repeat constructor.
Qed.

(** X16. Whatever the metrics are, the Metrics Summary sheet never writes
    a cell twice: the six headers are in row 0, and from row 1 on every
    category, subcategory and metric is written in a row of its own. *)
Theorem metrics_summary_never_overwrites (metrics_data : pyvalue) :
  let cells := written_cells (snd (metrics_summary_sheet format_properties metrics_data []))
  in
  NoDup cells
  /\ firstn 6 cells = [(0, 0); (0, 1); (0, 2); (0, 3); (0, 4); (0, 5)]
  /\ Forall (fun cell => 1 <= fst cell) (skipn 6 cells).
Proof.
  cbv zeta. unfold metrics_summary_sheet.
  pose proof (rows_from_metric_rows metrics_data 1
                (fun category row => write_as format_properties row 0 (PStr category) "category")
                (fun subcategory row =>
                   write_as format_properties row 1 (PStr subcategory) "subcategory")
                (fun metric row =>
                   sheet_bind (write_field format_properties row 2 metric "name" "") (fun _ =>
                   sheet_bind (write_field format_properties row 3 metric "unit" "") (fun _ =>
                   sheet_bind (write_field format_properties row 4 metric "frequency" "Annual")
                     (fun _ => write_field format_properties row 5 metric "data_type" "text"))))
                (fun c r => in_row_write_as _ _ _ _ _)
                (fun s r => in_row_write_as _ _ _ _ _)
                in_row_summary_metric) as Hrows.
  remember (metric_rows metrics_data 1 _ _ _) as rows eqn:Hdef. clear Hdef.
  unfold sheet_bind at 1 2 3 4 5 6 7 8. cbn [call app enumerate imap for_each].
  unfold write_as, write_cell, sheet_bind, sheet_lift, call, sheet_ret.
  cbn [format_item format_properties assoc_get String.eqb Ascii.eqb Bool.eqb fst snd app
         compose write_error].
  match goal with
  | |- context [rows ?o] => destruct (Hrows o) as (new & Hops & Hnd & Hlo & _);
                            destruct (rows o) as [[hi|e] ops']
  end;
    cbn [fst snd] in *; subst ops'; rewrite written_cells_app;
    (split; [|split; [reflexivity|exact Hlo]]);
    apply (NoDup_rows_apart 1); try assumption; try distinct_cells;
    repeat constructor.
Qed.

(** The input cells of one metric for the properties from [a] on. *)
Lemma input_cells_apart (row a n : nat) :
  NoDup (flat_map (fun i => [(row, 5 + i)]) (seq a n))
  /\ Forall (fun cell => fst cell = row /\ 5 + a <= snd cell)
       (flat_map (fun i => [(row, 5 + i)]) (seq a n)).
Proof.
  revert a. induction n as [|n IH]; intros a; [split; constructor|].
  destruct (IH (S a)) as [Hnd Hcells]. cbn [seq flat_map app]. split.
  - apply NoDup_cons_2; [|exact Hnd].
    intros Hin. apply list_elem_of_In in Hin.
    rewrite List.Forall_forall in Hcells. specialize (Hcells _ Hin). cbn in Hcells. lia.
  - constructor; [cbn; lia|].
    eapply List.Forall_impl; [|exact Hcells]. cbn. intros cell Hcell. lia.
Qed.

Lemma in_row_data_entry_metric (properties : list Property) (metric : pyvalue) (row : nat) :
  in_row
    (sheet_bind (write_field format_properties row 2 metric "name" "") (fun _ =>
     sheet_bind (write_field format_properties row 3 metric "description" "") (fun _ =>
     sheet_bind (write_field format_properties row 4 metric "unit" "") (fun _ =>
     sheet_bind (sheet_lift (py_get metric "data_type" (PStr "text"))) (fun data_type =>
     for_each (seq 0 (length properties))
       (fun i => input_cell format_properties row (5 + i) data_type))))))
    row.
Proof.
  destruct (input_cells_apart row 0 (length properties)) as [Hnd Hcells].
  rewrite List.Forall_forall in Hcells.
  apply (fills_in_row _ ([(row, 2)] ++ [(row, 3)] ++ [(row, 4)]
                         ++ flat_map (fun i => [(row, 5 + i)]) (seq 0 (length properties)))).
  - repeat (apply fills_bind; [apply fills_write_field|intros _]).
    apply fills_lift. intros data_type _.
    apply fills_for_each. intros i. apply fills_input_cell.
  - cbn [app].
    repeat (apply NoDup_cons_2;
            [rewrite ?elem_of_cons; intros Hin;
             repeat (destruct Hin as [Hin|Hin]; [congruence|]);
             apply list_elem_of_In in Hin; specialize (Hcells _ Hin); cbn in Hcells; lia|]).
    exact Hnd.
  - cbn [app]. repeat (constructor; [reflexivity|]).
    apply List.Forall_forall. intros cell Hin. apply (Hcells cell Hin).
Qed.

Lemma bind_call {B} (op : cell_op) (k : unit -> Sheet B) (ops : list cell_op) :
  sheet_bind (call op) k ops = k tt (ops ++ [op]).
Proof. reflexivity. Qed.

Lemma bind_calls {A B} (xs : list A) (f : A -> cell_op) (k : unit -> Sheet B)
    (ops : list cell_op) :
  sheet_bind (for_each xs (fun x => call (f x))) k ops = k tt (ops ++ map f xs).
Proof.
  unfold sheet_bind.
  assert (H : forall o, for_each xs (fun x => call (f x)) o = (Returned tt, o ++ map f xs)).
  { induction xs as [|x xs IH]; intros o.
    - cbn. rewrite app_nil_r. reflexivity.
    - cbn [for_each map]. unfold sheet_bind, call at 1. rewrite IH, <- app_assoc.
      reflexivity. }
  rewrite H. reflexivity.
Qed.

Lemma bind_header {B} (row col : nat) (text : string) (k : unit -> Sheet B)
    (ops : list cell_op) :
  sheet_bind (write_as format_properties row col (PStr text) "header") k ops
    = k tt (ops ++ [write row col (PStr text) (format_get format_properties "header")]).
Proof. reflexivity. Qed.

Lemma written_cells_set_columns (xs : list nat) (f g w : nat -> nat) :
  written_cells (map (fun i => set_column_at (f i) (g i) (w i)) xs) = [].
Proof. induction xs as [|x xs IH]; [reflexivity|exact IH]. Qed.

(** The property headers of the Data Entry sheet, for the properties
    numbered from [a] on. *)
Lemma property_headers_in_row (properties : list Property) (a : nat) (ops : list cell_op) :
  exists new,
    snd (for_each (imap (fun i x => (a + i, x)) properties)
           (fun prop =>
              sheet_bind (sheet_lift (prop_item (snd prop) "name"))
                (fun name =>
                   write_as format_properties 0 (5 + fst prop) (PStr name) "header"))
           ops)
      = ops ++ new
    /\ NoDup (written_cells new)
    /\ Forall (fun cell => fst cell = 0 /\ 5 + a <= snd cell) (written_cells new).
Proof.
  revert a ops. induction properties as [|p properties IH]; intros a ops.
  - exists []. cbn. rewrite app_nil_r. split; [reflexivity|]. split; constructor.
  - cbn [imap for_each fst snd]. unfold sheet_bind at 1.
    destruct (prop_item p "name") as [name|e].
    + change (sheet_bind (sheet_lift (Returned name)) _ ops)
        with (Returned tt,
              ops ++ [write 0 (5 + (a + 0)) (PStr name)
                        (format_get format_properties "header")]).
      cbv beta iota.
      rewrite (imap_ext _ (fun i x => (S a + i, x))) by (intros; cbn; f_equal; lia).
      destruct (IH (S a) (ops ++ [write 0 (5 + (a + 0)) (PStr name)
                                    (format_get format_properties "header")]))
        as (new & -> & Hnd & Hcells).
      eexists. split; [rewrite <- app_assoc; reflexivity|].
      cbn [app written_cells flat_map written_cell]. fold (written_cells new).
      split.
      * apply NoDup_cons_2; [|exact Hnd].
        intros Hin. apply list_elem_of_In in Hin.
        rewrite List.Forall_forall in Hcells. specialize (Hcells _ Hin). cbn in Hcells. lia.
      * constructor; [cbn; lia|].
        eapply List.Forall_impl; [|exact Hcells]. cbn. intros cell Hcell. lia.
    + exists []. cbn. rewrite app_nil_r. split; [reflexivity|]. split; constructor.
Qed.

Lemma data_entry_cells (metrics_data : pyvalue) (properties : list Property) :
  exists rest,
    written_cells (snd (data_entry_sheet format_properties metrics_data properties []))
      = [(0, 0); (0, 1); (0, 2); (0, 3); (0, 4)] ++ rest
    /\ NoDup ([(0, 0); (0, 1); (0, 2); (0, 3); (0, 4)] ++ rest).
Proof.
  unfold data_entry_sheet.
  pose proof (rows_from_metric_rows metrics_data 1
                (fun category row =>
                   sheet_bind (sheet_lift (format_item format_properties "category"))
                     (fun f => call (merge_range_at row 0 row 4 category f)))
                (fun subcategory row =>
                   sheet_bind (sheet_lift (format_item format_properties "subcategory"))
                     (fun f => call (merge_range_at row 1 row 4 subcategory f)))
                (fun metric row =>
                   sheet_bind (write_field format_properties row 2 metric "name" "") (fun _ =>
                   sheet_bind (write_field format_properties row 3 metric "description" "")
                     (fun _ =>
                   sheet_bind (write_field format_properties row 4 metric "unit" "") (fun _ =>
                   sheet_bind (sheet_lift (py_get metric "data_type" (PStr "text")))
                     (fun data_type =>
                        for_each (seq 0 (length properties))
                          (fun i => input_cell format_properties row (5 + i) data_type))))))
                (fun c r => in_row_merge _ _ _ _ _ _)
                (fun s r => in_row_merge _ _ _ _ _ _)
                (in_row_data_entry_metric properties)) as Hrows.
  remember (metric_rows metrics_data 1 _ _ _) as rows eqn:Hdef. clear Hdef.
  rewrite !bind_call, bind_calls, !bind_header.
  unfold enumerate, sheet_bind at 1.
  match goal with
  | |- context [for_each _ _ ?o] =>
      destruct (property_headers_in_row properties 0 o) as (new1 & Hops1 & Hnd1 & Hrow1);
      set (ops0 := o) in *
  end.
  assert (Hcells0 : written_cells ops0 = [(0, 0); (0, 1); (0, 2); (0, 3); (0, 4)]).
  { unfold ops0. rewrite !written_cells_app, written_cells_set_columns. reflexivity. }
  cbn [Nat.add] in Hops1.
  assert (Hhead : NoDup ([(0, 0); (0, 1); (0, 2); (0, 3); (0, 4)] ++ written_cells new1)).
  { rewrite List.Forall_forall in Hrow1. cbn [app].
    repeat (apply NoDup_cons_2;
            [rewrite ?elem_of_cons; intros Hin;
             repeat (destruct Hin as [Hin|Hin]; [congruence|]);
             apply list_elem_of_In in Hin; specialize (Hrow1 _ Hin); cbn in Hrow1; lia|]).
    exact Hnd1. }
  destruct (for_each _ _ ops0) as [[[]|e] ops1]; cbn [fst snd] in Hops1; subst ops1.
  - rewrite bind_call. unfold sheet_bind, sheet_ret.
    destruct (Hrows ((ops0 ++ new1) ++ [freeze_panes 1 5]))
      as (new2 & Hops2 & Hnd2 & Hlo2 & _).
    assert (Hsnd : snd (match rows ((ops0 ++ new1) ++ [freeze_panes 1 5]) with
                        | (Returned _, ops') => (Returned tt, ops')
                        | (Raised e, ops') => (Raised e, ops')
                        end) = ((ops0 ++ new1) ++ [freeze_panes 1 5]) ++ new2)
      by (destruct (rows _) as [[hi|e] ops']; exact Hops2).
    rewrite Hsnd, !written_cells_app, Hcells0.
    change (written_cells [freeze_panes 1 5]) with (@nil (nat * nat)).
    rewrite app_nil_r.
    exists (written_cells new1 ++ written_cells new2).
    split; [rewrite app_assoc; reflexivity|].
    rewrite app_assoc. apply (NoDup_rows_apart 1); try assumption.
    apply Forall_app. split; [repeat constructor|].
    eapply List.Forall_impl; [|exact Hrow1]. cbn. intros cell Hcell. lia.
  - cbv beta iota. cbn [snd]. rewrite written_cells_app, Hcells0.
    exists (written_cells new1). split; [reflexivity|exact Hhead].
Qed.

(** X17. Whatever the metrics and the properties are, and whether the
    sheet is finished or fails on the way, the Data Entry sheet never writes
    a cell twice; its first five cells are the fixed headers of row 0. *)
Theorem data_entry_never_overwrites (metrics_data : pyvalue) (properties : list Property) :
  let cells :=
    written_cells (snd (data_entry_sheet format_properties metrics_data properties []))
  in
  NoDup cells
  /\ firstn 5 cells = [(0, 0); (0, 1); (0, 2); (0, 3); (0, 4)].
Proof.
  cbv zeta. destruct (data_entry_cells metrics_data properties) as (rest & -> & Hnd).
  split; [exact Hnd|reflexivity].
Qed.

(** ** The rows that the metrics take *)

Lemma for_rows_count {A} (xs : list A) (body : A -> nat -> Sheet nat) (n : A -> nat) :
  (forall x row ops hi, fst (body x row ops) = Returned hi -> hi = row + n x) ->
  forall row ops hi,
    fst (for_rows xs row body ops) = Returned hi -> hi = row + list_sum (map n xs).
Proof.
  intros Hbody. induction xs as [|x xs IH]; intros row ops hi.
  - cbn. intros [= <-]. lia.
  - cbn [for_rows map]. unfold sheet_bind.
    destruct (body x row ops) as [[row1|e] ops1] eqn:Hx; [|discriminate].
    intros Hrest. apply IH in Hrest.
    pose proof (Hbody x row ops row1) as Hrow1. rewrite Hx in Hrow1.
    specialize (Hrow1 eq_refl). unfold list_sum in *. cbn [fold_right]. lia.
Qed.

Lemma metric_rows_count (metrics_data : pyvalue) (row : nat)
    (category_row subcategory_row : string -> nat -> Sheet unit)
    (metric_row : pyvalue -> nat -> Sheet unit) (ops : list cell_op) (hi : nat) :
  fst (metric_rows metrics_data row category_row subcategory_row metric_row ops)
    = Returned hi ->
  hi = row + rows_of_taxonomy metrics_data.
Proof.
  unfold metric_rows, sheet_bind at 1, sheet_lift.
  destruct metrics_data; try discriminate. cbn [py_items rows_of_taxonomy].
  apply for_rows_count. clear row ops hi. intros [c subs] row ops hi. cbn [fst snd].
  unfold sheet_bind at 1. destruct (category_row c row ops) as [[[]|e] ops1]; [|discriminate].
  unfold sheet_bind at 1, sheet_lift.
  destruct subs; try discriminate. cbn [py_items rows_of_subcategories].
  intros Hsubs.
  apply (for_rows_count _ _ (fun sub => 1 + iteration_length (snd sub))) in Hsubs; [lia|].
  clear. intros [s metrics] row ops hi. cbn [fst snd].
  unfold sheet_bind at 1.
  destruct (subcategory_row s row ops) as [[[]|e] ops1]; [|discriminate].
  unfold sheet_bind at 1, sheet_lift, iteration_length.
  destruct (py_iter metrics) as [items|e]; [|discriminate].
  intros Hitems.
  apply (for_rows_count _ _ (fun _ => 1)) in Hitems.
  - rewrite Hitems. clear. unfold list_sum.
    induction items as [|m items IH]; cbn in *; lia.
  - clear. intros m row ops hi. unfold sheet_bind.
    destruct (metric_row m row ops) as [[[]|e] ops1]; [|discriminate].
    cbn. intros [= <-]. lia.
Qed.

(** X18. When the Metrics Summary sheet can be written, it takes one row
    for the headers and one row for each category, each subcategory and
    each metric of the taxonomy: every cell written lies in the rows 0 to
    [rows_of_taxonomy metrics_data]. *)
Theorem metrics_summary_takes_a_row_per_entry (metrics_data : pyvalue) (ops : list cell_op) :
  metrics_summary_sheet format_properties metrics_data [] = (Returned tt, ops) ->
  Forall (fun cell => fst cell <= rows_of_taxonomy metrics_data) (written_cells ops).
Proof.
  unfold metrics_summary_sheet.
  pose proof (rows_from_metric_rows metrics_data 1
                (fun category row => write_as format_properties row 0 (PStr category) "category")
                (fun subcategory row =>
                   write_as format_properties row 1 (PStr subcategory) "subcategory")
                (fun metric row =>
                   sheet_bind (write_field format_properties row 2 metric "name" "") (fun _ =>
                   sheet_bind (write_field format_properties row 3 metric "unit" "") (fun _ =>
                   sheet_bind (write_field format_properties row 4 metric "frequency" "Annual")
                     (fun _ => write_field format_properties row 5 metric "data_type" "text"))))
                (fun c r => in_row_write_as _ _ _ _ _)
                (fun s r => in_row_write_as _ _ _ _ _)
                in_row_summary_metric) as Hrows.
  pose proof (metric_rows_count metrics_data 1
                (fun category row => write_as format_properties row 0 (PStr category) "category")
                (fun subcategory row =>
                   write_as format_properties row 1 (PStr subcategory) "subcategory")
                (fun metric row =>
                   sheet_bind (write_field format_properties row 2 metric "name" "") (fun _ =>
                   sheet_bind (write_field format_properties row 3 metric "unit" "") (fun _ =>
                   sheet_bind (write_field format_properties row 4 metric "frequency" "Annual")
                     (fun _ => write_field format_properties row 5 metric "data_type" "text")))))
    as Hcount.
  remember (metric_rows metrics_data 1 _ _ _) as rows eqn:Hdef. clear Hdef.
  rewrite !bind_call.
  unfold sheet_bind at 1. cbn [enumerate imap for_each].
  unfold write_as at 1 2 3 4 5 6. unfold write_cell at 1 2 3 4 5 6.
  unfold sheet_bind at 1 2 3 4 5 6 7 8 9 10 11 12. unfold sheet_lift, call, sheet_ret.
  cbn [format_item format_properties assoc_get String.eqb Ascii.eqb Bool.eqb fst snd app
         compose write_error].
  unfold sheet_bind. cbv beta iota.
  match goal with
  | |- context [rows ?o] =>
      destruct (Hrows o) as (new & Hops & _ & _ & Hhi); specialize (Hcount o);
      destruct (rows o) as [[hi|e] ops']
  end; [|discriminate].
  cbn [fst snd] in *. subst ops'. intros [= <-].
  destruct (Hhi hi eq_refl) as [_ Hbelow]. specialize (Hcount hi eq_refl). subst hi.
  cbn [written_cells flat_map written_cell app]. fold (written_cells new).
  repeat (constructor; [cbn; lia|]).
  eapply List.Forall_impl; [|exact Hbelow]. cbn. intros cell Hcell. lia.
Qed.

End Rows.

Lemma test_workflow_summary_fits_thirteen_rows :
  exists ops,
    metrics_summary_sheet (X := sample_xlsx) format_properties sample_metrics []
    = (Returned tt, ops)
    /\ rows_of_taxonomy sample_metrics = 12
    /\ Forall (fun cell => fst cell <= 12) (written_cells ops).
Proof.
  eexists. split; [vm_compute; reflexivity|]. split; [reflexivity|].
  apply (metrics_summary_takes_a_row_per_entry (X := sample_xlsx) sample_metrics). vm_compute. reflexivity.
Defined.

